(** * camera_visualizer: camera backends, exposure search and the capture tick

    A shallow embedding of
      - [camera_interface/mock_interface.py]  (the [Camera] interface,
        [MockCamera], [CameraEnum], the registry function [camera]),
      - [camera_interface/tis_interface.py]   ([TisCameraState], [TisCamera]),
      - [gui.py]                               ([GuiState], [VideoPlayer]).

    Python integers are [Z]; a numpy frame is a list of rows of samples; an
    object with mutable fields is a record threaded through a state monad
    that keeps the state reached when an exception is raised. *)

From Stdlib Require Import ZArith String Ascii List Bool Lia DecimalString DecimalN.
Import ListNotations.
Open Scope string_scope.
Open Scope Z_scope.

Set Implicit Arguments.

(** ** Exceptions and the state-and-exception monad *)

(** The Python exceptions that the embedded code can raise. *)
Inductive exn : Type :=
| IC4Exception
| TypeError
| AttributeError
| IndexError
| FileNotFoundError
| ImportError
| ZeroDivisionError
| ValueError (msg : string).

Inductive result (A : Type) : Type :=
| Ok (a : A)
| Raise (e : exn).
Arguments Ok {A} a.
Arguments Raise {A} e.

(** A method call on a mutable object: it returns or raises, and in both
    cases leaves the object in the state reached so far. *)
Definition M (St A : Type) : Type := St -> result A * St.

Definition ret {St A} (a : A) : M St A := fun s => (Ok a, s).

Definition raise {St A} (e : exn) : M St A := fun s => (Raise e, s).

Definition bind {St A B} (m : M St A) (k : A -> M St B) : M St B :=
  fun s => match m s with
           | (Ok a, s') => k a s'
           | (Raise e, s') => (Raise e, s')
           end.

Definition gets {St A} (f : St -> A) : M St A := fun s => (Ok (f s), s).

Definition modify {St} (f : St -> St) : M St unit := fun s => (Ok tt, f s).

(** [try: m except: isinstance(e, cls) -> h]; [cls] is read in the state in
    which the exception arrives. *)
Definition try_except {St A} (m : M St A) (cls : St -> exn -> bool)
  (h : M St A) : M St A :=
  fun s => match m s with
           | (Ok a, s') => (Ok a, s')
           | (Raise e, s') => if cls s' e then h s' else (Raise e, s')
           end.

(** Run a computation on one component of a larger state. *)
Definition zoom {St T A} (get : St -> T) (set : T -> St -> St) (m : M T A)
  : M St A :=
  fun s => let (r, t) := m (get s) in (r, set t s).

Declare Scope monad_scope.
Delimit Scope monad_scope with monad.
Notation "x <- m ;; k" := (bind m (fun x => k))
  (at level 61, m at next level, right associativity) : monad_scope.
Notation "m ;; k" := (bind m (fun _ => k))
  (at level 61, right associativity) : monad_scope.
Open Scope monad_scope.

(** ** Integers as text *)

(** [str(n)] for a Python integer. *)
Definition str (n : Z) : string := NilZero.string_of_int (Z.to_int n).

Fixpoint zeros (k : nat) : string :=
  match k with
  | O => EmptyString
  | S k' => String "0"%char (zeros k')
  end.

(** The format [04d] of an f-string: the decimal digits, zero-padded to four
    characters, the sign counted in the width. *)
Definition format_04d (n : Z) : string :=
  let ds := NilZero.string_of_uint (N.to_uint (Z.abs_N n)) in
  if n <? 0
  then "-" ++ zeros (3 - String.length ds) ++ ds
  else zeros (4 - String.length ds) ++ ds.

(** ** Paths and the directories that exist *)

(** [pathlib.Path] values, kept symbolic: an anchor, or [parent / child]. *)
Inductive Path : Type :=
| PathRoot (name : string)
| PathJoin (parent : Path) (child : string).

Fixpoint path_eqb (p q : Path) : bool :=
  match p, q with
  | PathRoot a, PathRoot b => String.eqb a b
  | PathJoin p' a, PathJoin q' b => path_eqb p' q' && String.eqb a b
  | _, _ => false
  end.

Definition is_dir (p : Path) (dirs : list Path) : bool :=
  existsb (path_eqb p) dirs.

Definition add_dir (p : Path) (dirs : list Path) : list Path :=
  if is_dir p dirs then dirs else p :: dirs.

Fixpoint add_dir_parents (p : Path) (dirs : list Path) : list Path :=
  match p with
  | PathRoot _ => add_dir p dirs
  | PathJoin q _ => add_dir p (add_dir_parents q dirs)
  end.

(** ** Frames, the serializer and the world outside the objects *)

(** A numpy frame: rows of samples.  The samples of [MockCamera] are the
    floats 0.0 and 1.0, written 0 and 1. *)
Definition frame : Type := list (list Z).

Definition frame_rect (h w : nat) (f : frame) : Prop :=
  length f = h /\ Forall (fun r => length r = w) f.

(** The display frame.  [TisCamera] computes it in floating point
    ([frame / dynamic_range], mean over the last axis, optional demosaicing);
    that computation is kept as a term. *)
Inductive frame_view : Type :=
| ViewArray (img : frame)
| ViewNormalized (raw : frame) (dynamic_range : Z) (demosaic : bool).

Inductive envi_value : Type :=
| EnviInt (n : Z)
| EnviStr (s : string)
| EnviList (l : list Z).

Definition envi_options : Type := list (string * envi_value).

(** [camera_visualizer.serializer] is an external collaborator: of
    [SaveFormatEnum] only the member [ENVI] is named by the code embedded
    here. *)
Inductive SaveFormatEnum : Type :=
| ENVI
| OtherFormat (value : string).

(** One call of [serializer.save_frame], with its keyword arguments. *)
Record SaveCall : Type := {
  sc_frame : frame;
  sc_save_folder : option Path;
  sc_filename_stem : string;
  sc_envi_options : envi_options;
  sc_fmt : SaveFormatEnum
}.

(** What the objects act on: the directories that exist, the calls received
    by the serializer, [sys.modules], the backend modules that can be
    imported on this host, and the folder [load_data_path()] answers. *)
Record World : Type := {
  dirs : list Path;
  saved : list SaveCall;
  sys_modules : list string;
  importable : list string;
  data_path : Path
}.

Definition set_dirs (d : list Path) (w : World) : World :=
  {| dirs := d; saved := saved w; sys_modules := sys_modules w;
     importable := importable w; data_path := data_path w |}.

Definition set_saved (l : list SaveCall) (w : World) : World :=
  {| dirs := dirs w; saved := l; sys_modules := sys_modules w;
     importable := importable w; data_path := data_path w |}.

Definition set_sys_modules (l : list string) (w : World) : World :=
  {| dirs := dirs w; saved := saved w; sys_modules := l;
     importable := importable w; data_path := data_path w |}.

(** [Path.mkdir(parents=..., exist_ok=True)]. *)
Definition mkdir (parents : bool) (p : Path) : M World unit :=
  fun w =>
    if is_dir p (dirs w) then (Ok tt, w)
    else if parents then (Ok tt, set_dirs (add_dir_parents p (dirs w)) w)
    else match p with
         | PathRoot _ => (Ok tt, set_dirs (p :: dirs w) w)
         | PathJoin q _ =>
             if is_dir q (dirs w) then (Ok tt, set_dirs (p :: dirs w) w)
             else (Raise FileNotFoundError, w)
         end.

(** [serializer.save_frame]: the call is recorded. *)
Definition serializer_save_frame (c : SaveCall) : M World unit :=
  modify (fun w => set_saved (saved w ++ [c]) w).

(** [import m]: a module already in [sys.modules] is not loaded again. *)
Definition import_module (m : string) : M World unit :=
  fun w =>
    if existsb (String.eqb m) (sys_modules w) then (Ok tt, w)
    else if existsb (String.eqb m) (importable w)
         then (Ok tt, set_sys_modules (m :: sys_modules w) w)
         else (Raise ImportError, w).

(** What the device and the clock answer during one call from the GUI: how
    many devices the SDK enumerates, whether it accepts opening the device,
    a property write, starting the stream, stopping it and closing the
    device, what [snap_single] delivers before its timeout ([None]: it
    raises [IC4Exception]), and [datetime.now()] in ISO format and in the
    format of the save subfolder. *)
Record Io : Type := {
  devices : nat;
  device_open_ok : bool;
  set_value_ok : bool;
  stream_setup_ok : bool;
  stream_stop_ok : bool;
  device_close_ok : bool;
  snap_single : option frame;
  now_isoformat : string;
  now_strftime : string
}.

(** ** The interface [Camera] (an abstract base class) *)

Class Camera (S : Type) : Type := {
  open : Io -> M S unit;
  close : Io -> M S unit;
  toggle_bit_depth : S -> S;
  bit_depth : S -> Z;
  get_frame : Io -> Z -> M S (frame * frame_view);
  shape : S -> list Z;
  exposure : S -> Z;
  exposure_range : S -> Z * Z * Z;
  set_exposure : Io -> Z -> M S bool;
  init_exposure : Z -> S -> S;
  adjust_exposure : Io -> M S unit;
  check_exposure : option frame -> M S bool;
  toggle_view : S -> S;
  get_envi_options : Io -> S -> envi_options;
  set_save_subfolder : string -> M (S * World) unit;
  save_folder : S -> option Path;
  exception_type : S -> exn -> bool
}.

(** [Camera.save_frame], the one method the base class implements. *)
Definition save_frame {S} `{Camera S} (io : Io) (frame : frame)
  (filename_stem : string) (fmt : SaveFormatEnum) : M (S * World) unit :=
  fun sw =>
    let (s, w) := sw in
    let c := {| sc_frame := frame;
                sc_save_folder := save_folder s;
                sc_filename_stem := filename_stem;
                sc_envi_options := get_envi_options io s;
                sc_fmt := fmt |} in
    let (r, w') := serializer_save_frame c w in
    (r, (s, w')).

(** ** [MockCamera] *)

Module Mock.

(** The fields set by [MockCamera.__init__]; [_shape] holds the two entries
    of the list [[480, 640]]. *)
Record MockCamera : Type := {
  _shape : nat * nat;
  _exposure : Z;
  _exposure_max : Z;
  _exposure_min : Z;
  _bit_depth : Z;
  _counter : Z;
  _toggle_view : Z;
  _save_folder : Path;
  _subfolder : option string
}.

Definition set__exposure (v : Z) (m : MockCamera) : MockCamera :=
  {| _shape := _shape m; _exposure := v; _exposure_max := _exposure_max m;
     _exposure_min := _exposure_min m; _bit_depth := _bit_depth m;
     _counter := _counter m; _toggle_view := _toggle_view m;
     _save_folder := _save_folder m; _subfolder := _subfolder m |}.

Definition set__exposure_max (v : Z) (m : MockCamera) : MockCamera :=
  {| _shape := _shape m; _exposure := _exposure m; _exposure_max := v;
     _exposure_min := _exposure_min m; _bit_depth := _bit_depth m;
     _counter := _counter m; _toggle_view := _toggle_view m;
     _save_folder := _save_folder m; _subfolder := _subfolder m |}.

Definition set__exposure_min (v : Z) (m : MockCamera) : MockCamera :=
  {| _shape := _shape m; _exposure := _exposure m;
     _exposure_max := _exposure_max m; _exposure_min := v;
     _bit_depth := _bit_depth m; _counter := _counter m;
     _toggle_view := _toggle_view m; _save_folder := _save_folder m;
     _subfolder := _subfolder m |}.

Definition set__bit_depth (v : Z) (m : MockCamera) : MockCamera :=
  {| _shape := _shape m; _exposure := _exposure m;
     _exposure_max := _exposure_max m; _exposure_min := _exposure_min m;
     _bit_depth := v; _counter := _counter m;
     _toggle_view := _toggle_view m; _save_folder := _save_folder m;
     _subfolder := _subfolder m |}.

Definition set__counter (v : Z) (m : MockCamera) : MockCamera :=
  {| _shape := _shape m; _exposure := _exposure m;
     _exposure_max := _exposure_max m; _exposure_min := _exposure_min m;
     _bit_depth := _bit_depth m; _counter := v;
     _toggle_view := _toggle_view m; _save_folder := _save_folder m;
     _subfolder := _subfolder m |}.

Definition set__toggle_view (v : Z) (m : MockCamera) : MockCamera :=
  {| _shape := _shape m; _exposure := _exposure m;
     _exposure_max := _exposure_max m; _exposure_min := _exposure_min m;
     _bit_depth := _bit_depth m; _counter := _counter m;
     _toggle_view := v; _save_folder := _save_folder m;
     _subfolder := _subfolder m |}.

Definition set__subfolder (v : option string) (m : MockCamera) : MockCamera :=
  {| _shape := _shape m; _exposure := _exposure m;
     _exposure_max := _exposure_max m; _exposure_min := _exposure_min m;
     _bit_depth := _bit_depth m; _counter := _counter m;
     _toggle_view := _toggle_view m; _save_folder := _save_folder m;
     _subfolder := v |}.

(** [MockCamera.__init__]. *)
Definition __init__ : M World MockCamera :=
  fun w =>
    let data_path := PathJoin (data_path w) "mock" in
    let (r, w') := mkdir true data_path w in
    match r with
    | Raise e => (Raise e, w')
    | Ok _ =>
        (Ok {| _shape := (480%nat, 640%nat);
               _exposure := 10000;
               _exposure_max := 500000;
               _exposure_min := 100;
               _bit_depth := 8;
               _counter := 0;
               _toggle_view := 0;
               _save_folder := data_path;
               _subfolder := None |}, w')
    end.

Definition open (io : Io) : M MockCamera unit := ret tt.

Definition close (io : Io) : M MockCamera unit := ret tt.

Definition toggle_bit_depth (m : MockCamera) : MockCamera :=
  set__bit_depth (if _bit_depth m =? 16 then 8 else 16) m.

Definition toggle_view (m : MockCamera) : MockCamera :=
  set__toggle_view (if _toggle_view m =? 1 then 0 else 1) m.

Definition bit_depth (m : MockCamera) : Z := _bit_depth m.

Definition shape (m : MockCamera) : list Z :=
  [Z.of_nat (fst (_shape m)); Z.of_nat (snd (_shape m))].

Definition exposure (m : MockCamera) : Z := _exposure m.

Definition exposure_range (m : MockCamera) : Z * Z * Z := (100, 500000, 20).

Definition set_exposure (io : Io) (exposure : Z) : M MockCamera bool :=
  fun m =>
    if (exposure >=? _exposure_max m) || (exposure <=? _exposure_min m)
    then (Ok false, m)
    else (Ok true, set__exposure exposure m).

Definition init_exposure (max_exposure : Z) (m : MockCamera) : MockCamera :=
  set__exposure_min 100 (set__exposure_max (Z.min max_exposure 500000) m).

Definition adjust_exposure (io : Io) : M MockCamera unit :=
  modify (fun m => set__exposure ((_exposure_min m + _exposure_max m) / 2) m).

Definition check_exposure (frame : option frame) : M MockCamera bool :=
  fun m =>
    let m1 := if _exposure m >? 10000
              then set__exposure_max (_exposure m - 1) m
              else set__exposure_min (_exposure m + 1) m in
    if (8000 <=? exposure m1) && (exposure m1 <=? 12000)
    then (Ok true, set__exposure_min 100 (set__exposure_max 500000 m1))
    else (Ok false, m1).

(** [img[:, x:x + 5] = 1.0] on one row of zeros. *)
Definition bar (n : nat) (x : Z) : list Z :=
  map (fun j => if (x <=? Z.of_nat j) && (Z.of_nat j <? x + 5) then 1 else 0)
      (seq 0 n).

Definition get_frame (io : Io) (fps : Z) : M MockCamera (frame * frame_view) :=
  fun m =>
    let (h, w) := _shape m in
    if _toggle_view m =? 0 then
      match w with
      | O => (Raise ZeroDivisionError, m)
      | _ =>
          let x := _counter m mod Z.of_nat w in
          let img := repeat (bar w x) h in
          (Ok (img, ViewArray img), set__counter (_counter m + 1) m)
      end
    else
      match h with
      | O => (Raise ZeroDivisionError, m)
      | _ =>
          let y := _counter m mod Z.of_nat h in
          let img := map (fun v => repeat v w) (bar h y) in
          (Ok (img, ViewArray img), set__counter (_counter m + 1) m)
      end.

Definition get_envi_options (io : Io) (m : MockCamera) : envi_options :=
  [ ("samples", EnviInt (Z.of_nat (snd (_shape m))));
    ("lines", EnviInt (Z.of_nat (fst (_shape m))));
    ("bands", EnviInt 1);
    ("interleave", EnviStr "bsq");
    ("byte order", EnviInt 0);
    ("data type", EnviInt 4);
    ("acquisition time", EnviStr (now_isoformat io)) ].

Definition save_folder (m : MockCamera) : option Path :=
  match _subfolder m with
  | None => Some (_save_folder m)
  | Some sub => Some (PathJoin (_save_folder m) sub)
  end.

Definition set_save_subfolder (subfolder : string)
  : M (MockCamera * World) unit :=
  fun mw =>
    let (m, w) := mw in
    let m' := set__subfolder (Some subfolder) m in
    match save_folder m' with
    | None => (Raise AttributeError, (m', w))
    | Some p => let (r, w') := mkdir false p w in (r, (m', w'))
    end.

(** [Exception]: every exception is an instance. *)
Definition exception_type (m : MockCamera) (e : exn) : bool := true.

#[global] Instance MockCamera_Camera : Camera MockCamera :=
  Build_Camera open close toggle_bit_depth bit_depth get_frame shape exposure
    exposure_range set_exposure init_exposure adjust_exposure check_exposure
    toggle_view get_envi_options set_save_subfolder save_folder
    exception_type.

End Mock.

(** ** [TisCamera] *)

Module Tis.

Definition TIS_HEIGHT : Z := 480.
Definition TIS_WIDTH : Z := 640.
Definition TIS_MIN_EXPOSURE_MS : Z := 15.
Definition TIS_MAX_EXPOSURE_MS : Z := 33333.
Definition TIS_TIMEOUT_MS : Z := 10000.
Definition TIS_EXPOSURE_INCREMENT : Z := 10.

Inductive PixelFormat : Type := Mono8 | BayerGB8 | BayerGB16.

Definition TIS_DEFAULT_PIXEL_FORMAT : PixelFormat := BayerGB16.
Definition TIS_DEFAULT_EXPOSURE_TIME_MS : Z := 500.

Definition PIXEL_FORMAT_TO_BIT_DEPTH_MAP (f : PixelFormat) : Z :=
  match f with Mono8 => 8 | BayerGB8 => 8 | BayerGB16 => 16 end.

Definition PIXEL_FORMAT_TO_SHAPE (f : PixelFormat) : list Z :=
  match f with
  | Mono8 => [TIS_HEIGHT; TIS_WIDTH; 1]
  | BayerGB8 => [TIS_HEIGHT; TIS_WIDTH; 1]
  | BayerGB16 => [TIS_HEIGHT; TIS_WIDTH; 1]
  end.

Definition PIXEL_FORMAT_TO_ENVI_FORMAT (f : PixelFormat) : Z :=
  match f with Mono8 => 1 | BayerGB8 => 1 | BayerGB16 => 12 end.

(** The dataclass [TisCameraState] with its property and methods. *)
Module State.

Record TisCameraState : Type := {
  save_folder : Path;
  current_exposure : Z;
  timeout_ms : Z;
  pixel_format : PixelFormat;
  demosaic : bool;
  save_subfolder : option string;
  min_exposure : Z;
  max_exposure : Z
}.

Definition save_path (st : TisCameraState) : option Path :=
  match save_subfolder st with
  | None => None
  | Some sub => Some (PathJoin (save_folder st) sub)
  end.

Definition shape (st : TisCameraState) : list Z :=
  PIXEL_FORMAT_TO_SHAPE (pixel_format st).

Definition bit_depth (st : TisCameraState) : Z :=
  PIXEL_FORMAT_TO_BIT_DEPTH_MAP (pixel_format st).

Definition dynamic_range (st : TisCameraState) : Z :=
  2 ^ bit_depth st - 1.

Definition set_current_exposure (v : Z) (st : TisCameraState)
  : TisCameraState :=
  {| save_folder := save_folder st; current_exposure := v;
     timeout_ms := timeout_ms st; pixel_format := pixel_format st;
     demosaic := demosaic st; save_subfolder := save_subfolder st;
     min_exposure := min_exposure st; max_exposure := max_exposure st |}.

Definition set_demosaic (v : bool) (st : TisCameraState) : TisCameraState :=
  {| save_folder := save_folder st; current_exposure := current_exposure st;
     timeout_ms := timeout_ms st; pixel_format := pixel_format st;
     demosaic := v; save_subfolder := save_subfolder st;
     min_exposure := min_exposure st; max_exposure := max_exposure st |}.

Definition set_save_subfolder_field (v : option string)
  (st : TisCameraState) : TisCameraState :=
  {| save_folder := save_folder st; current_exposure := current_exposure st;
     timeout_ms := timeout_ms st; pixel_format := pixel_format st;
     demosaic := demosaic st; save_subfolder := v;
     min_exposure := min_exposure st; max_exposure := max_exposure st |}.

Definition set_min_exposure (v : Z) (st : TisCameraState) : TisCameraState :=
  {| save_folder := save_folder st; current_exposure := current_exposure st;
     timeout_ms := timeout_ms st; pixel_format := pixel_format st;
     demosaic := demosaic st; save_subfolder := save_subfolder st;
     min_exposure := v; max_exposure := max_exposure st |}.

Definition set_max_exposure (v : Z) (st : TisCameraState) : TisCameraState :=
  {| save_folder := save_folder st; current_exposure := current_exposure st;
     timeout_ms := timeout_ms st; pixel_format := pixel_format st;
     demosaic := demosaic st; save_subfolder := save_subfolder st;
     min_exposure := min_exposure st; max_exposure := v |}.

End State.
Import State.

Definition get_envi_header (io : Io) (st : TisCameraState) : envi_options :=
  [ ("samples", EnviInt TIS_WIDTH);
    ("lines", EnviInt TIS_HEIGHT);
    ("bands", EnviInt 1);
    ("interleave", EnviStr "bsq");
    ("byte order", EnviInt 0);
    ("data type", EnviInt (PIXEL_FORMAT_TO_ENVI_FORMAT (pixel_format st)));
    ("sensor type", EnviStr "The Imaging Source DFK 23UX236");
    ("spatial resolution", EnviStr "1920 x 1200");
    ("spectral range", EnviStr "450-650 nm");
    ("bands count", EnviStr "3 bands");
    ("bit depth", EnviStr (str (State.bit_depth st) ++ " bits"));
    ("interface", EnviStr "USB3.0 + GPIO + I/O for triggering");
    ("acquisition time", EnviStr (now_isoformat io));
    ("description", EnviStr "Bayer mosaic image snapshot.");
    ("filter array size", EnviStr "2x2");
    ("wavelength units", EnviStr "Nanometers");
    ("wavelength", EnviList [550; 450; 650; 550]);
    ("note", EnviStr "Raw mosaic. Wavelengths are listed in row-major order (left to right, top to bottom).") ].

(** The SDK's grabber, as far as the embedded methods use it: the values
    written to device properties, latest first. *)
Inductive PropId : Type := PIXEL_FORMAT | WIDTH | HEIGHT | EXPOSURE_TIME.

Inductive prop_value : Type :=
| PropInt (v : Z)
| PropFormat (f : PixelFormat).

Record Grabber : Type := {
  device_property_map : list (PropId * prop_value)
}.

(** [sink] is [None] until [open] installs a [SnapSink]. *)
Record TisCamera : Type := {
  grabber : Grabber;
  sink : option unit;
  state : TisCameraState
}.

Definition set_state (st : TisCameraState) (c : TisCamera) : TisCamera :=
  {| grabber := grabber c; sink := sink c; state := st |}.

Definition set_grabber (g : Grabber) (c : TisCamera) : TisCamera :=
  {| grabber := g; sink := sink c; state := state c |}.

(** [grabber.device_property_map.set_value]: the SDK raises [IC4Exception]
    when the device refuses the write. *)
Definition set_sink (v : option unit) (c : TisCamera) : TisCamera :=
  {| grabber := grabber c; sink := v; state := state c |}.

Definition set_value (io : Io) (p : PropId) (v : prop_value)
  : M TisCamera unit :=
  fun c =>
    if set_value_ok io
    then (Ok tt, set_grabber
                   {| device_property_map :=
                        (p, v) :: device_property_map (grabber c) |} c)
    else (Raise IC4Exception, c).

(** [TisCamera.__init__]. *)
Definition __init__ : M World TisCamera :=
  fun w =>
    let data_path := data_path w in
    let (r1, w1) := mkdir false data_path w in
    match r1 with
    | Raise e => (Raise e, w1)
    | Ok _ =>
        let data_path := PathJoin data_path "tis" in
        let (r2, w2) := mkdir false data_path w1 in
        match r2 with
        | Raise e => (Raise e, w2)
        | Ok _ =>
            (Ok {| grabber := {| device_property_map := [] |};
                   sink := None;
                   state := {| State.save_folder := data_path;
                               current_exposure := TIS_DEFAULT_EXPOSURE_TIME_MS;
                               timeout_ms := TIS_TIMEOUT_MS;
                               pixel_format := TIS_DEFAULT_PIXEL_FORMAT;
                               demosaic := false;
                               save_subfolder := None;
                               min_exposure := TIS_MIN_EXPOSURE_MS;
                               max_exposure := TIS_MAX_EXPOSURE_MS |} |}, w2)
        end
    end.

(** The other calls into the SDK: they raise [IC4Exception] when refused. *)
Definition sdk_call (ok : bool) : M TisCamera unit :=
  if ok then ret tt else raise IC4Exception.

Definition open (io : Io) : M TisCamera unit :=
  match devices io with
  | O => raise (IndexError)
  | _ =>
      sdk_call (device_open_ok io) ;;
      set_value io PIXEL_FORMAT (PropFormat TIS_DEFAULT_PIXEL_FORMAT) ;;
      set_value io WIDTH (PropInt TIS_WIDTH) ;;
      set_value io HEIGHT (PropInt TIS_HEIGHT) ;;
      exposure_ <- gets (fun c => current_exposure (state c)) ;;
      set_value io EXPOSURE_TIME (PropInt exposure_) ;;
      modify (set_sink (Some tt)) ;;
      sdk_call (stream_setup_ok io)
  end.

Definition close (io : Io) : M TisCamera unit :=
  sdk_call (stream_stop_ok io) ;;
  sdk_call (device_close_ok io).

Definition shape (c : TisCamera) : list Z := State.shape (state c).

Definition bit_depth (c : TisCamera) : Z := State.bit_depth (state c).

Definition toggle_bit_depth (c : TisCamera) : TisCamera := c.

Definition _get_frame_view (c : TisCamera) (frame : frame) (demosaic : bool)
  : frame_view :=
  ViewNormalized frame (dynamic_range (state c)) demosaic.

Definition get_frame (io : Io) (fps : Z) : M TisCamera (frame * frame_view) :=
  fun c =>
    match sink c with
    | None => (Raise AttributeError, c)
    | Some _ =>
        match snap_single io with
        | None => (Raise IC4Exception, c)
        | Some frame =>
            (Ok (frame, _get_frame_view c frame (demosaic (state c))), c)
        end
    end.

Definition get_envi_options (io : Io) (c : TisCamera) : envi_options :=
  get_envi_header io (state c).

Definition set_save_subfolder (subfolder : string)
  : M (TisCamera * World) unit :=
  fun cw =>
    let (c, w) := cw in
    let c' := set_state (set_save_subfolder_field (Some subfolder) (state c)) c in
    match save_path (state c') with
    | None => (Raise AttributeError, (c', w))
    | Some p => let (r, w') := mkdir false p w in (r, (c', w'))
    end.

Definition save_folder (c : TisCamera) : option Path := save_path (state c).

(** [ic4.IC4Exception]. *)
Definition exception_type (c : TisCamera) (e : exn) : bool :=
  match e with IC4Exception => true | _ => false end.

Definition exposure (c : TisCamera) : Z := current_exposure (state c) * 1000.

Definition exposure_range (c : TisCamera) : Z * Z * Z :=
  (TIS_MIN_EXPOSURE_MS * 1000,
   TIS_MAX_EXPOSURE_MS * 1000,
   TIS_EXPOSURE_INCREMENT * 1000).

Definition set_exposure (io : Io) (exposure : Z) : M TisCamera bool :=
  set_value io EXPOSURE_TIME (PropInt exposure) ;;
  modify (fun c => set_state (set_current_exposure exposure (state c)) c) ;;
  ret true.

(** [(frame >= dynamic_range).sum()]. *)
Definition count_saturated (frame : frame) (ceiling : Z) : Z :=
  Z.of_nat (length (filter (fun v => v >=? ceiling) (concat frame))).

Definition _find_exposure_for_saturation (frame : option frame)
  : M TisCamera bool :=
  fun c =>
    let st := state c in
    let max_saturation := if State.bit_depth st =? 16 then 100 else 8000 in
    let tol := if State.bit_depth st =? 16 then 20 else 1000 in
    match frame with
    | None => (Raise TypeError, c)
    | Some frame =>
        let saturated := count_saturated frame (dynamic_range st) in
        let st1 := if saturated >? max_saturation
                   then set_max_exposure (current_exposure st - 1) st
                   else set_min_exposure (current_exposure st + 1) st in
        let tmp := max_exposure st1 - min_exposure st1 in
        let mid_exposure := (max_exposure st1 + min_exposure st1) / 2 in
        let converged :=
          (Z.abs (saturated - max_saturation) <? tol)
          || (Z.abs tmp <? 10)
          || (Z.abs (current_exposure st1 - mid_exposure)
                <=? 2 * TIS_EXPOSURE_INCREMENT) in
        (Ok converged, set_state st1 c)
    end.

Definition init_exposure (max_exposure : Z) (c : TisCamera) : TisCamera :=
  set_state
    (set_min_exposure TIS_MIN_EXPOSURE_MS
       (set_max_exposure (Z.min TIS_MAX_EXPOSURE_MS (max_exposure / 1000))
          (state c))) c.

Definition adjust_exposure (io : Io) : M TisCamera unit :=
  fun c =>
    let (r, c') :=
      set_exposure io
        ((max_exposure (state c) + min_exposure (state c)) / 2) c in
    match r with
    | Ok _ => (Ok tt, c')
    | Raise e => (Raise e, c')
    end.

Definition check_exposure (frame : option frame) : M TisCamera bool :=
  _find_exposure_for_saturation frame.

Definition toggle_view (c : TisCamera) : TisCamera :=
  set_state (set_demosaic (negb (demosaic (state c))) (state c)) c.

#[global] Instance TisCamera_Camera : Camera TisCamera :=
  Build_Camera open close toggle_bit_depth bit_depth get_frame shape exposure
    exposure_range set_exposure init_exposure adjust_exposure check_exposure
    toggle_view get_envi_options set_save_subfolder save_folder
    exception_type.

End Tis.

(** ** [gui.py]: [GuiState] and the handlers of [VideoPlayer]

    The Qt widgets (labels, buttons, sliders, the pixmap on screen) are
    written by the handlers and never read by the ones embedded here; they
    are left out.  [fps] holds the integral frame rates the slider
    delivers. *)

Module Gui.

Record GuiState : Type := {
  selected_camera : string;
  fps : Z;
  frame_counter : Z;
  recording : bool;
  running : bool;
  paused : bool;
  estimating_exposure : bool;
  exposure_tries : Z;
  recording_format : SaveFormatEnum;
  filename_stem : string
}.

(** The defaults of the dataclass, as [VideoPlayer.__init__] builds it. *)
Definition GuiState_init (camera_id : string) (fps : Z) : GuiState :=
  {| selected_camera := camera_id; fps := fps; frame_counter := 0;
     recording := false; running := false; paused := false;
     estimating_exposure := false; exposure_tries := 0;
     recording_format := ENVI; filename_stem := "frame" |}.

Definition set_frame_counter (v : Z) (g : GuiState) : GuiState :=
  {| selected_camera := selected_camera g; fps := fps g; frame_counter := v;
     recording := recording g; running := running g; paused := paused g;
     estimating_exposure := estimating_exposure g;
     exposure_tries := exposure_tries g;
     recording_format := recording_format g;
     filename_stem := filename_stem g |}.

Definition set_recording (v : bool) (g : GuiState) : GuiState :=
  {| selected_camera := selected_camera g; fps := fps g;
     frame_counter := frame_counter g;
     recording := v; running := running g; paused := paused g;
     estimating_exposure := estimating_exposure g;
     exposure_tries := exposure_tries g;
     recording_format := recording_format g;
     filename_stem := filename_stem g |}.

Definition set_running (v : bool) (g : GuiState) : GuiState :=
  {| selected_camera := selected_camera g; fps := fps g;
     frame_counter := frame_counter g;
     recording := recording g; running := v; paused := paused g;
     estimating_exposure := estimating_exposure g;
     exposure_tries := exposure_tries g;
     recording_format := recording_format g;
     filename_stem := filename_stem g |}.

Definition set_paused (v : bool) (g : GuiState) : GuiState :=
  {| selected_camera := selected_camera g; fps := fps g;
     frame_counter := frame_counter g;
     recording := recording g; running := running g; paused := v;
     estimating_exposure := estimating_exposure g;
     exposure_tries := exposure_tries g;
     recording_format := recording_format g;
     filename_stem := filename_stem g |}.

Definition set_estimating_exposure (v : bool) (g : GuiState) : GuiState :=
  {| selected_camera := selected_camera g; fps := fps g;
     frame_counter := frame_counter g;
     recording := recording g; running := running g; paused := paused g;
     estimating_exposure := v;
     exposure_tries := exposure_tries g;
     recording_format := recording_format g;
     filename_stem := filename_stem g |}.

Definition set_exposure_tries (v : Z) (g : GuiState) : GuiState :=
  {| selected_camera := selected_camera g; fps := fps g;
     frame_counter := frame_counter g;
     recording := recording g; running := running g; paused := paused g;
     estimating_exposure := estimating_exposure g;
     exposure_tries := v;
     recording_format := recording_format g;
     filename_stem := filename_stem g |}.

Section VideoPlayer.

Context {S : Type} {cam : Camera S}.

(** [current_image] is the display frame last converted for the label. *)
Record VideoPlayer : Type := {
  camera : S;
  state : GuiState;
  current_image : option frame_view
}.

Definition set_camera (c : S) (p : VideoPlayer) : VideoPlayer :=
  {| camera := c; state := state p; current_image := current_image p |}.

Definition set_state (g : GuiState) (p : VideoPlayer) : VideoPlayer :=
  {| camera := camera p; state := g; current_image := current_image p |}.

Definition set_current_image (v : option frame_view) (p : VideoPlayer)
  : VideoPlayer :=
  {| camera := camera p; state := state p; current_image := v |}.

(** A handler runs on the player and the world around it. *)
Definition Handler (A : Type) : Type := M (VideoPlayer * World) A.

(** [self.camera.method(...)] for a method that touches the camera only. *)
Definition on_camera {A} (m : M S A) : Handler A :=
  zoom (fun pw => camera (fst pw))
       (fun c pw => (set_camera c (fst pw), snd pw)) m.

(** [self.camera.method(...)] for a method that also reaches the file
    system or the serializer. *)
Definition on_device {A} (m : M (S * World) A) : Handler A :=
  zoom (fun pw => (camera (fst pw), snd pw))
       (fun cw pw => (set_camera (fst cw) (fst pw), snd cw)) m.

(** [self.state.field] and [self.state.field = ...]. *)
Definition read {A} (f : GuiState -> A) : Handler A :=
  gets (fun pw => f (state (fst pw))).

Definition write (f : GuiState -> GuiState) : Handler unit :=
  modify (fun pw => (set_state (f (state (fst pw))) (fst pw), snd pw)).

Definition toggle_pausing : Handler unit :=
  running_ <- read running ;;
  if negb running_ then ret tt
  else write (fun g => set_paused (negb (paused g)) g).

Definition toggle_recording (io : Io) : Handler unit :=
  running_ <- read running ;;
  paused_ <- read paused ;;
  if negb running_ || paused_ then ret tt
  else
    write (fun g => set_recording (negb (recording g)) g) ;;
    recording_ <- read recording ;;
    if recording_ then
      write (set_frame_counter 0) ;;
      let timestamp := now_strftime io in
      on_device (set_save_subfolder timestamp)
    else ret tt.

Definition toggle_exposure : Handler unit :=
  running_ <- read running ;;
  paused_ <- read paused ;;
  estimating_ <- read estimating_exposure ;;
  if negb running_ || paused_ || estimating_ then ret tt
  else
    write (set_estimating_exposure true) ;;
    write (set_exposure_tries 0) ;;
    fps_ <- read fps ;;
    if fps_ =? 0 then raise ZeroDivisionError
    else on_camera (modify (init_exposure (1000000 / fps_))).

(** The [try]/[except] around [get_frame]. *)
Definition pull_frame (io : Io) : Handler (option frame * option frame_view) :=
  fps_ <- read fps ;;
  try_except
    (fv <- on_camera (get_frame io fps_) ;;
     ret (Some (fst fv), Some (snd fv)))
    (fun pw => exception_type (camera (fst pw)))
    (ret (None, None)).

(** The steps of [update_frame], in the order of its body. *)

(** [if self.state.estimating_exposure: self.camera.adjust_exposure()]. *)
Definition adjust_step (io : Io) : Handler unit :=
  estimating_ <- read estimating_exposure ;;
  if estimating_ then on_camera (adjust_exposure io) else ret tt.

(** [if frame_view is not None: self.current_image = ...]. *)
Definition show_step (frame_view : option frame_view) : Handler unit :=
  match frame_view with
  | Some v => modify (fun pw => (set_current_image (Some v) (fst pw), snd pw))
  | None => ret tt
  end.

(** [if self.state.recording and frame_save is not None: ...]. *)
Definition record_step (io : Io) (frame_save : option frame) : Handler unit :=
  recording_ <- read recording ;;
  match recording_, frame_save with
  | true, Some f =>
      counter <- read frame_counter ;;
      fmt <- read recording_format ;;
      let filename := "frame_" ++ format_04d counter in
      on_device (save_frame io f filename fmt) ;;
      write (fun g => set_frame_counter (frame_counter g + 1) g)
  | _, _ => ret tt
  end.

(** [if self.state.estimating_exposure: converged = ...]. *)
Definition check_step (frame_save : option frame) : Handler unit :=
  estimating_ <- read estimating_exposure ;;
  if estimating_ then
    converged <- on_camera (check_exposure frame_save) ;;
    write (set_estimating_exposure (negb converged)) ;;
    write (fun g => set_exposure_tries (exposure_tries g + 1) g) ;;
    tries <- read exposure_tries ;;
    (if tries >=? 50 then write (set_estimating_exposure false)
     else ret tt) ;;
    still <- read estimating_exposure ;;
    if negb still then write (set_exposure_tries 0) else ret tt
  else ret tt.

Definition update_frame (io : Io) : Handler unit :=
  running_ <- read running ;;
  paused_ <- read paused ;;
  if negb running_ || paused_ then ret tt
  else
    adjust_step io ;;
    frames <- pull_frame io ;;
    let frame_save := fst frames in
    let frame_view := snd frames in
    show_step frame_view ;;
    record_step io frame_save ;;
    check_step frame_save.

(** The timer: one tick per answer of the device, until a handler raises. *)
Fixpoint run_ticks (ios : list Io) : Handler unit :=
  match ios with
  | [] => ret tt
  | io :: rest => update_frame io ;; run_ticks rest
  end.

(** The player once [show_step] has put a display frame on screen. *)
Definition shown (v : option frame_view) (p : VideoPlayer) : VideoPlayer :=
  match v with
  | Some _ => set_current_image v p
  | None => p
  end.

(** The flags and counters [check_step] leaves, from the answer of
    [check_exposure]. *)
Definition after_check (converged : bool) (g : GuiState) : GuiState :=
  if negb converged && (exposure_tries g + 1 <? 50)
  then set_exposure_tries (exposure_tries g + 1)
         (set_estimating_exposure true g)
  else set_exposure_tries 0 (set_estimating_exposure false g).

(** The device answers [io] so that a tick of a camera in a state of [Inv]
    comes back: [adjust_exposure] returns, [get_frame] returns or raises an
    exception of the declared class, and [check_exposure] returns on what
    the tick then hands to it. *)
Definition responsive (Inv : S -> Prop) (io : Io) : Prop :=
  forall s, Inv s ->
    (exists s1, adjust_exposure io s = (Ok tt, s1) /\ Inv s1) /\
    (forall fps_, exists r s2,
        get_frame io fps_ s = (r, s2) /\ Inv s2 /\
        match r with
        | Ok fv =>
            exists b s3,
              check_exposure (Some (fst fv)) s2 = (Ok b, s3) /\ Inv s3
        | Raise e =>
            exception_type s2 e = true /\
            exists b s3, check_exposure None s2 = (Ok b, s3) /\ Inv s3
        end).

(** The handlers of the view and bit depth buttons. *)
Definition toggle_view : Handler unit :=
  running_ <- read running ;;
  paused_ <- read paused ;;
  if negb running_ || paused_ then ret tt
  else on_camera (modify toggle_view).

Definition toggle_bit_depth : Handler unit :=
  running_ <- read running ;;
  paused_ <- read paused ;;
  recording_ <- read recording ;;
  if negb running_ || paused_ || recording_ then ret tt
  else on_camera (modify toggle_bit_depth).

(** [update_exposure].  The widgets are not part of the state: what the
    handler reads from them comes as arguments ([exposure_val] after
    [int(...)], [None] when that raises [ValueError], and the range of the
    exposure slider), and what it writes to the exposure input and slider
    is its result ([None] when it returns before writing). *)
Definition update_exposure (io : Io) (slider_minimum slider_maximum : Z)
  (exposure_val : option Z) : Handler (option Z) :=
  running_ <- read running ;;
  paused_ <- read paused ;;
  if negb running_ || paused_ then ret None
  else
    try_except
      (match exposure_val with
       | None => raise (ValueError "invalid literal for int()")
       | Some v =>
           let v := if v >? slider_maximum then slider_maximum else v in
           let v := if v <? slider_minimum then slider_minimum else v in
           step <- gets (fun pw => snd (exposure_range (camera (fst pw)))) ;;
           if step =? 0 then raise ZeroDivisionError
           else
             let v := v - v mod step in
             on_camera (set_exposure io v) ;;
             ret (Some v)
       end)
      (fun pw e =>
         match e with
         | ValueError _ => true
         | _ => exception_type (camera (fst pw)) e
         end)
      (v <- gets (fun pw => exposure (camera (fst pw))) ;; ret (Some v)).

(** One call of a handler between the start and the stop of a session, with
    the state it leaves, whether it returns or raises. *)
Inductive gui_step : VideoPlayer * World -> VideoPlayer * World -> Prop :=
| step_update_frame io pw : gui_step pw (snd (update_frame io pw))
| step_toggle_pausing pw : gui_step pw (snd (toggle_pausing pw))
| step_toggle_view pw : gui_step pw (snd (toggle_view pw))
| step_toggle_bit_depth pw : gui_step pw (snd (toggle_bit_depth pw))
| step_toggle_recording io pw : gui_step pw (snd (toggle_recording io pw))
| step_toggle_exposure pw : gui_step pw (snd (toggle_exposure pw))
| step_update_exposure io lo hi v pw :
    gui_step pw (snd (update_exposure io lo hi v pw)).

Inductive gui_steps : VideoPlayer * World -> VideoPlayer * World -> Prop :=
| steps_none pw : gui_steps pw pw
| steps_more pw pw1 pw2 :
    gui_steps pw pw1 -> gui_step pw1 pw2 -> gui_steps pw pw2.

(** [setup_exposure_slider].  The range it gives the slider is the one
    [update_exposure] reads back; Qt keeps a maximum below the minimum at
    the minimum. *)
Definition setup_exposure_slider (io : Io) (exposure_val : Z) : Handler unit :=
  cam_range <- gets (fun pw => exposure_range (camera (fst pw))) ;;
  fps_ <- read fps ;;
  if fps_ =? 0 then raise ZeroDivisionError
  else
    let max_exposure := Z.min (1000000 / fps_) (snd (fst cam_range)) in
    let slider_minimum := fst (fst cam_range) in
    let slider_maximum := Z.max slider_minimum max_exposure in
    if (exposure_val >? max_exposure) || (exposure_val <? fst (fst cam_range))
    then
      update_exposure io slider_minimum slider_maximum (Some max_exposure) ;;
      ret tt
    else ret tt.

(** [toggle_running], for a player that keeps its backend: [construct] is
    what [camera(camera_id=self.state.selected_camera)] runs for it.  The
    new camera is assigned before it is opened; the [except] clause reads
    the class of whatever camera the player holds when the exception
    arrives, and returns. *)
Definition toggle_running (construct : M World S) (io : Io) : Handler unit :=
  let finish : Handler unit :=
    write (set_paused false) ;;
    write (fun g => set_running (negb (running g)) g) in
  running_ <- read running ;;
  if negb running_ then
    opened <-
      try_except
        (c <- zoom snd (fun w pw => (fst pw, w)) construct ;;
         modify (fun pw => (set_camera c (fst pw), snd pw)) ;;
         on_camera (open io) ;;
         ret true)
        (fun pw => exception_type (camera (fst pw)))
        (ret false) ;;
    if opened then
      exposure_ <- gets (fun pw => exposure (camera (fst pw))) ;;
      setup_exposure_slider io exposure_ ;;
      finish
    else ret tt
  else
    on_camera (close io) ;;
    finish.

End VideoPlayer.

Arguments VideoPlayer S : clear implicits.

End Gui.

(** ** The registry: [CameraEnum] and [camera] *)

Inductive CameraEnum : Type := MOCK | XIMEA | TIS.

(** The members are strings: a member equals its value. *)
Definition value (e : CameraEnum) : string :=
  match e with
  | MOCK => "mock"
  | XIMEA => "ximea"
  | TIS => "tis"
  end.

Definition ximea_interface : string :=
  "camera_visualizer.camera_interface.ximea_interface".

Definition tis_interface : string :=
  "camera_visualizer.camera_interface.tis_interface".

Section Registry.

(** [ximea_interface.py] is not part of the sources at hand: the class
    [XimeaCamera] and its constructor are taken as given. *)
Variable XimeaCamera : Type.
Variable XimeaCamera__init__ : M World XimeaCamera.

(** The object [camera] returns, tagged with its class. *)
Inductive CameraObject : Type :=
| IsMockCamera (m : Mock.MockCamera)
| IsXimeaCamera (x : XimeaCamera)
| IsTisCamera (t : Tis.TisCamera).

Definition camera (camera_id : string) : M World CameraObject :=
  if (camera_id =? value MOCK)%string then
    m <- Mock.__init__ ;; ret (IsMockCamera m)
  else if (camera_id =? value XIMEA)%string then
    import_module ximea_interface ;;
    x <- XimeaCamera__init__ ;; ret (IsXimeaCamera x)
  else if (camera_id =? value TIS)%string then
    import_module tis_interface ;;
    t <- Tis.__init__ ;; ret (IsTisCamera t)
  else raise (ValueError ("Camera f" ++ camera_id ++ " not known.")).

End Registry.

Arguments IsMockCamera {XimeaCamera} m.
Arguments IsTisCamera {XimeaCamera} t.

(** What [camera] runs for the two backends at hand. *)
Definition construct_mock : M World Mock.MockCamera := Mock.__init__.

Definition construct_tis : M World Tis.TisCamera :=
  import_module tis_interface ;; Tis.__init__.

(** ** States a camera object can be in *)

(** One method call on a [MockCamera], with any arguments and any answer of
    the world. *)
Inductive mock_step : Mock.MockCamera -> Mock.MockCamera -> Prop :=
| mock_open io m : mock_step m (snd (Mock.open io m))
| mock_close io m : mock_step m (snd (Mock.close io m))
| mock_toggle_bit_depth m : mock_step m (Mock.toggle_bit_depth m)
| mock_toggle_view m : mock_step m (Mock.toggle_view m)
| mock_get_frame io fps m : mock_step m (snd (Mock.get_frame io fps m))
| mock_set_exposure io v m : mock_step m (snd (Mock.set_exposure io v m))
| mock_init_exposure v m : mock_step m (Mock.init_exposure v m)
| mock_adjust_exposure io m : mock_step m (snd (Mock.adjust_exposure io m))
| mock_check_exposure f m : mock_step m (snd (Mock.check_exposure f m))
| mock_set_save_subfolder sub m w :
    mock_step m (fst (snd (Mock.set_save_subfolder sub (m, w))))
| mock_save_frame io f stem fmt m w :
    mock_step m (fst (snd (save_frame io f stem fmt (m, w)))).

(** The states of a [MockCamera] from its construction on. *)
Inductive mock_reachable : Mock.MockCamera -> Prop :=
| mock_constructed w m w' :
    Mock.__init__ w = (Ok m, w') -> mock_reachable m
| mock_called m m' :
    mock_reachable m -> mock_step m m' -> mock_reachable m'.

(** One method call on a [TisCamera] other than [set_save_subfolder]. *)
Inductive tis_step_other : Tis.TisCamera -> Tis.TisCamera -> Prop :=
| tis_open io c : tis_step_other c (snd (Tis.open io c))
| tis_close io c : tis_step_other c (snd (Tis.close io c))
| tis_toggle_bit_depth c : tis_step_other c (Tis.toggle_bit_depth c)
| tis_toggle_view c : tis_step_other c (Tis.toggle_view c)
| tis_get_frame io fps c : tis_step_other c (snd (Tis.get_frame io fps c))
| tis_set_exposure io v c : tis_step_other c (snd (Tis.set_exposure io v c))
| tis_init_exposure v c : tis_step_other c (Tis.init_exposure v c)
| tis_adjust_exposure io c :
    tis_step_other c (snd (Tis.adjust_exposure io c))
| tis_check_exposure f c : tis_step_other c (snd (Tis.check_exposure f c))
| tis_save_frame io f stem fmt c w :
    tis_step_other c (fst (snd (save_frame io f stem fmt (c, w)))).

(** The states of a [TisCamera] on which [set_save_subfolder] was never
    called. *)
Inductive tis_never_subfolder : Tis.TisCamera -> Prop :=
| tis_constructed w c w' :
    Tis.__init__ w = (Ok c, w') -> tis_never_subfolder c
| tis_called c c' :
    tis_never_subfolder c -> tis_step_other c c' -> tis_never_subfolder c'.

(** The search bounds of a [MockCamera] are the bounds it reports. *)
Definition mock_bounds_reported (m : Mock.MockCamera) : Prop :=
  Mock._exposure_min m = fst (fst (Mock.exposure_range m)) /\
  Mock._exposure_max m = snd (fst (Mock.exposure_range m)).

(** A [MockCamera] session that runs and records, outside an exposure
    search, with the frame shape the constructor sets. *)
Definition mock_recording (p : Gui.VideoPlayer Mock.MockCamera) : Prop :=
  Gui.running (Gui.state p) = true /\
  Gui.paused (Gui.state p) = false /\
  Gui.recording (Gui.state p) = true /\
  Gui.estimating_exposure (Gui.state p) = false /\
  Mock._shape (Gui.camera p) = (480%nat, 640%nat).

(** The file names of a recording of [n] frames that starts at [first]. *)
Definition frame_names (first : Z) (n : nat) : list string :=
  map (fun k => "frame_" ++ format_04d (first + Z.of_nat k)) (seq 0 n).

(** ** The specification's sentences that the code does not satisfy *)

(** As the specification words it: a value at or beyond the reported bounds
    is refused and changes nothing, any other value is accepted and becomes
    the exposure. *)
Definition spec_set_exposure_guarded (S : Type) `{Camera S} : Prop :=
  forall io v s,
    let '(lo, hi, _) := exposure_range s in
    if (v <=? lo) || (v >=? hi)
    then set_exposure io v s = (Ok false, s)
    else exists s', set_exposure io v s = (Ok true, s') /\ exposure s' = v.
Arguments spec_set_exposure_guarded S {_}.

(** ** Sample inputs *)

Definition sample_world : World :=
  {| dirs := [PathRoot "data"];
     saved := [];
     sys_modules := [];
     importable := [tis_interface];
     data_path := PathRoot "data" |}.

Definition io_deliver (f : frame) : Io :=
  {| devices := 1; device_open_ok := true; set_value_ok := true;
     stream_setup_ok := true; stream_stop_ok := true;
     device_close_ok := true; snap_single := Some f;
     now_isoformat := "2025-06-01T12:00:00";
     now_strftime := "20250601_120000" |}.

Definition io_timeout : Io :=
  {| devices := 1; device_open_ok := true; set_value_ok := true;
     stream_setup_ok := true; stream_stop_ok := true;
     device_close_ok := true; snap_single := None;
     now_isoformat := "2025-06-01T12:00:00";
     now_strftime := "20250601_120000" |}.

(** A [MockCamera] as its constructor leaves it. *)
Definition sample_mock : Mock.MockCamera :=
  {| Mock._shape := (480%nat, 640%nat);
     Mock._exposure := 10000;
     Mock._exposure_max := 500000;
     Mock._exposure_min := 100;
     Mock._bit_depth := 8;
     Mock._counter := 0;
     Mock._toggle_view := 0;
     Mock._save_folder := PathJoin (PathRoot "data") "mock";
     Mock._subfolder := None |}.

(** A [TisCamera] as its constructor leaves it, and after [open]. *)
Definition sample_tis_state : Tis.State.TisCameraState :=
  {| Tis.State.save_folder := PathJoin (PathRoot "data") "tis";
     Tis.State.current_exposure := Tis.TIS_DEFAULT_EXPOSURE_TIME_MS;
     Tis.State.timeout_ms := Tis.TIS_TIMEOUT_MS;
     Tis.State.pixel_format := Tis.TIS_DEFAULT_PIXEL_FORMAT;
     Tis.State.demosaic := false;
     Tis.State.save_subfolder := None;
     Tis.State.min_exposure := Tis.TIS_MIN_EXPOSURE_MS;
     Tis.State.max_exposure := Tis.TIS_MAX_EXPOSURE_MS |}.

Definition sample_tis : Tis.TisCamera :=
  {| Tis.grabber := {| Tis.device_property_map := [] |};
     Tis.sink := None;
     Tis.state := sample_tis_state |}.

Definition sample_tis_open : Tis.TisCamera :=
  snd (Tis.open io_timeout sample_tis).

(** A player whose session runs, with the dataclass defaults otherwise. *)
Definition running_player {S} (c : S) (camera_id : string)
  : Gui.VideoPlayer S :=
  {| Gui.camera := c;
     Gui.state := Gui.set_running true (Gui.GuiState_init camera_id 30);
     Gui.current_image := None |}.

(** ** Reading a counter back from a file name *)

(** The integer that a string of decimal digits, with or without a sign in
    front, stands for. *)
Definition int_of_digits (s : string) : option Z :=
  match s with
  | String "-" s' =>
      option_map (fun d => - Z.of_N (N.of_uint d)) (NilEmpty.uint_of_string s')
  | _ => option_map (fun d => Z.of_N (N.of_uint d)) (NilEmpty.uint_of_string s)
  end.

(** ** Invariants of a session and of its camera *)

(** The distance between the search bounds of a [TisCamera]. *)
Definition tis_width (c : Tis.TisCamera) : Z :=
  Tis.State.max_exposure (Tis.state c) - Tis.State.min_exposure (Tis.state c).

(** A device that takes every exposure and delivers every frame. *)
Definition io_cooperative (io : Io) : Prop :=
  set_value_ok io = true /\ snap_single io <> None.

(** The value [update_exposure] hands to the camera: what was entered,
    brought into the range of the slider and down to a multiple of the
    step. *)
Definition slider_value (lo hi step v : Z) : Z :=
  let v := if v >? hi then hi else v in
  let v := if v <? lo then lo else v in
  v - v mod step.

(** The part of the session state that only the buttons and inputs write,
    and the part of the world that is not the serializer. *)
Definition session_flags (g : Gui.GuiState)
  : bool * bool * bool * Z * string * SaveFormatEnum * string :=
  (Gui.running g, Gui.paused g, Gui.recording g, Gui.fps g,
   Gui.selected_camera g, Gui.recording_format g, Gui.filename_stem g).

Definition outside_serializer (w : World)
  : list Path * list string * list string * Path :=
  (dirs w, sys_modules w, importable w, data_path w).

(** The flags after [toggle_running] went through. *)
Definition toggled {S} (p : Gui.VideoPlayer S) : Gui.GuiState :=
  Gui.set_running (negb (Gui.running (Gui.state p)))
    (Gui.set_paused false (Gui.state p)).

(** What holds of the counters of a session between its start and its
    stop. *)
Definition session_inv (g : Gui.GuiState) : Prop :=
  0 <= Gui.exposure_tries g < 50 /\
  (Gui.estimating_exposure g = false -> Gui.exposure_tries g = 0) /\
  0 <= Gui.frame_counter g.

(** The states of a [TisCamera] from its construction on, by any method. *)
Inductive tis_reachable : Tis.TisCamera -> Prop :=
| tis_reach_init w c w' : Tis.__init__ w = (Ok c, w') -> tis_reachable c
| tis_reach_other c c' :
    tis_reachable c -> tis_step_other c c' -> tis_reachable c'
| tis_reach_subfolder c sub w :
    tis_reachable c ->
    tis_reachable (fst (snd (Tis.set_save_subfolder sub (c, w)))).

(** A [TisCamera] session never hands the serializer a missing folder:
    while it records the camera has a subfolder, and every call made so far
    names a folder. *)
Definition tis_folder_inv (pw : Gui.VideoPlayer Tis.TisCamera * World)
  : Prop :=
  (Gui.recording (Gui.state (fst pw)) = true ->
   Tis.save_folder (Gui.camera (fst pw)) <> None) /\
  Forall (fun c => sc_save_folder c <> None) (saved (snd pw)).

(** A [MockCamera] session whose frame rate is not 0 and whose data folder
    exists, as the constructors leave them. *)
Definition mock_session_ok (pw : Gui.VideoPlayer Mock.MockCamera * World)
  : Prop :=
  Gui.fps (Gui.state (fst pw)) <> 0 /\
  is_dir (Mock._save_folder (Gui.camera (fst pw))) (dirs (snd pw)) = true.

(** * Properties *)

(** ** The monad and the world *)

Lemma path_eqb_refl (p : Path) : path_eqb p p = true.
Proof.
  induction p as [a | p IH a]; simpl.
  - apply String.eqb_refl.
  - rewrite IH, String.eqb_refl. reflexivity.
Qed.

Lemma is_dir_cons_same (p : Path) (l : list Path) : is_dir p (p :: l) = true.
Proof. unfold is_dir. simpl. rewrite path_eqb_refl. reflexivity. Qed.

Lemma is_dir_add_dir (p : Path) (l : list Path) : is_dir p (add_dir p l) = true.
Proof.
  unfold add_dir. destruct (is_dir p l) eqn:E; [exact E | apply is_dir_cons_same].
Qed.

Lemma is_dir_add_dir_parents (p : Path) (l : list Path) :
  is_dir p (add_dir_parents p l) = true.
Proof. destruct p; simpl; apply is_dir_add_dir. Qed.

(** [mkdir] touches the directories only. *)
Lemma mkdir_frame (parents : bool) (p : Path) (w : World) :
  saved (snd (mkdir parents p w)) = saved w /\
  sys_modules (snd (mkdir parents p w)) = sys_modules w /\
  importable (snd (mkdir parents p w)) = importable w /\
  data_path (snd (mkdir parents p w)) = data_path w.
Proof.
  unfold mkdir.
  destruct (is_dir p (dirs w)); [auto |].
  destruct parents; [simpl; auto |].
  destruct p as [a | q a]; [simpl; auto |].
  destruct (is_dir q (dirs w)); simpl; auto.
Qed.

(** With [parents=True] the directory exists afterwards and nothing is
    raised. *)
Lemma mkdir_parents_ok (p : Path) (w : World) :
  fst (mkdir true p w) = Ok tt /\ is_dir p (dirs (snd (mkdir true p w))) = true.
Proof.
  unfold mkdir. destruct (is_dir p (dirs w)) eqn:E; simpl; [auto |].
  split; [reflexivity | apply is_dir_add_dir_parents].
Qed.

(** ** C7: a tick of a stopped or paused session *)

Section Tick.

Context {S : Type} {cam : Camera S}.

(** The guard at the head of [update_frame]. *)
Lemma update_frame_guard (io : Io) (p : Gui.VideoPlayer S) (w : World) :
  negb (Gui.running (Gui.state p)) || Gui.paused (Gui.state p) = true ->
  Gui.update_frame io (p, w) = (Ok tt, (p, w)).
Proof.
  intros H. unfold Gui.update_frame, Gui.read, gets, bind, ret. simpl.
  rewrite H. reflexivity.
Qed.

(** C7. When [running] is false or [paused] is true, [update_frame] returns
    at once: the player (session state and camera alike) and the world (the
    serializer's calls among it) are exactly what they were, so no frame was
    pulled and nothing was saved. *)
Theorem update_frame_stopped_or_paused_is_noop
  (io : Io) (p : Gui.VideoPlayer S) (w : World) :
  Gui.running (Gui.state p) = false \/ Gui.paused (Gui.state p) = true ->
  Gui.update_frame io (p, w) = (Ok tt, (p, w)).
Proof.
  intros [H | H]; apply update_frame_guard; rewrite H.
  - reflexivity.
  - apply orb_true_r.
Qed.

End Tick.

Lemma update_frame_stopped_or_paused_is_noop_witness :
  Gui.update_frame io_timeout
    ({| Gui.camera := sample_mock;
        Gui.state := Gui.GuiState_init "mock" 30;
        Gui.current_image := None |}, sample_world)
  = (Ok tt, ({| Gui.camera := sample_mock;
                Gui.state := Gui.GuiState_init "mock" 30;
                Gui.current_image := None |}, sample_world)).
Proof.
  apply (update_frame_stopped_or_paused_is_noop io_timeout
           {| Gui.camera := sample_mock;
              Gui.state := Gui.GuiState_init "mock" 30;
              Gui.current_image := None |} sample_world).
  left. reflexivity.
Defined.

(** ** C1: [set_exposure] *)

Lemma mock_init_inv (w w' : World) (m : Mock.MockCamera) :
  Mock.__init__ w = (Ok m, w') ->
  m = {| Mock._shape := (480%nat, 640%nat);
         Mock._exposure := 10000;
         Mock._exposure_max := 500000;
         Mock._exposure_min := 100;
         Mock._bit_depth := 8;
         Mock._counter := 0;
         Mock._toggle_view := 0;
         Mock._save_folder := PathJoin (data_path w) "mock";
         Mock._subfolder := None |}
  /\ w' = snd (mkdir true (PathJoin (data_path w) "mock") w).
Proof.
  unfold Mock.__init__.
  destruct (mkdir true (PathJoin (data_path w) "mock") w) as [r w1] eqn:E.
  destruct r; intros H; inversion H; subst. split; reflexivity.
Qed.

Lemma mock_init_ok (w : World) :
  exists m w', Mock.__init__ w = (Ok m, w').
Proof.
  unfold Mock.__init__.
  pose proof (mkdir_parents_ok (PathJoin (data_path w) "mock") w) as [H _].
  destruct (mkdir true (PathJoin (data_path w) "mock") w) as [r w1].
  simpl in H. subst r. eauto.
Qed.

Lemma mock_set_exposure_refused (io : Io) (v : Z) (m : Mock.MockCamera) :
  v <= Mock._exposure_min m \/ v >= Mock._exposure_max m ->
  Mock.set_exposure io v m = (Ok false, m).
Proof.
  intros H. unfold Mock.set_exposure.
  destruct (v >=? Mock._exposure_max m) eqn:E1;
    destruct (v <=? Mock._exposure_min m) eqn:E2; simpl; try reflexivity.
  lia.
Qed.

Lemma mock_set_exposure_accepted (io : Io) (v : Z) (m : Mock.MockCamera) :
  Mock._exposure_min m < v < Mock._exposure_max m ->
  Mock.set_exposure io v m = (Ok true, Mock.set__exposure v m).
Proof.
  intros H. unfold Mock.set_exposure.
  destruct (v >=? Mock._exposure_max m) eqn:E1;
    destruct (v <=? Mock._exposure_min m) eqn:E2; simpl; try reflexivity; lia.
Qed.

Lemma mock_check_exposure_true (f : option frame) (m m' : Mock.MockCamera) :
  Mock.check_exposure f m = (Ok true, m') ->
  Mock._exposure_min m' = 100 /\ Mock._exposure_max m' = 500000.
Proof.
  unfold Mock.check_exposure.
  match goal with
  | |- context [if ?c then (Ok true, _) else _] => destruct c
  end; intros H; inversion H; subst; simpl; auto.
Qed.

Lemma tis_set_exposure_accepts (io : Io) (v : Z) (c : Tis.TisCamera) :
  set_value_ok io = true ->
  Tis.set_exposure io v c
  = (Ok true,
     Tis.set_state (Tis.State.set_current_exposure v (Tis.state c))
       (Tis.set_grabber
          {| Tis.device_property_map :=
               (Tis.EXPOSURE_TIME, Tis.PropInt v)
               :: Tis.device_property_map (Tis.grabber c) |} c)).
Proof.
  intros H. unfold Tis.set_exposure, Tis.set_value, bind, modify, ret.
  rewrite H. reflexivity.
Qed.

(** C1, as the code has it.  [MockCamera.set_exposure] compares the value
    with the current search bounds [_exposure_min] and [_exposure_max]: at or
    beyond them it returns false and changes nothing, strictly between them
    it returns true and the value becomes [exposure()].  The search bounds
    are the reported (100, 500000) on a constructed camera and after every
    [check_exposure] that returned true, and there [set_exposure(50)] is
    refused and [set_exposure(100000)] accepted.  [TisCamera.set_exposure]
    has no range check: it returns true for every value the device takes. *)
Theorem set_exposure_checks_search_bounds :
  (forall io v m,
      v <= Mock._exposure_min m \/ v >= Mock._exposure_max m ->
      Mock.set_exposure io v m = (Ok false, m)) /\
  (forall io v m,
      Mock._exposure_min m < v < Mock._exposure_max m ->
      exists m', Mock.set_exposure io v m = (Ok true, m') /\
                 Mock.exposure m' = v) /\
  (forall w m w', Mock.__init__ w = (Ok m, w') -> mock_bounds_reported m) /\
  (forall f m m',
      Mock.check_exposure f m = (Ok true, m') -> mock_bounds_reported m') /\
  (forall io m,
      mock_bounds_reported m ->
      Mock.exposure_range m = (100, 500000, 20) /\
      Mock.set_exposure io 50 m = (Ok false, m) /\
      exists m', Mock.set_exposure io 100000 m = (Ok true, m') /\
                 Mock.exposure m' = 100000) /\
  (forall io v c,
      set_value_ok io = true -> fst (Tis.set_exposure io v c) = Ok true).
Proof.
  repeat split.
  - intros io v m H. apply mock_set_exposure_refused; assumption.
  - intros io v m H. exists (Mock.set__exposure v m). split.
    + apply mock_set_exposure_accepted; assumption.
    + reflexivity.
  - apply mock_init_inv in H. destruct H as [-> _]. reflexivity.
  - apply mock_init_inv in H. destruct H as [-> _]. reflexivity.
  - apply mock_check_exposure_true in H. simpl. tauto.
  - apply mock_check_exposure_true in H. simpl. tauto.
  - destruct H as [Hmin Hmax]. simpl in Hmin, Hmax.
    apply mock_set_exposure_refused. lia.
  - destruct H as [Hmin Hmax]. simpl in Hmin, Hmax.
    exists (Mock.set__exposure 100000 m). split.
    + apply mock_set_exposure_accepted. lia.
    + reflexivity.
  - intros io v c H. rewrite tis_set_exposure_accepts by assumption.
    reflexivity.
Qed.

Lemma set_exposure_checks_search_bounds_witness :
  Mock.set_exposure io_timeout 50 sample_mock = (Ok false, sample_mock) /\
  (exists m', Mock.set_exposure io_timeout 100000 sample_mock = (Ok true, m')
              /\ Mock.exposure m' = 100000) /\
  fst (Tis.set_exposure io_timeout 50 sample_tis_open) = Ok true.
Proof.
  destruct set_exposure_checks_search_bounds
    as [Hrefuse [Haccept [_ [_ [_ Htis]]]]].
  split; [| split].
  - apply (Hrefuse io_timeout 50 sample_mock). left. simpl. lia.
  - apply (Haccept io_timeout 100000 sample_mock). simpl. lia.
  - apply (Htis io_timeout 50 sample_tis_open). reflexivity.
Defined.

(** C1 as the specification states it fails on both backends: a [TisCamera]
    reporting (15000, 33333000, 10000) accepts 50, and a [MockCamera] whose
    search was seeded with 33333 refuses 100000 although it reports
    (100, 500000, 20). *)
Lemma set_exposure_guard_counterexample :
  Tis.exposure_range sample_tis_open = (15000, 33333000, 10000) /\
  fst (Tis.set_exposure io_timeout 50 sample_tis_open) = Ok true /\
  ~ spec_set_exposure_guarded Tis.TisCamera /\
  Mock.exposure_range (Mock.init_exposure 33333 sample_mock)
    = (100, 500000, 20) /\
  fst (Mock.set_exposure io_timeout 100000
         (Mock.init_exposure 33333 sample_mock)) = Ok false /\
  ~ spec_set_exposure_guarded Mock.MockCamera.
Proof.
  repeat split.
  - intros H. specialize (H io_timeout 50 sample_tis_open).
    vm_compute in H. discriminate H.
  - intros H.
    specialize (H io_timeout 100000 (Mock.init_exposure 33333 sample_mock)).
    vm_compute in H. destruct H as [m' [H _]]. discriminate H.
Qed.

(** ** C4: one step of the exposure search of [TisCamera] *)

Lemma count_saturated_counts (f : frame) (ceiling : Z) :
  Tis.count_saturated f ceiling
  = Z.of_nat (length (filter (fun v => ceiling <=? v) (concat f))).
Proof.
  unfold Tis.count_saturated. do 2 f_equal.
  apply filter_ext. intros v. apply Z.geb_leb.
Qed.

Lemma tis_bit_depth_values (c : Tis.TisCamera) :
  Tis.bit_depth c = 8 \/ Tis.bit_depth c = 16.
Proof.
  unfold Tis.bit_depth, Tis.State.bit_depth.
  destruct (Tis.State.pixel_format (Tis.state c)); simpl; auto.
Qed.

(** What [_find_exposure_for_saturation] leaves and answers on a frame. *)
Lemma tis_check_exposure_eq (c : Tis.TisCamera) (f : frame) :
  let st := Tis.state c in
  let saturated := Tis.count_saturated f (Tis.State.dynamic_range st) in
  let threshold := if Tis.bit_depth c =? 16 then 100 else 8000 in
  let tolerance := if Tis.bit_depth c =? 16 then 20 else 1000 in
  let current := Tis.State.current_exposure st in
  let max' := if saturated >? threshold then current - 1
              else Tis.State.max_exposure st in
  let min' := if saturated >? threshold then Tis.State.min_exposure st
              else current + 1 in
  Tis.check_exposure (Some f) c
  = (Ok ((Z.abs (saturated - threshold) <? tolerance)
         || (Z.abs (max' - min') <? 10)
         || (Z.abs (current - (max' + min') / 2)
               <=? 2 * Tis.TIS_EXPOSURE_INCREMENT)),
     Tis.set_state
       (Tis.State.set_min_exposure min' (Tis.State.set_max_exposure max' st))
       c).
Proof.
  destruct c as [g sk st]. destruct st as [sf cur tm pf dm sub mn mx].
  unfold Tis.check_exposure, Tis._find_exposure_for_saturation,
    Tis.bit_depth. simpl.
  destruct (Tis.count_saturated _ _ >? _); reflexivity.
Qed.

(** C4. On a frame, [TisCamera.check_exposure] counts the samples at or
    above [2 ^ bit_depth - 1]; when the count exceeds the threshold (100 at
    16 bits, 8000 at 8 bits) the new [max_exposure] is [current - 1],
    otherwise the new [min_exposure] is [current + 1], the other bound and
    every other field staying; and it returns true exactly when the count
    is closer to the threshold than the tolerance (20 at 16 bits, 1000 at 8
    bits), or the new bounds are less than 10 apart, or the current exposure
    is within [2 * TIS_EXPOSURE_INCREMENT] of the midpoint of the new
    bounds. *)
Theorem tis_check_exposure_rule (c : Tis.TisCamera) (f : frame) :
  let st := Tis.state c in
  let depth := Tis.bit_depth c in
  let saturated :=
    Z.of_nat (length (filter (fun v => 2 ^ depth - 1 <=? v) (concat f))) in
  let threshold := if depth =? 16 then 100 else 8000 in
  let tolerance := if depth =? 16 then 20 else 1000 in
  let current := Tis.State.current_exposure st in
  let max' := if saturated >? threshold then current - 1
              else Tis.State.max_exposure st in
  let min' := if saturated >? threshold then Tis.State.min_exposure st
              else current + 1 in
  (depth = 8 \/ depth = 16) /\
  exists converged,
    Tis.check_exposure (Some f) c
    = (Ok converged,
       Tis.set_state
         (Tis.State.set_min_exposure min'
            (Tis.State.set_max_exposure max' st)) c) /\
    (converged = true <->
       Z.abs (saturated - threshold) < tolerance \/
       Z.abs (max' - min') < 10 \/
       Z.abs (current - (max' + min') / 2) <= 2 * 10).
Proof.
  intros st depth saturated threshold tolerance current max' min'.
  split; [apply tis_bit_depth_values |].
  eexists. split.
  - rewrite tis_check_exposure_eq.
    rewrite count_saturated_counts. reflexivity.
  - fold st depth saturated threshold tolerance current max' min'.
    change (2 * Tis.TIS_EXPOSURE_INCREMENT) with 20.
    rewrite !orb_true_iff, !Z.ltb_lt, Z.leb_le. tauto.
Qed.

(** Two runs of the rule on the default state: no saturated sample moves
    the lower bound and does not converge; 100 saturated samples meet the
    threshold and converge. *)
Example tis_check_exposure_dark :
  Tis.check_exposure (Some [[0; 12; 7]]) sample_tis_open
  = (Ok false,
     Tis.set_state (Tis.State.set_min_exposure 501 sample_tis_state)
       sample_tis_open).
Proof. reflexivity. Qed.

Example tis_check_exposure_at_threshold :
  fst (Tis.check_exposure (Some [repeat 65535 100]) sample_tis_open)
  = Ok true.
Proof. vm_compute. reflexivity. Qed.

(** ** C5: the search bounds after convergence *)

(** C5, as the code has it.  When [MockCamera.check_exposure] returns true
    the search bounds are back at (100, 500000).  [TisCamera.check_exposure]
    never puts its bounds back: whatever it returns, it leaves either
    [max_exposure = current - 1] with the old minimum or
    [min_exposure = current + 1] with the old maximum; the bounds are seeded
    again by [init_exposure]. *)
Theorem check_exposure_bounds_after :
  (forall f m m',
      Mock.check_exposure f m = (Ok true, m') ->
      Mock._exposure_min m' = 100 /\ Mock._exposure_max m' = 500000) /\
  (forall f c b c',
      Tis.check_exposure (Some f) c = (Ok b, c') ->
      let st := Tis.state c in
      let st' := Tis.state c' in
      (Tis.State.max_exposure st' = Tis.State.current_exposure st - 1 /\
       Tis.State.min_exposure st' = Tis.State.min_exposure st) \/
      (Tis.State.min_exposure st' = Tis.State.current_exposure st + 1 /\
       Tis.State.max_exposure st' = Tis.State.max_exposure st)) /\
  (forall hint c,
      let st' := Tis.state (Tis.init_exposure hint c) in
      Tis.State.min_exposure st' = Tis.TIS_MIN_EXPOSURE_MS /\
      Tis.State.max_exposure st'
      = Z.min Tis.TIS_MAX_EXPOSURE_MS (hint / 1000)).
Proof.
  split; [| split].
  - intros f m m' H. eapply mock_check_exposure_true; eassumption.
  - intros f c b c' H. rewrite tis_check_exposure_eq in H.
    inversion H; subst; clear H. simpl.
    destruct (Tis.count_saturated _ _ >? _); simpl; auto.
  - intros hint c. simpl. split; reflexivity.
Qed.

Lemma check_exposure_bounds_after_witness :
  (forall m',
      Mock.check_exposure None sample_mock = (Ok true, m') ->
      Mock._exposure_min m' = 100 /\ Mock._exposure_max m' = 500000) /\
  Mock.check_exposure None sample_mock
  = (Ok true, Mock.set__exposure_min 100
                (Mock.set__exposure_max 500000 sample_mock)).
Proof.
  split.
  - intros m'.
    apply (proj1 check_exposure_bounds_after None sample_mock m').
  - reflexivity.
Defined.

(** C5 as the specification states it fails on [TisCamera]: a search seeded
    for 30 frames per second has the bounds (15, 33) and tries the exposure
    24; a dark frame makes [check_exposure] return true (the new bounds are
    8 apart) and leaves (25, 33), not the backend's (15, 33333). *)
Lemma check_exposure_reset_counterexample :
  let c :=
    snd (Tis.adjust_exposure io_timeout
           (Tis.init_exposure 33333 sample_tis_open)) in
  exists c',
    Tis.check_exposure (Some [[0]]) c = (Ok true, c') /\
    Tis.State.min_exposure (Tis.state c') = 25 /\
    Tis.State.max_exposure (Tis.state c') = 33 /\
    (Tis.State.min_exposure (Tis.state c'),
     Tis.State.max_exposure (Tis.state c'))
    <> (Tis.TIS_MIN_EXPOSURE_MS, Tis.TIS_MAX_EXPOSURE_MS).
Proof.
  eexists. split; [vm_compute; reflexivity |].
  split; [reflexivity |]. split; [reflexivity |].
  vm_compute. discriminate.
Qed.

(** ** C9: the toggles *)

Lemma mock_step_toggle_fields (m m' : Mock.MockCamera) :
  mock_step m m' ->
  (Mock._bit_depth m' = Mock._bit_depth m \/
   Mock._bit_depth m' = 8 \/ Mock._bit_depth m' = 16) /\
  (Mock._toggle_view m' = Mock._toggle_view m \/
   Mock._toggle_view m' = 0 \/ Mock._toggle_view m' = 1).
Proof.
  intros H. destruct H; simpl; auto.
  - unfold Mock.toggle_bit_depth. simpl.
    destruct (Mock._bit_depth m =? 16); auto.
  - unfold Mock.toggle_view. simpl.
    destruct (Mock._toggle_view m =? 1); auto.
  - unfold Mock.get_frame. destruct (Mock._shape m) as [h w].
    destruct (Mock._toggle_view m =? 0); [destruct w | destruct h];
      simpl; auto.
  - unfold Mock.set_exposure.
    destruct ((v >=? Mock._exposure_max m) || (v <=? Mock._exposure_min m));
      simpl; auto.
  - unfold Mock.check_exposure.
    destruct (Mock._exposure m >? 10000); simpl;
      match goal with
      | |- context [if ?c then _ else _] => destruct c
      end; simpl; auto.
  - unfold Mock.set_save_subfolder. simpl.
    destruct (mkdir false _ w); simpl; auto.
Qed.

(** From its construction on, a [MockCamera] has a bit depth of 8 or 16 and
    a view flag of 0 or 1. *)
Lemma mock_reachable_toggle_values (m : Mock.MockCamera) :
  mock_reachable m ->
  (Mock._bit_depth m = 8 \/ Mock._bit_depth m = 16) /\
  (Mock._toggle_view m = 0 \/ Mock._toggle_view m = 1).
Proof.
  induction 1 as [w m w' Hinit | m m' Hreach IH Hstep].
  - apply mock_init_inv in Hinit. destruct Hinit as [-> _]. simpl. auto.
  - apply mock_step_toggle_fields in Hstep. intuition congruence.
Qed.

(** C9. On every state a [MockCamera] can be in, [toggle_bit_depth] twice
    and [toggle_view] twice give the state back, [bit_depth()] is 8 or 16
    and the view flag is 0 or 1; each toggle writes its own field only, so
    exposure, exposure bounds, frame counter and save paths stay; and
    [TisCamera.toggle_bit_depth] changes nothing. *)
Theorem toggles_are_involutions (m : Mock.MockCamera) :
  mock_reachable m ->
  Mock.toggle_bit_depth (Mock.toggle_bit_depth m) = m /\
  Mock.toggle_view (Mock.toggle_view m) = m /\
  (Mock.bit_depth m = 8 \/ Mock.bit_depth m = 16) /\
  (Mock._toggle_view m = 0 \/ Mock._toggle_view m = 1) /\
  (exists d, Mock.toggle_bit_depth m = Mock.set__bit_depth d m) /\
  (exists v, Mock.toggle_view m = Mock.set__toggle_view v m) /\
  (forall m' : Mock.MockCamera,
      m' = Mock.toggle_bit_depth m \/ m' = Mock.toggle_view m ->
      Mock.exposure m' = Mock.exposure m /\
      Mock._exposure_min m' = Mock._exposure_min m /\
      Mock._exposure_max m' = Mock._exposure_max m /\
      Mock._counter m' = Mock._counter m /\
      Mock._save_folder m' = Mock._save_folder m /\
      Mock._subfolder m' = Mock._subfolder m /\
      Mock.save_folder m' = Mock.save_folder m) /\
  (forall c : Tis.TisCamera, Tis.toggle_bit_depth c = c).
Proof.
  intros Hreach.
  destruct (mock_reachable_toggle_values Hreach) as [Hdepth Hview].
  destruct m as [sh ex emax emin bd cnt tv sf sub]. simpl in Hdepth, Hview.
  unfold Mock.toggle_bit_depth, Mock.toggle_view, Mock.set__bit_depth,
    Mock.set__toggle_view, Mock.bit_depth. simpl.
  repeat split; try assumption.
  - destruct Hdepth; subst; reflexivity.
  - destruct Hview; subst; reflexivity.
  - eexists. reflexivity.
  - eexists. reflexivity.
  - destruct H; subst; reflexivity.
  - destruct H; subst; reflexivity.
  - destruct H; subst; reflexivity.
  - destruct H; subst; reflexivity.
  - destruct H; subst; reflexivity.
  - destruct H; subst; reflexivity.
  - destruct H; subst; reflexivity.
Qed.

Lemma toggles_are_involutions_witness :
  Mock.toggle_bit_depth
    (Mock.toggle_bit_depth (Mock.toggle_view sample_mock))
  = Mock.toggle_view sample_mock /\
  Mock.bit_depth (Mock.toggle_bit_depth sample_mock) = 16.
Proof.
  split.
  - apply (toggles_are_involutions (m := Mock.toggle_view sample_mock)).
    apply (mock_called (m := sample_mock)).
    + apply (@mock_constructed sample_world sample_mock
               (snd (Mock.__init__ sample_world))).
      reflexivity.
    + apply mock_toggle_view.
  - reflexivity.
Defined.

(** ** C10: the save folder *)

Lemma tis_step_other_subfolder (c c' : Tis.TisCamera) :
  tis_step_other c c' ->
  Tis.State.save_subfolder (Tis.state c')
  = Tis.State.save_subfolder (Tis.state c).
Proof.
  intros H. destruct H; simpl; try reflexivity.
  - unfold Tis.open. destruct (devices io); [reflexivity |].
    unfold bind, Tis.sdk_call, Tis.set_value, gets, modify, ret, raise.
    destruct (device_open_ok io); [| reflexivity].
    destruct (set_value_ok io); [| reflexivity]. simpl.
    destruct (stream_setup_ok io); reflexivity.
  - unfold Tis.close, bind, Tis.sdk_call, ret, raise.
    destruct (stream_stop_ok io); [| reflexivity].
    destruct (device_close_ok io); reflexivity.
  - unfold Tis.get_frame. destruct (Tis.sink c); [| reflexivity].
    destruct (snap_single io); reflexivity.
  - unfold Tis.set_exposure, Tis.set_value, bind, modify, ret.
    destruct (set_value_ok io); reflexivity.
  - unfold Tis.adjust_exposure, Tis.set_exposure, Tis.set_value, bind,
      modify, ret.
    destruct (set_value_ok io); reflexivity.
  - unfold Tis.check_exposure, Tis._find_exposure_for_saturation.
    destruct f as [f |]; [| reflexivity]. simpl.
    destruct (Tis.count_saturated _ _ >? _); reflexivity.
Qed.

Lemma tis_init_inv (w w' : World) (c : Tis.TisCamera) :
  Tis.__init__ w = (Ok c, w') ->
  Tis.State.save_subfolder (Tis.state c) = None /\
  Tis.State.save_folder (Tis.state c) = PathJoin (data_path w) "tis".
Proof.
  unfold Tis.__init__.
  destruct (mkdir false (data_path w) w) as [r1 w1].
  destruct r1; [| discriminate].
  destruct (mkdir false (PathJoin (data_path w) "tis") w1) as [r2 w2].
  destruct r2; [| discriminate].
  intros H. inversion H; subst. simpl. auto.
Qed.

Lemma tis_never_subfolder_none (c : Tis.TisCamera) :
  tis_never_subfolder c -> Tis.State.save_subfolder (Tis.state c) = None.
Proof.
  induction 1 as [w c w' Hinit | c c' Hreach IH Hstep].
  - apply tis_init_inv in Hinit. tauto.
  - apply tis_step_other_subfolder in Hstep. congruence.
Qed.

(** C10. On a [TisCamera] on which [set_save_subfolder] was never called,
    [save_folder()] is [None], and [Camera.save_frame] hands [None] to the
    serializer as the folder; once [set_save_subfolder(sub)] was called,
    [save_folder()] is the path [save_folder / sub].  A [MockCamera] without a
    subfolder answers its root data folder. *)
Theorem tis_save_folder_needs_subfolder (c : Tis.TisCamera) :
  tis_never_subfolder c ->
  Tis.save_folder c = None /\
  (forall io f stem fmt w,
      exists call,
        saved (snd (snd (save_frame io f stem fmt (c, w))))
        = (saved w ++ [call])%list /\
        sc_save_folder call = None) /\
  (forall sub w,
      Tis.save_folder (fst (snd (Tis.set_save_subfolder sub (c, w))))
      = Some (PathJoin (Tis.State.save_folder (Tis.state c)) sub)) /\
  (forall m : Mock.MockCamera,
      Mock._subfolder m = None ->
      Mock.save_folder m = Some (Mock._save_folder m)) /\
  (forall w m w',
      Mock.__init__ w = (Ok m, w') ->
      Mock.save_folder m = Some (PathJoin (data_path w) "mock")).
Proof.
  intros Hnever. apply tis_never_subfolder_none in Hnever.
  assert (Hfolder : Tis.save_folder c = None).
  { unfold Tis.save_folder, Tis.State.save_path. rewrite Hnever. reflexivity. }
  split; [exact Hfolder |]. split; [| split; [| split]].
  - intros io f stem fmt w. eexists. split.
    + unfold save_frame, serializer_save_frame, modify. simpl. reflexivity.
    + simpl. exact Hfolder.
  - intros sub w. unfold Tis.set_save_subfolder. simpl.
    destruct (mkdir false _ w). reflexivity.
  - intros m H. unfold Mock.save_folder. rewrite H. reflexivity.
  - intros w m w' H. apply mock_init_inv in H. destruct H as [-> _].
    reflexivity.
Qed.

Lemma tis_save_folder_needs_subfolder_witness :
  Tis.save_folder sample_tis_open = None /\
  Tis.save_folder
    (fst (snd (Tis.set_save_subfolder "20250601_120000"
                 (sample_tis_open, sample_world))))
  = Some (PathJoin (PathJoin (PathRoot "data") "tis") "20250601_120000").
Proof.
  assert (H : tis_never_subfolder sample_tis_open).
  { apply (tis_called (c := sample_tis)).
    - apply (@tis_constructed sample_world sample_tis
               (snd (Tis.__init__ sample_world))).
      reflexivity.
    - apply (tis_open io_timeout sample_tis). }
  split.
  - apply (tis_save_folder_needs_subfolder H).
  - apply (tis_save_folder_needs_subfolder H).
Defined.

(** ** C8: the registry *)

Lemma import_module_modules (m : string) (w : World) :
  sys_modules (snd (import_module m w)) = sys_modules w \/
  sys_modules (snd (import_module m w)) = m :: sys_modules w.
Proof.
  unfold import_module.
  destruct (existsb (String.eqb m) (sys_modules w)); [auto |].
  destruct (existsb (String.eqb m) (importable w)); simpl; auto.
Qed.

Lemma import_module_ok (m : string) (w w' : World) :
  import_module m w = (Ok tt, w') -> In m (sys_modules w').
Proof.
  unfold import_module.
  destruct (existsb (String.eqb m) (sys_modules w)) eqn:E.
  - intros H. inversion H; subst.
    apply existsb_exists in E. destruct E as [x [Hin Heq]].
    apply String.eqb_eq in Heq. subst. assumption.
  - destruct (existsb (String.eqb m) (importable w)); intros H;
      inversion H; subst. simpl. auto.
Qed.

Lemma tis_init_modules (w : World) :
  sys_modules (snd (Tis.__init__ w)) = sys_modules w.
Proof.
  unfold Tis.__init__.
  pose proof (mkdir_frame false (data_path w) w) as [_ [H1 _]].
  destruct (mkdir false (data_path w) w) as [r1 w1]. simpl in H1.
  destruct r1; [| exact H1].
  pose proof (mkdir_frame false (PathJoin (data_path w) "tis") w1)
    as [_ [H2 _]].
  destruct (mkdir false (PathJoin (data_path w) "tis") w1) as [r2 w2].
  simpl in H2. destruct r2; simpl; congruence.
Qed.

Lemma mock_init_modules (w : World) :
  sys_modules (snd (Mock.__init__ w)) = sys_modules w.
Proof.
  unfold Mock.__init__.
  pose proof (mkdir_frame true (PathJoin (data_path w) "mock") w)
    as [_ [H _]].
  destruct (mkdir true (PathJoin (data_path w) "mock") w) as [r w1].
  simpl in H. destruct r; exact H.
Qed.

Section RegistryFacts.

Variable XimeaCamera : Type.
Variable XimeaCamera__init__ : M World XimeaCamera.

Lemma camera_mock (w : World) :
  camera XimeaCamera__init__ "mock" w
  = (let (r, w') := Mock.__init__ w in
     match r with
     | Ok m => (Ok (IsMockCamera m), w')
     | Raise e => (Raise e, w')
     end).
Proof.
  unfold camera, bind, ret. simpl.
  destruct (Mock.__init__ w) as [[m | e] w']; reflexivity.
Qed.

Lemma camera_tis (w : World) :
  camera XimeaCamera__init__ "tis" w
  = (let (r, w1) := import_module tis_interface w in
     match r with
     | Ok _ =>
         let (r', w2) := Tis.__init__ w1 in
         match r' with
         | Ok t => (Ok (IsTisCamera t), w2)
         | Raise e => (Raise e, w2)
         end
     | Raise e => (Raise e, w1)
     end).
Proof.
  unfold camera, bind, ret. simpl.
  destruct (import_module tis_interface w) as [[[] | e] w1]; [| reflexivity].
  destruct (Tis.__init__ w1) as [[t | e] w2]; reflexivity.
Qed.

Lemma camera_unknown (camera_id : string) (w : World) :
  camera_id <> "mock" -> camera_id <> "ximea" -> camera_id <> "tis" ->
  camera XimeaCamera__init__ camera_id w
  = (Raise (ValueError ("Camera f" ++ camera_id ++ " not known.")), w).
Proof.
  intros H1 H2 H3. unfold camera, value.
  apply String.eqb_neq in H1, H2, H3. rewrite H1, H2, H3. reflexivity.
Qed.

(** C8. [camera("mock")] returns a [MockCamera] and imports nothing;
    [camera("ximea")] imports [ximea_interface] and then constructs an
    [XimeaCamera]; [camera("tis")] imports [tis_interface], and no other
    module, and then constructs a [TisCamera]; every other identifier
    raises [ValueError] and leaves the world as it was; and an object that
    comes back is of the class the identifier names. *)
Theorem camera_registry :
  (forall w, exists m w',
      camera XimeaCamera__init__ "mock" w = (Ok (IsMockCamera m), w') /\
      sys_modules w' = sys_modules w) /\
  (forall w,
      camera XimeaCamera__init__ "ximea" w
      = (import_module ximea_interface ;;
         x <- XimeaCamera__init__ ;; ret (IsXimeaCamera x)) w) /\
  (forall w r w',
      camera XimeaCamera__init__ "tis" w = (r, w') ->
      (sys_modules w' = sys_modules w \/
       sys_modules w' = tis_interface :: sys_modules w) /\
      (forall obj, r = Ok obj ->
                   In tis_interface (sys_modules w') /\
                   exists t, obj = IsTisCamera t)) /\
  (forall camera_id w,
      camera_id <> value MOCK -> camera_id <> value XIMEA ->
      camera_id <> value TIS ->
      exists msg,
        camera XimeaCamera__init__ camera_id w
        = (Raise (ValueError msg), w)) /\
  (forall camera_id w obj w',
      camera XimeaCamera__init__ camera_id w = (Ok obj, w') ->
      match obj with
      | IsMockCamera _ => camera_id = value MOCK
      | IsXimeaCamera _ => camera_id = value XIMEA
      | IsTisCamera _ => camera_id = value TIS
      end).
Proof.
  split; [| split; [| split; [| split]]].
  - intros w. rewrite camera_mock.
    destruct (mock_init_ok w) as [m [w' H]].
    pose proof (mock_init_modules w) as Hm. rewrite H in *. simpl in Hm.
    exists m, w'. auto.
  - intros w. reflexivity.
  - intros w r w' H. rewrite camera_tis in H.
    pose proof (import_module_modules tis_interface w) as Himp.
    pose proof (@import_module_ok tis_interface w) as Hin.
    destruct (import_module tis_interface w) as [[[] | e] w1].
    + pose proof (tis_init_modules w1) as Hinit.
      specialize (Hin w1 eq_refl).
      destruct (Tis.__init__ w1) as [[t | e] w2]; inversion H; subst;
        simpl in *; rewrite Hinit.
      * split; [exact Himp |]. intros obj Hobj. inversion Hobj; subst.
        split; [exact Hin | eauto].
      * split; [exact Himp |]. intros obj Hobj. discriminate Hobj.
    + inversion H; subst. simpl in *. split; [exact Himp |].
      intros obj Hobj. discriminate Hobj.
  - intros camera_id w H1 H2 H3. eexists.
    apply camera_unknown; assumption.
  - intros camera_id w obj w' H. unfold camera in H.
    destruct (camera_id =? value MOCK)%string eqn:E1.
    { apply String.eqb_eq in E1. unfold bind, ret in H.
      destruct (Mock.__init__ w) as [[m | e] w1]; inversion H; subst.
      reflexivity. }
    destruct (camera_id =? value XIMEA)%string eqn:E2.
    { apply String.eqb_eq in E2. unfold bind, ret in H.
      destruct (import_module ximea_interface w) as [[[] | e] w1];
        [| discriminate H].
      destruct (XimeaCamera__init__ w1) as [[x | e] w2]; inversion H; subst.
      reflexivity. }
    destruct (camera_id =? value TIS)%string eqn:E3.
    { apply String.eqb_eq in E3. unfold bind, ret in H.
      destruct (import_module tis_interface w) as [[[] | e] w1];
        [| discriminate H].
      destruct (Tis.__init__ w1) as [[t | e] w2]; inversion H; subst.
      reflexivity. }
    discriminate H.
Qed.

End RegistryFacts.

(** The registry on the sample world, where only the TIS backend can be
    imported; the Ximea constructor is a stand-in that returns a unit. *)
Lemma camera_registry_witness :
  (exists msg,
      camera (ret tt : M World unit) "webcam" sample_world
      = (Raise (ValueError msg), sample_world)) /\
  (exists t w',
      camera (ret tt : M World unit) "tis" sample_world
      = (Ok (IsTisCamera t), w') /\
      sys_modules w' = [tis_interface]) /\
  fst (camera (ret tt : M World unit) "ximea" sample_world)
  = Raise ImportError.
Proof.
  split; [| split].
  - apply (camera_registry (ret tt : M World unit)); discriminate.
  - eexists. eexists. split; vm_compute; reflexivity.
  - reflexivity.
Defined.

(** ** The steps of a tick *)

Section TickSteps.

Context {S : Type} {cam : Camera S}.

Implicit Types (p : Gui.VideoPlayer S) (w : World) (io : Io).

(** A tick of a running, unpaused session is the sequence of its steps. *)
Lemma update_frame_running io p w :
  Gui.running (Gui.state p) = true ->
  Gui.paused (Gui.state p) = false ->
  Gui.update_frame io (p, w)
  = (Gui.adjust_step io ;;
     frames <- Gui.pull_frame io ;;
     Gui.show_step (snd frames) ;;
     Gui.record_step io (fst frames) ;;
     Gui.check_step (fst frames)) (p, w).
Proof.
  intros Hrun Hpause.
  unfold Gui.update_frame at 1, Gui.read, gets.
  unfold bind at 1. simpl. unfold bind at 1. simpl.
  rewrite Hrun, Hpause. reflexivity.
Qed.

(** [adjust_step] and [pull_frame] act on the camera only. *)
Lemma adjust_step_eq io p w :
  Gui.adjust_step io (p, w)
  = if Gui.estimating_exposure (Gui.state p)
    then (fst (adjust_exposure io (Gui.camera p)),
          (Gui.set_camera (snd (adjust_exposure io (Gui.camera p))) p, w))
    else (Ok tt, (p, w)).
Proof.
  unfold Gui.adjust_step, Gui.read, gets, bind, Gui.on_camera, zoom, ret.
  simpl. destruct (Gui.estimating_exposure (Gui.state p)); [| reflexivity].
  simpl.
  destruct (adjust_exposure io (Gui.camera p)) as [[[] | e] c]; reflexivity.
Qed.

Lemma pull_frame_eq io p w :
  Gui.pull_frame io (p, w)
  = match get_frame io (Gui.fps (Gui.state p)) (Gui.camera p) with
    | (Ok fv, c) => (Ok (Some (fst fv), Some (snd fv)), (Gui.set_camera c p, w))
    | (Raise e, c) =>
        if exception_type c e
        then (Ok (None, None), (Gui.set_camera c p, w))
        else (Raise e, (Gui.set_camera c p, w))
    end.
Proof.
  unfold Gui.pull_frame, Gui.read, gets, bind, try_except, Gui.on_camera,
    zoom, ret. simpl.
  destruct (get_frame io (Gui.fps (Gui.state p)) (Gui.camera p))
    as [[fv | e] c]; reflexivity.
Qed.

Lemma show_step_eq (v : option frame_view) p w :
  Gui.show_step v (p, w) = (Ok tt, (Gui.shown v p, w)).
Proof. destruct v; reflexivity. Qed.

Lemma shown_state (v : option frame_view) p :
  Gui.state (Gui.shown v p) = Gui.state p.
Proof. destruct v; reflexivity. Qed.

Lemma shown_camera (v : option frame_view) p :
  Gui.camera (Gui.shown v p) = Gui.camera p.
Proof. destruct v; reflexivity. Qed.

(** [record_step]: one call of the serializer and one increment, when the
    session records and a raw frame is at hand; nothing otherwise. *)
Lemma record_step_eq io (f : option frame) p w :
  Gui.record_step io f (p, w)
  = match Gui.recording (Gui.state p), f with
    | true, Some raw =>
        (Ok tt,
         (Gui.set_state
            (Gui.set_frame_counter (Gui.frame_counter (Gui.state p) + 1)
               (Gui.state p)) p,
          set_saved
            (saved w ++
             [{| sc_frame := raw;
                 sc_save_folder := save_folder (Gui.camera p);
                 sc_filename_stem :=
                   "frame_" ++ format_04d (Gui.frame_counter (Gui.state p));
                 sc_envi_options := get_envi_options io (Gui.camera p);
                 sc_fmt := Gui.recording_format (Gui.state p) |}])%list
            w))
    | _, _ => (Ok tt, (p, w))
    end.
Proof.
  unfold Gui.record_step, Gui.read, gets, bind. simpl.
  destruct (Gui.recording (Gui.state p)); [| reflexivity].
  destruct f as [raw |]; [| reflexivity].
  destruct p as [c g ci]. reflexivity.
Qed.

Lemma record_step_no_frame io p w :
  Gui.record_step io None (p, w) = (Ok tt, (p, w)).
Proof.
  rewrite record_step_eq. destruct (Gui.recording (Gui.state p)); reflexivity.
Qed.

Lemma record_step_not_recording io (f : option frame) p w :
  Gui.recording (Gui.state p) = false ->
  Gui.record_step io f (p, w) = (Ok tt, (p, w)).
Proof. intros H. rewrite record_step_eq, H. reflexivity. Qed.

Lemma check_step_eq (f : option frame) p w :
  Gui.check_step f (p, w)
  = if Gui.estimating_exposure (Gui.state p)
    then match check_exposure f (Gui.camera p) with
         | (Ok converged, c) =>
             (Ok tt,
              (Gui.set_state (Gui.after_check converged (Gui.state p))
                 (Gui.set_camera c p), w))
         | (Raise e, c) => (Raise e, (Gui.set_camera c p, w))
         end
    else (Ok tt, (p, w)).
Proof.
  unfold Gui.check_step, Gui.read, gets, bind, Gui.on_camera, zoom, ret.
  simpl. destruct (Gui.estimating_exposure (Gui.state p)); [| reflexivity].
  simpl.
  destruct (check_exposure f (Gui.camera p)) as [[b | e] c]; [| reflexivity].
  unfold Gui.write, modify, Gui.after_check. simpl.
  destruct p as [c0 g ci]. destruct g. simpl.
  rewrite Z.geb_leb.
  destruct b; simpl.
  - destruct (50 <=? exposure_tries + 1); reflexivity.
  - destruct (Z.ltb_spec (exposure_tries + 1) 50);
      destruct (Z.leb_spec 50 (exposure_tries + 1)); try lia; reflexivity.
Qed.

End TickSteps.

(** ** C2: a tick whose [get_frame] raises *)

(** Outside an exposure search the tick is a missed tick: both frames are
    [None], the session state, the image on display and the serializer's
    calls stay, and the handler returns. *)
Lemma update_frame_missed_tick_idle {S} {cam : Camera S}
  (io : Io) (p : Gui.VideoPlayer S) (w : World) (e : exn) (c : S) :
  Gui.running (Gui.state p) = true ->
  Gui.paused (Gui.state p) = false ->
  Gui.estimating_exposure (Gui.state p) = false ->
  get_frame io (Gui.fps (Gui.state p)) (Gui.camera p) = (Raise e, c) ->
  exception_type c e = true ->
  Gui.pull_frame io (p, w) = (Ok (None, None), (Gui.set_camera c p, w)) /\
  Gui.update_frame io (p, w) = (Ok tt, (Gui.set_camera c p, w)).
Proof.
  intros Hrun Hpause Hest Hget Hcls.
  assert (Hpull : Gui.pull_frame io (p, w)
                  = (Ok (None, None), (Gui.set_camera c p, w))).
  { rewrite pull_frame_eq, Hget, Hcls. reflexivity. }
  split; [exact Hpull |].
  rewrite update_frame_running by assumption.
  unfold bind at 1. rewrite adjust_step_eq, Hest.
  unfold bind at 1. rewrite Hpull. simpl fst. simpl snd.
  unfold bind at 1. rewrite show_step_eq.
  unfold bind at 1. rewrite record_step_no_frame.
  rewrite check_step_eq. simpl. rewrite Hest. reflexivity.
Qed.

(** During an exposure search on a [TisCamera], a timeout of [snap_single]
    is caught, but [check_exposure] is then called on [None] and its
    [TypeError] leaves the handler. *)
Lemma tis_timeout_while_estimating
  (io : Io) (p : Gui.VideoPlayer Tis.TisCamera) (w : World) :
  Gui.running (Gui.state p) = true ->
  Gui.paused (Gui.state p) = false ->
  Gui.estimating_exposure (Gui.state p) = true ->
  set_value_ok io = true ->
  Tis.sink (Gui.camera p) <> None ->
  snap_single io = None ->
  let c := snd (Tis.adjust_exposure io (Gui.camera p)) in
  Gui.pull_frame io (Gui.set_camera c p, w)
  = (Ok (None, None), (Gui.set_camera c p, w)) /\
  Gui.update_frame io (p, w) = (Raise TypeError, (Gui.set_camera c p, w)).
Proof.
  intros Hrun Hpause Hest Hset Hsink Hsnap c.
  assert (Hadj : Tis.adjust_exposure io (Gui.camera p) = (Ok tt, c)).
  { unfold c, Tis.adjust_exposure.
    rewrite tis_set_exposure_accepts by assumption. reflexivity. }
  assert (Hsink' : Tis.sink c <> None).
  { unfold c, Tis.adjust_exposure.
    rewrite tis_set_exposure_accepts by assumption. exact Hsink. }
  assert (Hpull : Gui.pull_frame io (Gui.set_camera c p, w)
                  = (Ok (None, None), (Gui.set_camera c p, w))).
  { rewrite pull_frame_eq. simpl. unfold Tis.get_frame.
    destruct (Tis.sink c) as [[] |]; [| congruence].
    rewrite Hsnap. simpl. destruct p; reflexivity. }
  split; [exact Hpull |].
  rewrite update_frame_running by assumption.
  unfold bind at 1. rewrite adjust_step_eq, Hest.
  change (adjust_exposure io (Gui.camera p))
    with (Tis.adjust_exposure io (Gui.camera p)).
  rewrite Hadj. simpl fst. simpl snd.
  unfold bind at 1. rewrite Hpull. simpl fst. simpl snd.
  unfold bind at 1. rewrite show_step_eq.
  unfold bind at 1. rewrite record_step_no_frame.
  rewrite check_step_eq. simpl. rewrite Hest.
  destruct p; reflexivity.
Qed.

(** C2, at the input where the code departs from it.  A [TisCamera] session
    runs an exposure search at 30 frames per second and [snap_single] times
    out: [get_frame] raises [IC4Exception], the tick catches it and both
    frames are [None], no call reaches the serializer and the session state
    stays; but [check_exposure] is still called, on [None], and its
    [TypeError] leaves [update_frame]. *)
Theorem update_frame_timeout_while_estimating :
  let start :=
    snd (Gui.toggle_exposure
           (running_player sample_tis_open "tis", sample_world)) in
  let adjusted := snd (Gui.adjust_step io_timeout start) in
  Gui.estimating_exposure (Gui.state (fst start)) = true /\
  fst (get_frame io_timeout 30 (Gui.camera (fst adjusted)))
  = Raise IC4Exception /\
  fst (Gui.pull_frame io_timeout adjusted) = Ok (None, None) /\
  fst (check_exposure None (Gui.camera (fst adjusted))) = Raise TypeError /\
  fst (Gui.update_frame io_timeout start) = Raise TypeError /\
  Gui.state (fst (snd (Gui.update_frame io_timeout start)))
  = Gui.state (fst start) /\
  saved (snd (snd (Gui.update_frame io_timeout start))) = [].
Proof. vm_compute. repeat split; reflexivity. Qed.

(** ** C6: recording *)

Section Recording.

Context {S : Type} {cam : Camera S}.

Implicit Types (p : Gui.VideoPlayer S) (w : World) (io : Io).

Lemma adjust_step_keeps io p w r p1 w1 :
  Gui.adjust_step io (p, w) = (r, (p1, w1)) ->
  Gui.state p1 = Gui.state p /\ w1 = w.
Proof.
  rewrite adjust_step_eq.
  destruct (Gui.estimating_exposure (Gui.state p)); intros H;
    inversion H; subst; auto.
Qed.

Lemma pull_frame_keeps io p w r p1 w1 :
  Gui.pull_frame io (p, w) = (r, (p1, w1)) ->
  Gui.state p1 = Gui.state p /\ w1 = w.
Proof.
  rewrite pull_frame_eq.
  destruct (get_frame io (Gui.fps (Gui.state p)) (Gui.camera p))
    as [[fv | e] c]; [| destruct (exception_type c e)]; intros H;
    inversion H; subst; auto.
Qed.

Lemma after_check_keeps (b : bool) (g : Gui.GuiState) :
  Gui.frame_counter (Gui.after_check b g) = Gui.frame_counter g /\
  Gui.recording (Gui.after_check b g) = Gui.recording g /\
  Gui.running (Gui.after_check b g) = Gui.running g /\
  Gui.paused (Gui.after_check b g) = Gui.paused g.
Proof.
  unfold Gui.after_check.
  destruct (negb b && (Gui.exposure_tries g + 1 <? 50)); simpl; auto.
Qed.

Lemma check_step_keeps (f : option frame) p w :
  snd (snd (Gui.check_step f (p, w))) = w /\
  Gui.frame_counter (Gui.state (fst (snd (Gui.check_step f (p, w)))))
  = Gui.frame_counter (Gui.state p).
Proof.
  rewrite check_step_eq.
  destruct (Gui.estimating_exposure (Gui.state p)); [| simpl; auto].
  destruct (check_exposure f (Gui.camera p)) as [[b | e] c]; simpl; auto.
  split; [reflexivity | apply after_check_keeps].
Qed.

(** Starting a recording: the flag is set and the counter is 0, whatever
    becomes of the subfolder. *)
Lemma toggle_recording_starts io p w :
  Gui.running (Gui.state p) = true ->
  Gui.paused (Gui.state p) = false ->
  Gui.recording (Gui.state p) = false ->
  let pw' := snd (Gui.toggle_recording io (p, w)) in
  Gui.recording (Gui.state (fst pw')) = true /\
  Gui.frame_counter (Gui.state (fst pw')) = 0.
Proof.
  intros Hrun Hpause Hrec.
  unfold Gui.toggle_recording, Gui.read, Gui.write, gets, modify, bind,
    Gui.on_device, zoom, ret. simpl.
  rewrite Hrun, Hpause. simpl. rewrite Hrec. simpl.
  destruct (set_save_subfolder (now_strftime io) (Gui.camera p, w))
    as [r [c w']]. simpl. auto.
Qed.

(** A tick that records and obtains a raw frame: one more call of the
    serializer, named by the counter, and the counter one higher. *)
Lemma update_frame_records io p w p1 w1 raw v p2 w2 :
  Gui.running (Gui.state p) = true ->
  Gui.paused (Gui.state p) = false ->
  Gui.recording (Gui.state p) = true ->
  Gui.adjust_step io (p, w) = (Ok tt, (p1, w1)) ->
  Gui.pull_frame io (p1, w1) = (Ok (Some raw, v), (p2, w2)) ->
  let pw' := snd (Gui.update_frame io (p, w)) in
  saved (snd pw')
  = (saved w ++
     [{| sc_frame := raw;
         sc_save_folder := save_folder (Gui.camera p2);
         sc_filename_stem :=
           "frame_" ++ format_04d (Gui.frame_counter (Gui.state p));
         sc_envi_options := get_envi_options io (Gui.camera p2);
         sc_fmt := Gui.recording_format (Gui.state p) |}])%list /\
  Gui.frame_counter (Gui.state (fst pw'))
  = Gui.frame_counter (Gui.state p) + 1.
Proof.
  intros Hrun Hpause Hrec Hadj Hpull. cbv zeta.
  destruct (adjust_step_keeps _ _ _ Hadj) as [Hs1 ->].
  destruct (pull_frame_keeps _ _ _ Hpull) as [Hs2 ->].
  destruct (Gui.update_frame io (p, w)) as [r [p' w']] eqn:E.
  rewrite update_frame_running in E by assumption.
  unfold bind at 1 in E. rewrite Hadj in E.
  unfold bind at 1 in E. rewrite Hpull in E. simpl fst in E. simpl snd in E.
  unfold bind at 1 in E. rewrite show_step_eq in E.
  unfold bind at 1 in E. rewrite record_step_eq in E.
  rewrite shown_state, shown_camera, Hs2, Hs1, Hrec in E.
  match type of E with
  | Gui.check_step ?f (?q, ?x) = _ =>
      pose proof (check_step_keeps f q x) as [Hw Hfc]
  end.
  rewrite E in Hw, Hfc. simpl in Hw, Hfc. simpl.
  rewrite Hw, Hfc. auto.
Qed.

(** A tick of a session that does not record: no call of the serializer,
    whatever else the tick does. *)
Lemma update_frame_not_recording io p w :
  Gui.recording (Gui.state p) = false ->
  let pw' := snd (Gui.update_frame io (p, w)) in
  saved (snd pw') = saved w /\
  Gui.frame_counter (Gui.state (fst pw')) = Gui.frame_counter (Gui.state p).
Proof.
  intros Hrec. cbv zeta.
  destruct (Gui.running (Gui.state p)) eqn:Hrun;
    [| rewrite update_frame_guard by (rewrite Hrun; reflexivity);
       simpl; auto].
  destruct (Gui.paused (Gui.state p)) eqn:Hpause;
    [rewrite update_frame_guard by (rewrite Hrun, Hpause; reflexivity);
     simpl; auto |].
  destruct (Gui.update_frame io (p, w)) as [r [p' w']] eqn:E.
  rewrite update_frame_running in E by assumption.
  unfold bind at 1 in E.
  destruct (Gui.adjust_step io (p, w)) as [[[] | e] [p1 w1]] eqn:Hadj;
    destruct (adjust_step_keeps _ _ _ Hadj) as [Hs1 ->];
    [| inversion E; subst; simpl; rewrite Hs1; auto].
  unfold bind at 1 in E.
  destruct (Gui.pull_frame io (p1, w)) as [[frames | e] [p2 w2]] eqn:Hpull;
    destruct (pull_frame_keeps _ _ _ Hpull) as [Hs2 ->];
    [| inversion E; subst; simpl; rewrite Hs2, Hs1; auto].
  unfold bind at 1 in E. rewrite show_step_eq in E.
  unfold bind at 1 in E.
  rewrite record_step_not_recording in E
    by (rewrite shown_state, Hs2, Hs1; exact Hrec).
  match type of E with
  | Gui.check_step ?f (?q, ?x) = _ =>
      pose proof (check_step_keeps f q x) as [Hw Hfc]
  end.
  rewrite E in Hw, Hfc. simpl in Hw, Hfc. simpl.
  rewrite Hw, Hfc, shown_state, Hs2, Hs1. auto.
Qed.

End Recording.

(** *** Recording with the simulated backend *)

Lemma bar_length (n : nat) (x : Z) : length (Mock.bar n x) = n.
Proof. unfold Mock.bar. rewrite length_map. apply length_seq. Qed.

(** [MockCamera.get_frame] returns one array twice, of the shape in
    [_shape], and counts the call. *)
Lemma mock_get_frame_rect (io : Io) (fps : Z) (m : Mock.MockCamera)
  (h w : nat) :
  Mock._shape m = (Datatypes.S h, Datatypes.S w) ->
  exists img,
    Mock.get_frame io fps m
    = (Ok (img, ViewArray img), Mock.set__counter (Mock._counter m + 1) m) /\
    frame_rect (Datatypes.S h) (Datatypes.S w) img.
Proof.
  intros Hshape. unfold Mock.get_frame. rewrite Hshape.
  destruct (Mock._toggle_view m =? 0); eexists; (split; [reflexivity |]).
  - split.
    + apply repeat_length.
    + apply Forall_forall. intros r Hin. apply repeat_spec in Hin. subst r.
      apply bar_length.
  - split.
    + rewrite length_map. apply bar_length.
    + apply Forall_forall. intros r Hin. apply in_map_iff in Hin.
      destruct Hin as [v [<- _]]. apply repeat_length.
Qed.

(** One tick of a recording [MockCamera] session. *)
Lemma mock_tick_recording (io : Io) (p : Gui.VideoPlayer Mock.MockCamera)
  (w : World) :
  mock_recording p ->
  exists p' w' call,
    Gui.update_frame io (p, w) = (Ok tt, (p', w')) /\
    mock_recording p' /\
    saved w' = (saved w ++ [call])%list /\
    sc_filename_stem call
    = "frame_" ++ format_04d (Gui.frame_counter (Gui.state p)) /\
    frame_rect 480 640 (sc_frame call) /\
    Gui.frame_counter (Gui.state p')
    = Gui.frame_counter (Gui.state p) + 1.
Proof.
  intros (Hrun & Hpause & Hrec & Hest & Hshape).
  destruct (mock_get_frame_rect io (Gui.fps (Gui.state p)) (Gui.camera p)
              Hshape) as [img [Hget Hrect]].
  rewrite update_frame_running by assumption.
  unfold bind at 1. rewrite adjust_step_eq, Hest.
  unfold bind at 1. rewrite pull_frame_eq.
  change (get_frame io (Gui.fps (Gui.state p)) (Gui.camera p))
    with (Mock.get_frame io (Gui.fps (Gui.state p)) (Gui.camera p)).
  rewrite Hget. simpl fst. simpl snd.
  unfold bind at 1. rewrite show_step_eq.
  unfold bind at 1. rewrite record_step_eq.
  rewrite shown_state. simpl Gui.state. rewrite Hrec.
  rewrite check_step_eq.
  cbn [Gui.state Gui.set_state Gui.estimating_exposure
       Gui.set_frame_counter].
  rewrite Hest.
  do 3 eexists. split; [reflexivity |].
  split; [| cbn [saved set_saved sc_filename_stem sc_frame Gui.state
                 Gui.set_state Gui.frame_counter Gui.set_frame_counter];
            auto].
  unfold mock_recording.
  cbn [Gui.state Gui.set_state Gui.camera Gui.set_camera Gui.running
       Gui.paused Gui.recording Gui.estimating_exposure
       Gui.set_frame_counter Gui.shown Gui.set_current_image
       Mock._shape Mock.set__counter].
  auto.
Qed.

(** Any number of ticks of a recording [MockCamera] session: one call of
    the serializer per tick, named by consecutive counters. *)
Lemma mock_ticks_recording (ios : list Io) :
  forall (p : Gui.VideoPlayer Mock.MockCamera) (w : World),
    mock_recording p ->
    exists p' w' calls,
      Gui.run_ticks ios (p, w) = (Ok tt, (p', w')) /\
      mock_recording p' /\
      saved w' = (saved w ++ calls)%list /\
      map sc_filename_stem calls
      = frame_names (Gui.frame_counter (Gui.state p)) (length ios) /\
      Forall (fun c => frame_rect 480 640 (sc_frame c)) calls /\
      Gui.frame_counter (Gui.state p')
      = Gui.frame_counter (Gui.state p) + Z.of_nat (length ios).
Proof.
  induction ios as [| io rest IH]; intros p w Hp.
  - exists p, w, []. simpl. rewrite app_nil_r, Z.add_0_r.
    repeat split; auto; apply Hp.
  - destruct (mock_tick_recording io w Hp)
      as (p1 & w1 & call & Htick & Hp1 & Hsaved & Hstem & Hrect & Hfc).
    destruct (IH p1 w1 Hp1)
      as (p' & w' & calls & Hrun & Hp' & Hsaved' & Hstems & Hrects & Hfc').
    exists p', w', (call :: calls).
    split; [| split; [exact Hp' | split; [| split; [| split]]]].
    + simpl. unfold bind. rewrite Htick. exact Hrun.
    + rewrite Hsaved', Hsaved, <- app_assoc. reflexivity.
    + cbn [map]. rewrite Hstem, Hstems, Hfc. unfold frame_names.
      cbn [length seq map]. f_equal.
      * rewrite Z.add_0_r. reflexivity.
      * rewrite <- seq_shift, map_map. apply map_ext. intros k.
        do 2 f_equal. lia.
    + constructor; assumption.
    + rewrite Hfc', Hfc. cbn [length]. lia.
Qed.

Lemma mkdir_child_ok (q : Path) (a : string) (w : World) :
  is_dir q (dirs w) = true -> fst (mkdir false (PathJoin q a) w) = Ok tt.
Proof.
  intros H. unfold mkdir.
  destruct (is_dir (PathJoin q a) (dirs w)); [reflexivity |].
  rewrite H. reflexivity.
Qed.

(** Starting a recording on a session whose [MockCamera] was just
    constructed. *)
Lemma mock_toggle_recording_ok (io : Io) (w w1 : World)
  (m : Mock.MockCamera) :
  Mock.__init__ w = (Ok m, w1) ->
  exists p' w',
    Gui.toggle_recording io (running_player m "mock", w1) = (Ok tt, (p', w'))
    /\ mock_recording p'
    /\ Gui.frame_counter (Gui.state p') = 0
    /\ saved w' = saved w.
Proof.
  intros Hinit. apply mock_init_inv in Hinit. destruct Hinit as [-> ->].
  pose proof (mkdir_parents_ok (PathJoin (data_path w) "mock") w)
    as [_ Hdir].
  pose proof (mkdir_frame true (PathJoin (data_path w) "mock") w)
    as [Hsaved _].
  set (w1 := snd (mkdir true (PathJoin (data_path w) "mock") w)) in *.
  pose proof (@mkdir_child_ok _ (now_strftime io) w1 Hdir) as Hok.
  pose proof (mkdir_frame false
                (PathJoin (PathJoin (data_path w) "mock") (now_strftime io))
                w1) as [Hsaved' _].
  unfold Gui.toggle_recording, Gui.read, Gui.write, gets, modify, bind,
    Gui.on_device, zoom, ret, running_player.
  cbn -[mkdir].
  destruct (mkdir false
              (PathJoin (PathJoin (data_path w) "mock") (now_strftime io))
              w1) as [r w2].
  cbn in Hok, Hsaved'. subst r.
  do 2 eexists. split; [reflexivity |].
  split; [| split; [reflexivity | cbn [snd]; congruence]].
  unfold mock_recording. cbn. auto.
Qed.

(** C6. Starting a recording sets [frame_counter] to 0.  A tick of a
    recording session that obtains a raw frame makes exactly one call of
    the serializer, with that frame and the stem [frame_] followed by the
    counter in the format [04d], and then the counter is one higher.  A tick
    of a session that does not record makes no call.  So five ticks of a
    recording session on a [MockCamera] make exactly five calls, named
    [frame_0000] to [frame_0004], each with a frame of 480 rows of 640
    samples. *)
Theorem recording_names_frames_by_counter :
  (forall (S : Type) (cam : Camera S) io (p : Gui.VideoPlayer S) w,
      Gui.running (Gui.state p) = true ->
      Gui.paused (Gui.state p) = false ->
      Gui.recording (Gui.state p) = false ->
      let pw' := snd (Gui.toggle_recording io (p, w)) in
      Gui.recording (Gui.state (fst pw')) = true /\
      Gui.frame_counter (Gui.state (fst pw')) = 0) /\
  (forall (S : Type) (cam : Camera S) io (p : Gui.VideoPlayer S) w
          p1 w1 raw v p2 w2,
      Gui.running (Gui.state p) = true ->
      Gui.paused (Gui.state p) = false ->
      Gui.recording (Gui.state p) = true ->
      Gui.adjust_step io (p, w) = (Ok tt, (p1, w1)) ->
      Gui.pull_frame io (p1, w1) = (Ok (Some raw, v), (p2, w2)) ->
      let pw' := snd (Gui.update_frame io (p, w)) in
      (exists call,
          saved (snd pw') = (saved w ++ [call])%list /\
          sc_frame call = raw /\
          sc_filename_stem call
          = "frame_" ++ format_04d (Gui.frame_counter (Gui.state p))) /\
      Gui.frame_counter (Gui.state (fst pw'))
      = Gui.frame_counter (Gui.state p) + 1) /\
  (forall (S : Type) (cam : Camera S) io (p : Gui.VideoPlayer S) w,
      Gui.recording (Gui.state p) = false ->
      saved (snd (snd (Gui.update_frame io (p, w)))) = saved w) /\
  (forall w m w1 io0 ios,
      Mock.__init__ w = (Ok m, w1) ->
      length ios = 5%nat ->
      exists p' w' calls,
        (Gui.toggle_recording io0 ;; Gui.run_ticks ios)
          (running_player m "mock", w1)
        = (Ok tt, (p', w')) /\
        saved w' = (saved w ++ calls)%list /\
        map sc_filename_stem calls
        = ["frame_0000"; "frame_0001"; "frame_0002"; "frame_0003";
           "frame_0004"] /\
        Forall (fun c => frame_rect 480 640 (sc_frame c)) calls).
Proof.
  split; [| split; [| split]].
  - intros S cam io p w Hrun Hpause Hrec.
    apply toggle_recording_starts; assumption.
  - intros S cam io p w p1 w1 raw v p2 w2 Hrun Hpause Hrec Hadj Hpull.
    destruct (@update_frame_records S cam io p w p1 w1 raw v p2 w2
                Hrun Hpause Hrec Hadj Hpull) as [Hsaved Hfc].
    split; [| exact Hfc].
    eexists. split; [exact Hsaved |]. split; reflexivity.
  - intros S cam io p w Hrec.
    apply update_frame_not_recording. exact Hrec.
  - intros w m w1 io0 ios Hinit Hlen.
    destruct (@mock_toggle_recording_ok io0 w w1 m Hinit)
      as (p0 & w0 & Htoggle & Hp0 & Hfc0 & Hsaved0).
    destruct (@mock_ticks_recording ios p0 w0 Hp0)
      as (p' & w' & calls & Hrun & _ & Hsaved & Hstems & Hrects & _).
    exists p', w', calls.
    split; [| split; [| split]].
    + unfold bind. rewrite Htoggle. exact Hrun.
    + rewrite Hsaved, Hsaved0. reflexivity.
    + rewrite Hstems, Hfc0, Hlen. reflexivity.
    + exact Hrects.
Qed.

Lemma recording_names_frames_by_counter_witness :
  exists p' w' calls,
    (Gui.toggle_recording io_timeout ;;
     Gui.run_ticks (repeat io_timeout 5))
      (running_player sample_mock "mock", snd (Mock.__init__ sample_world))
    = (Ok tt, (p', w')) /\
    saved w' = (saved sample_world ++ calls)%list /\
    map sc_filename_stem calls
    = ["frame_0000"; "frame_0001"; "frame_0002"; "frame_0003";
       "frame_0004"] /\
    Forall (fun c => frame_rect 480 640 (sc_frame c)) calls.
Proof.
  apply (proj2 (proj2 (proj2 recording_names_frames_by_counter))
           sample_world sample_mock (snd (Mock.__init__ sample_world))
           io_timeout (repeat io_timeout 5)).
  - reflexivity.
  - reflexivity.
Defined.

(** ** C3: the exposure search ends within 50 ticks *)

Section Estimation.

Context {S : Type} {cam : Camera S}.

Variable Inv : S -> Prop.

Implicit Types (p : Gui.VideoPlayer S) (w : World) (io : Io).

(** After one answer of [check_exposure] the search is over, with the
    tries back at 0, or it goes on with one more try, below the ceiling. *)
Lemma after_check_cases (b : bool) (g : Gui.GuiState) :
  (Gui.estimating_exposure (Gui.after_check b g) = false /\
   Gui.exposure_tries (Gui.after_check b g) = 0) \/
  (Gui.estimating_exposure (Gui.after_check b g) = true /\
   Gui.exposure_tries (Gui.after_check b g) = Gui.exposure_tries g + 1 /\
   Gui.exposure_tries g + 1 < 50).
Proof.
  unfold Gui.after_check.
  destruct (Z.ltb_spec (Gui.exposure_tries g + 1) 50);
    destruct b; simpl; auto.
Qed.

(** One tick of a search, when the device answers. *)
Lemma update_frame_estimating io p w :
  Gui.responsive Inv io ->
  Inv (Gui.camera p) ->
  Gui.running (Gui.state p) = true ->
  Gui.paused (Gui.state p) = false ->
  Gui.estimating_exposure (Gui.state p) = true ->
  exists p' w',
    Gui.update_frame io (p, w) = (Ok tt, (p', w')) /\
    Inv (Gui.camera p') /\
    Gui.running (Gui.state p') = true /\
    Gui.paused (Gui.state p') = false /\
    ((Gui.estimating_exposure (Gui.state p') = false /\
      Gui.exposure_tries (Gui.state p') = 0) \/
     (Gui.estimating_exposure (Gui.state p') = true /\
      Gui.exposure_tries (Gui.state p') = Gui.exposure_tries (Gui.state p) + 1
      /\ Gui.exposure_tries (Gui.state p) + 1 < 50)).
Proof.
  intros Hresp Hinv Hrun Hpause Hest.
  destruct (Hresp _ Hinv) as [[c1 [Hadj Hinv1]] _].
  destruct (Hresp _ Hinv1) as [_ Hget].
  destruct (Hget (Gui.fps (Gui.state p))) as (r & c2 & Hframe & Hinv2 & Hcheck).
  rewrite update_frame_running by assumption.
  unfold bind at 1. rewrite adjust_step_eq, Hest, Hadj. simpl fst. simpl snd.
  unfold bind at 1. rewrite pull_frame_eq.
  cbn [Gui.state Gui.camera Gui.set_camera]. rewrite Hframe.
  assert (Hfinish :
            forall (f : option frame) (v : option frame_view) b c3 q,
              check_exposure f c2 = (Ok b, c3) -> Inv c3 ->
              Gui.camera q = c2 -> Gui.state q = Gui.state p ->
              exists p' w',
                (Gui.show_step v ;; Gui.record_step io f ;; Gui.check_step f)
                  (q, w) = (Ok tt, (p', w')) /\
                Inv (Gui.camera p') /\
                Gui.running (Gui.state p') = true /\
                Gui.paused (Gui.state p') = false /\
                ((Gui.estimating_exposure (Gui.state p') = false /\
                  Gui.exposure_tries (Gui.state p') = 0) \/
                 (Gui.estimating_exposure (Gui.state p') = true /\
                  Gui.exposure_tries (Gui.state p')
                  = Gui.exposure_tries (Gui.state p) + 1 /\
                  Gui.exposure_tries (Gui.state p) + 1 < 50))).
  { intros f v b c3 q Hchk Hinv3 Hcam Hstate.
    unfold bind at 1. rewrite show_step_eq.
    unfold bind at 1. rewrite record_step_eq.
    rewrite shown_state, shown_camera, Hstate, Hcam.
    assert (Hgo :
              forall q' w',
                Gui.camera q' = c2 ->
                Gui.estimating_exposure (Gui.state q') = true ->
                Gui.running (Gui.state q') = true ->
                Gui.paused (Gui.state q') = false ->
                Gui.exposure_tries (Gui.state q')
                = Gui.exposure_tries (Gui.state p) ->
                exists p' w'',
                  Gui.check_step f (q', w') = (Ok tt, (p', w'')) /\
                  Inv (Gui.camera p') /\
                  Gui.running (Gui.state p') = true /\
                  Gui.paused (Gui.state p') = false /\
                  ((Gui.estimating_exposure (Gui.state p') = false /\
                    Gui.exposure_tries (Gui.state p') = 0) \/
                   (Gui.estimating_exposure (Gui.state p') = true /\
                    Gui.exposure_tries (Gui.state p')
                    = Gui.exposure_tries (Gui.state p) + 1 /\
                    Gui.exposure_tries (Gui.state p) + 1 < 50))).
    { intros q' w' Hcam' Hest' Hrun' Hpause' Htries'.
      rewrite check_step_eq, Hest', Hcam', Hchk.
      do 2 eexists. split; [reflexivity |].
      cbn [Gui.state Gui.camera Gui.set_state Gui.set_camera].
      destruct (after_check_keeps b (Gui.state q')) as (_ & _ & Hr & Hp).
      rewrite Hr, Hp, <- Htries'.
      repeat split; try assumption. apply after_check_cases. }
    destruct (Gui.recording (Gui.state p)); [destruct f as [raw |] |];
      apply Hgo; try (rewrite ?shown_state, ?shown_camera; assumption);
      cbn [Gui.state Gui.camera Gui.set_state Gui.set_camera
           Gui.estimating_exposure Gui.running Gui.paused Gui.exposure_tries
           Gui.set_frame_counter];
      rewrite ?shown_state, ?shown_camera; congruence. }
  destruct r as [fv | e].
  - destruct Hcheck as (b & c3 & Hchk & Hinv3).
    cbn [fst snd]. unfold bind at 1. cbn [fst snd].
    eapply Hfinish; eauto.
  - destruct Hcheck as (Hcls & b & c3 & Hchk & Hinv3).
    rewrite Hcls. unfold bind at 1. cbn [fst snd].
    eapply Hfinish; eauto.
Qed.

(** The search ends before the budget of ticks that remains is used up. *)
Lemma estimation_ends_within (n : nat) :
  forall (ios : list Io) p w,
    (n <= length ios)%nat ->
    Forall (Gui.responsive Inv) ios ->
    Inv (Gui.camera p) ->
    Gui.running (Gui.state p) = true ->
    Gui.paused (Gui.state p) = false ->
    Gui.estimating_exposure (Gui.state p) = true ->
    Gui.exposure_tries (Gui.state p) < 50 ->
    50 <= Gui.exposure_tries (Gui.state p) + Z.of_nat n ->
    exists k p' w',
      (1 <= k <= n)%nat /\
      Gui.run_ticks (firstn k ios) (p, w) = (Ok tt, (p', w')) /\
      Gui.estimating_exposure (Gui.state p') = false /\
      Gui.exposure_tries (Gui.state p') = 0.
Proof.
  induction n as [| n IH]; intros ios p w Hlen Hresp Hinv Hrun Hpause Hest
                                  Hlt Hbudget.
  - simpl in Hbudget. lia.
  - destruct ios as [| io rest]; [simpl in Hlen; lia |].
    inversion Hresp as [| ? ? Hio Hrest]; subst.
    destruct (@update_frame_estimating io p w Hio Hinv Hrun Hpause Hest)
      as (p1 & w1 & Htick & Hinv1 & Hrun1 & Hpause1 & Hcases).
    destruct Hcases as [[Hdone Hzero] | (Hest1 & Htries1 & Hlt1)].
    + exists 1%nat, p1, w1. split; [lia |].
      split; [| auto].
      simpl. unfold bind. rewrite Htick. reflexivity.
    + destruct (IH rest p1 w1) as (k & p' & w' & Hk & Hticks & Hdone & Hzero);
        try assumption.
      * simpl in Hlen. lia.
      * lia.
      * lia.
      * exists (Datatypes.S k), p', w'. split; [lia |].
        split; [| auto].
        simpl. unfold bind. rewrite Htick. exact Hticks.
Qed.

(** C3. Once an exposure search is started ([estimating_exposure] true,
    [exposure_tries] 0) on a running, unpaused session, and whatever frames
    the device delivers and whatever [check_exposure] answers, some tick
    among the first 50 leaves [estimating_exposure] false and
    [exposure_tries] 0. *)
Theorem exposure_search_ends_within_50_ticks (ios : list Io) p w :
  (50 <= length ios)%nat ->
  Forall (Gui.responsive Inv) ios ->
  Inv (Gui.camera p) ->
  Gui.running (Gui.state p) = true ->
  Gui.paused (Gui.state p) = false ->
  Gui.estimating_exposure (Gui.state p) = true ->
  Gui.exposure_tries (Gui.state p) = 0 ->
  exists k p' w',
    (1 <= k <= 50)%nat /\
    Gui.run_ticks (firstn k ios) (p, w) = (Ok tt, (p', w')) /\
    Gui.estimating_exposure (Gui.state p') = false /\
    Gui.exposure_tries (Gui.state p') = 0.
Proof.
  intros Hlen Hresp Hinv Hrun Hpause Hest Htries.
  apply estimation_ends_within; try assumption; rewrite Htries; lia.
Qed.

End Estimation.

(** [toggle_exposure] starts a search: the flag is set, the tries are 0 and
    the camera seeds its bounds for one frame period. *)
Lemma toggle_exposure_starts {S} {cam : Camera S}
  (p : Gui.VideoPlayer S) (w : World) :
  Gui.running (Gui.state p) = true ->
  Gui.paused (Gui.state p) = false ->
  Gui.estimating_exposure (Gui.state p) = false ->
  Gui.fps (Gui.state p) <> 0 ->
  Gui.toggle_exposure (p, w)
  = (Ok tt,
     (Gui.set_camera
        (init_exposure (1000000 / Gui.fps (Gui.state p)) (Gui.camera p))
        (Gui.set_state
           (Gui.set_exposure_tries 0
              (Gui.set_estimating_exposure true (Gui.state p))) p), w)).
Proof.
  intros Hrun Hpause Hest Hfps.
  unfold Gui.toggle_exposure, Gui.read, Gui.write, gets, modify, bind,
    Gui.on_camera, zoom, ret. simpl.
  rewrite Hrun, Hpause, Hest. simpl.
  apply Z.eqb_neq in Hfps. rewrite Hfps. reflexivity.
Qed.

(** A [MockCamera] answers every tick, in every state. *)
Lemma mock_responsive (io : Io) :
  Gui.responsive (fun _ : Mock.MockCamera => True) io.
Proof.
  assert (Hcheck : forall f m, exists b m',
               Mock.check_exposure f m = (Ok b, m') /\ True).
  { intros f m. unfold Mock.check_exposure.
    match goal with
    | |- context [if ?c then (Ok true, _) else _] => destruct c
    end; eauto. }
  intros s _. split.
  - eexists. split; [reflexivity | exact I].
  - intros fps_.
    destruct (get_frame io fps_ s) as [r s2] eqn:E.
    exists r, s2. split; [reflexivity |]. split; [exact I |].
    destruct r as [fv | e].
    + apply Hcheck.
    + split; [reflexivity | apply Hcheck].
Qed.

(** A [TisCamera] that was opened answers a tick when the device takes the
    exposure and delivers a frame. *)
Lemma tis_responsive (io : Io) (f : frame) :
  set_value_ok io = true ->
  snap_single io = Some f ->
  Gui.responsive (fun c : Tis.TisCamera => Tis.sink c <> None) io.
Proof.
  intros Hset Hsnap s Hsink. split.
  - eexists. split.
    + change (adjust_exposure io s) with (Tis.adjust_exposure io s).
      unfold Tis.adjust_exposure.
      rewrite tis_set_exposure_accepts by assumption. reflexivity.
    + exact Hsink.
  - intros fps_.
    change (get_frame io fps_ s) with (Tis.get_frame io fps_ s).
    unfold Tis.get_frame.
    destruct (Tis.sink s) as [[] |] eqn:E; [| congruence].
    rewrite Hsnap. do 2 eexists. split; [reflexivity |].
    split; [congruence |].
    cbn [fst].
    change (check_exposure (Some f) s) with (Tis.check_exposure (Some f) s).
    rewrite tis_check_exposure_eq.
    do 2 eexists. split; [reflexivity |]. simpl. congruence.
Qed.

Lemma exposure_search_ends_within_50_ticks_witness :
  let start :=
    snd (Gui.toggle_exposure
           (running_player sample_mock "mock", sample_world)) in
  Gui.estimating_exposure (Gui.state (fst start)) = true /\
  exists k p' w',
    (1 <= k <= 50)%nat /\
    Gui.run_ticks (firstn k (repeat io_timeout 50)) (fst start, snd start)
    = (Ok tt, (p', w')) /\
    Gui.estimating_exposure (Gui.state p') = false /\
    Gui.exposure_tries (Gui.state p') = 0.
Proof.
  split; [reflexivity |].
  apply (exposure_search_ends_within_50_ticks
           (Inv := fun _ : Mock.MockCamera => True)).
  - rewrite repeat_length. apply le_n.
  - apply Forall_forall. intros io _. apply mock_responsive.
  - exact I.
  - reflexivity.
  - reflexivity.
  - reflexivity.
  - reflexivity.
Defined.

(** The same bound on an opened [TisCamera], when the device takes every
    exposure and delivers every frame. *)
Lemma tis_exposure_search_ends (ios : list Io)
  (p : Gui.VideoPlayer Tis.TisCamera) (w : World) :
  (50 <= length ios)%nat ->
  Forall (fun io => set_value_ok io = true /\ snap_single io <> None) ios ->
  Tis.sink (Gui.camera p) <> None ->
  Gui.running (Gui.state p) = true ->
  Gui.paused (Gui.state p) = false ->
  Gui.estimating_exposure (Gui.state p) = true ->
  Gui.exposure_tries (Gui.state p) = 0 ->
  exists k p' w',
    (1 <= k <= 50)%nat /\
    Gui.run_ticks (firstn k ios) (p, w) = (Ok tt, (p', w')) /\
    Gui.estimating_exposure (Gui.state p') = false /\
    Gui.exposure_tries (Gui.state p') = 0.
Proof.
  intros Hlen Hios Hsink Hrun Hpause Hest Htries.
  apply (estimation_ends_within
           (Inv := fun c : Tis.TisCamera => Tis.sink c <> None));
    try assumption; try (rewrite Htries; lia).
  apply Forall_forall. intros io Hin.
  rewrite Forall_forall in Hios. destruct (Hios io Hin) as [Hset Hsnap].
  destruct (snap_single io) as [f |] eqn:E; [| congruence].
  apply (tis_responsive io Hset E).
Qed.

(** A search on the default [TisCamera] at 30 frames per second: the first
    tick, on a dark frame, tries the exposure 24 and ends the search. *)
Example tis_search_first_tick :
  let start :=
    snd (Gui.toggle_exposure
           (running_player sample_tis_open "tis", sample_world)) in
  let after := snd (Gui.update_frame (io_deliver [[0; 3]; [1; 2]]) start) in
  fst (Gui.update_frame (io_deliver [[0; 3]; [1; 2]]) start) = Ok tt /\
  Tis.exposure (Gui.camera (fst after)) = 24000 /\
  Gui.estimating_exposure (Gui.state (fst after)) = false /\
  Gui.exposure_tries (Gui.state (fst after)) = 0.
Proof. vm_compute. repeat split; reflexivity. Qed.

(** * Further properties *)

(** ** File names of a recording *)

Lemma uint_of_string_zeros (k : nat) (s : string) :
  NilEmpty.uint_of_string (zeros k ++ s)
  = option_map (Nat.iter k Decimal.D0) (NilEmpty.uint_of_string s).
Proof.
  induction k as [| k IH]; simpl.
  - destruct (NilEmpty.uint_of_string s); reflexivity.
  - rewrite IH. destruct (NilEmpty.uint_of_string s); reflexivity.
Qed.

Lemma of_uint_zeros (k : nat) (d : Decimal.uint) :
  N.of_uint (Nat.iter k Decimal.D0 d) = N.of_uint d.
Proof. induction k as [| k IH]; simpl; auto. Qed.

Lemma uint_of_string_digits (d : Decimal.uint) :
  NilEmpty.uint_of_string (NilZero.string_of_uint d)
  = Some (match d with Decimal.Nil => Decimal.D0 Decimal.Nil | _ => d end).
Proof. destruct d; try apply NilEmpty.usu. reflexivity. Qed.

Lemma uint_of_string_padded (k : nat) (d : Decimal.uint) :
  exists d',
    NilEmpty.uint_of_string (zeros k ++ NilZero.string_of_uint d) = Some d' /\
    N.of_uint d' = N.of_uint d.
Proof.
  rewrite uint_of_string_zeros, uint_of_string_digits. simpl.
  eexists. split; [reflexivity |].
  rewrite of_uint_zeros. destruct d; reflexivity.
Qed.

Lemma int_of_digits_unsigned (k : nat) (d : Decimal.uint) :
  int_of_digits (zeros k ++ NilZero.string_of_uint d)
  = Some (Z.of_N (N.of_uint d)).
Proof.
  destruct (uint_of_string_padded k d) as [d' [Hd' Hval]].
  assert (H : option_map (fun d0 => Z.of_N (N.of_uint d0))
                (NilEmpty.uint_of_string
                   (zeros k ++ NilZero.string_of_uint d))
              = Some (Z.of_N (N.of_uint d))).
  { rewrite Hd'. simpl. rewrite Hval. reflexivity. }
  destruct k as [| k]; [| exact H].
  destruct d; exact H.
Qed.

(** The counter can be read back from what [04d] prints. *)
Lemma int_of_digits_format_04d (n : Z) :
  int_of_digits (format_04d n) = Some n.
Proof.
  unfold format_04d.
  destruct (Z.ltb_spec n 0) as [Hneg | Hpos].
  - match goal with
    | |- int_of_digits ("-" ++ ?s) = _ =>
        change (option_map (fun d => - Z.of_N (N.of_uint d))
                  (NilEmpty.uint_of_string s) = Some n);
        destruct (uint_of_string_padded
                    (3 - String.length
                           (NilZero.string_of_uint (N.to_uint (Z.abs_N n))))
                    (N.to_uint (Z.abs_N n))) as [d' [Hd' Hval]]
    end.
    rewrite Hd'. simpl.
    rewrite Hval, DecimalN.Unsigned.of_to, N2Z.inj_abs_N. f_equal. lia.
  - rewrite int_of_digits_unsigned, DecimalN.Unsigned.of_to, N2Z.inj_abs_N.
    f_equal. lia.
Qed.

Lemma format_04d_injective (a b : Z) : format_04d a = format_04d b -> a = b.
Proof.
  intros H. apply (f_equal int_of_digits) in H.
  rewrite !int_of_digits_format_04d in H. congruence.
Qed.

Lemma NoDup_map_injective {A B} (f : A -> B) (l : list A) :
  (forall x y, f x = f y -> x = y) -> NoDup l -> NoDup (map f l).
Proof.
  intros Hinj Hl. induction Hl as [| x l Hx Hl IH]; simpl; constructor.
  - intros Hin. apply in_map_iff in Hin. destruct Hin as [y [Hy Hin]].
    apply Hinj in Hy. subst y. contradiction.
  - exact IH.
Qed.

Lemma frame_names_NoDup (first : Z) (n : nat) : NoDup (frame_names first n).
Proof.
  unfold frame_names.
  apply NoDup_map_injective; [| apply seq_NoDup].
  intros j k H. simpl in H.
  assert (first + Z.of_nat j = first + Z.of_nat k)
    by (apply format_04d_injective; congruence).
  lia.
Qed.

Lemma format_04d_width_upto_9999 :
  forallb (fun k => (String.length (format_04d (Z.of_nat k)) =? 4)%nat)
    (seq 0 (Z.to_nat 10000)) = true.
Proof. vm_compute. reflexivity. Qed.

(** X1. [f"frame_{n:04d}"] names every counter differently, so the file
    names of one recording, which come from consecutive counters, are
    pairwise distinct; and for the counters 0 to 9999 the digits are exactly
    four. *)
Theorem frame_names_are_distinct :
  (forall a b : Z,
      "frame_" ++ format_04d a = "frame_" ++ format_04d b -> a = b) /\
  (forall (first : Z) (n : nat), NoDup (frame_names first n)) /\
  (forall n : Z, 0 <= n <= 9999 -> String.length (format_04d n) = 4%nat).
Proof.
  split; [| split].
  - intros a b H. apply format_04d_injective. simpl in H. congruence.
  - apply frame_names_NoDup.
  - intros n Hn.
    pose proof format_04d_width_upto_9999 as H.
    rewrite forallb_forall in H.
    specialize (H (Z.to_nat n)).
    rewrite Z2Nat.id in H by lia.
    apply Nat.eqb_eq. apply H. apply in_seq. lia.
Qed.

Lemma frame_names_are_distinct_witness :
  String.length (format_04d 4) = 4%nat /\
  NoDup (frame_names 9998 4).
Proof.
  split.
  - apply (proj2 (proj2 frame_names_are_distinct) 4). lia.
  - apply (proj1 (proj2 frame_names_are_distinct) 9998 4%nat).
Defined.

(** ** One tick of an exposure search, step by step *)

Section SearchTick.

Context {S : Type} {cam : Camera S}.

Implicit Types (p : Gui.VideoPlayer S) (w : World) (io : Io).

(** What [record_step] leaves of the flags of the session. *)
Lemma record_step_flags io (f : option frame) p w :
  let g := Gui.state (fst (snd (Gui.record_step io f (p, w)))) in
  fst (Gui.record_step io f (p, w)) = Ok tt /\
  Gui.camera (fst (snd (Gui.record_step io f (p, w)))) = Gui.camera p /\
  Gui.running g = Gui.running (Gui.state p) /\
  Gui.paused g = Gui.paused (Gui.state p) /\
  Gui.recording g = Gui.recording (Gui.state p) /\
  Gui.estimating_exposure g = Gui.estimating_exposure (Gui.state p) /\
  Gui.exposure_tries g = Gui.exposure_tries (Gui.state p) /\
  Gui.fps g = Gui.fps (Gui.state p).
Proof.
  cbv zeta. rewrite record_step_eq.
  destruct (Gui.recording (Gui.state p)) eqn:E; [destruct f |]; simpl;
    rewrite ?E; repeat split; reflexivity.
Qed.

Lemma after_check_flags (b : bool) (g : Gui.GuiState) :
  Gui.estimating_exposure (Gui.after_check b g)
  = negb b && (Gui.exposure_tries g + 1 <? 50) /\
  Gui.exposure_tries (Gui.after_check b g)
  = (if negb b && (Gui.exposure_tries g + 1 <? 50)
     then Gui.exposure_tries g + 1 else 0) /\
  Gui.fps (Gui.after_check b g) = Gui.fps g.
Proof.
  unfold Gui.after_check.
  destruct (negb b && (Gui.exposure_tries g + 1 <? 50)); simpl; auto.
Qed.

(** A tick of a search whose three camera calls return: the camera is what
    [adjust_exposure], [get_frame] and [check_exposure] leave in that order,
    the search goes on exactly when [check_exposure] answered false and the
    tries are below the ceiling. *)
Lemma update_frame_estimating_eq io p w c1 (f : option frame)
  (v : option frame_view) c2 (b : bool) c3 :
  Gui.running (Gui.state p) = true ->
  Gui.paused (Gui.state p) = false ->
  Gui.estimating_exposure (Gui.state p) = true ->
  adjust_exposure io (Gui.camera p) = (Ok tt, c1) ->
  Gui.pull_frame io (Gui.set_camera c1 p, w)
  = (Ok (f, v), (Gui.set_camera c2 p, w)) ->
  check_exposure f c2 = (Ok b, c3) ->
  exists p' w',
    Gui.update_frame io (p, w) = (Ok tt, (p', w')) /\
    Gui.camera p' = c3 /\
    Gui.running (Gui.state p') = true /\
    Gui.paused (Gui.state p') = false /\
    Gui.fps (Gui.state p') = Gui.fps (Gui.state p) /\
    Gui.estimating_exposure (Gui.state p')
    = negb b && (Gui.exposure_tries (Gui.state p) + 1 <? 50) /\
    Gui.exposure_tries (Gui.state p')
    = (if negb b && (Gui.exposure_tries (Gui.state p) + 1 <? 50)
       then Gui.exposure_tries (Gui.state p) + 1 else 0).
Proof.
  intros Hrun Hpause Hest Hadj Hpull Hchk.
  rewrite update_frame_running by assumption.
  unfold bind at 1. rewrite adjust_step_eq, Hest, Hadj. simpl fst. simpl snd.
  unfold bind at 1. rewrite Hpull. simpl fst. simpl snd.
  unfold bind at 1. rewrite show_step_eq.
  unfold bind at 1.
  destruct (Gui.record_step io f (Gui.shown v (Gui.set_camera c2 p), w))
    as [r [q w']] eqn:Hrec.
  pose proof (record_step_flags io f (Gui.shown v (Gui.set_camera c2 p)) w)
    as Hflags.
  rewrite Hrec in Hflags. cbv zeta in Hflags. simpl fst in Hflags.
  simpl snd in Hflags.
  rewrite !shown_state, shown_camera in Hflags.
  cbn [Gui.state Gui.camera Gui.set_camera] in Hflags.
  destruct Hflags as (-> & Hcam & Hr & Hp & _ & He & Ht & Hf).
  rewrite check_step_eq, He, Hest, Hcam, Hchk.
  do 2 eexists. split; [reflexivity |].
  cbn [Gui.state Gui.camera Gui.set_state Gui.set_camera].
  destruct (after_check_keeps b (Gui.state q)) as (_ & _ & Hr' & Hp').
  destruct (after_check_flags b (Gui.state q)) as (He' & Ht' & Hf').
  rewrite Hr', Hp', He', Ht', Hf', Hr, Hp, Ht, Hf, Hrun, Hpause.
  auto 10.
Qed.

End SearchTick.

(** ** The exposure search of [TisCamera] converges *)

(** [check_exposure] moves one bound next to the current exposure, and
    answers true when the bounds it leaves are less than 10 apart. *)
Lemma tis_check_exposure_width (c : Tis.TisCamera) (f : frame) :
  exists b c',
    Tis.check_exposure (Some f) c = (Ok b, c') /\
    Tis.sink c' = Tis.sink c /\
    ((Tis.State.max_exposure (Tis.state c')
      = Tis.State.current_exposure (Tis.state c) - 1 /\
      Tis.State.min_exposure (Tis.state c')
      = Tis.State.min_exposure (Tis.state c)) \/
     (Tis.State.min_exposure (Tis.state c')
      = Tis.State.current_exposure (Tis.state c) + 1 /\
      Tis.State.max_exposure (Tis.state c')
      = Tis.State.max_exposure (Tis.state c))) /\
    (Z.abs (tis_width c') < 10 -> b = true).
Proof.
  pose proof (tis_check_exposure_eq c f) as H. cbv zeta in H.
  do 2 eexists. split; [exact H |]. clear H.
  split; [reflexivity |].
  unfold tis_width.
  match goal with
  | |- context [if ?x then Tis.State.current_exposure _ - 1 else _] =>
      destruct x
  end; cbn [Tis.state Tis.set_state Tis.State.max_exposure
            Tis.State.min_exposure Tis.State.set_min_exposure
            Tis.State.set_max_exposure];
    (split; [auto |]); intros Hw;
    apply orb_true_iff; left; apply orb_true_iff; right;
    apply Z.ltb_lt; exact Hw.
Qed.

(** One round of the search on the camera: the exposure tried is the
    midpoint, and either the round converges or the bounds are at most half
    as far apart as before. *)
Lemma tis_round (io : Io) (f : frame) (c : Tis.TisCamera) :
  set_value_ok io = true ->
  exists c1 b c3,
    Tis.adjust_exposure io c = (Ok tt, c1) /\
    Tis.sink c1 = Tis.sink c /\
    Tis.State.current_exposure (Tis.state c1)
    = (Tis.State.max_exposure (Tis.state c)
       + Tis.State.min_exposure (Tis.state c)) / 2 /\
    Tis.check_exposure (Some f) c1 = (Ok b, c3) /\
    Tis.sink c3 = Tis.sink c /\
    (-16 <= tis_width c < 20 -> b = true) /\
    (20 <= tis_width c -> b = true \/ 0 <= tis_width c3 <= tis_width c / 2).
Proof.
  intros Hset. unfold Tis.adjust_exposure.
  rewrite tis_set_exposure_accepts by assumption.
  match goal with
  | |- exists c1 b c3, (Ok tt, ?x) = (Ok tt, c1) /\ _ =>
      set (c1 := x);
      destruct (tis_check_exposure_width c1 f)
        as (b & c3 & Hchk & Hsink & Hbounds & Hconv)
  end.
  exists c1, b, c3.
  split; [reflexivity |]. split; [reflexivity |]. split; [reflexivity |].
  split; [exact Hchk |]. split; [exact Hsink |].
  assert (Hcur : Tis.State.current_exposure (Tis.state c1)
                 = (Tis.State.max_exposure (Tis.state c)
                    + Tis.State.min_exposure (Tis.state c)) / 2)
    by reflexivity.
  assert (Hmax : Tis.State.max_exposure (Tis.state c1)
                 = Tis.State.max_exposure (Tis.state c)) by reflexivity.
  assert (Hmin : Tis.State.min_exposure (Tis.state c1)
                 = Tis.State.min_exposure (Tis.state c)) by reflexivity.
  unfold tis_width in *.
  rewrite Hcur, Hmax, Hmin in Hbounds. clear Hcur Hmax Hmin Hchk Hsink.
  set (mx := Tis.State.max_exposure (Tis.state c)) in *.
  set (mn := Tis.State.min_exposure (Tis.state c)) in *.
  set (mx' := Tis.State.max_exposure (Tis.state c3)) in *.
  set (mn' := Tis.State.min_exposure (Tis.state c3)) in *.
  clearbody mx mn mx' mn'. clear c1.
  split.
  - intros HW. apply Hconv. Z.div_mod_to_equations. lia.
  - intros HW.
    destruct (Z.lt_ge_cases (Z.abs (mx' - mn')) 10) as [Hc | Hc].
    + left. apply Hconv. exact Hc.
    + right. Z.div_mod_to_equations. lia.
Qed.

(** One tick of a search on an opened [TisCamera]. *)
Lemma tis_search_tick (io : Io) (p : Gui.VideoPlayer Tis.TisCamera)
  (w : World) :
  io_cooperative io ->
  Tis.sink (Gui.camera p) <> None ->
  Gui.running (Gui.state p) = true ->
  Gui.paused (Gui.state p) = false ->
  Gui.estimating_exposure (Gui.state p) = true ->
  exists p' w',
    Gui.update_frame io (p, w) = (Ok tt, (p', w')) /\
    Tis.sink (Gui.camera p') <> None /\
    Gui.running (Gui.state p') = true /\
    Gui.paused (Gui.state p') = false /\
    (-16 <= tis_width (Gui.camera p) < 20 ->
     Gui.estimating_exposure (Gui.state p') = false /\
     Gui.exposure_tries (Gui.state p') = 0) /\
    (20 <= tis_width (Gui.camera p) ->
     (Gui.estimating_exposure (Gui.state p') = false /\
      Gui.exposure_tries (Gui.state p') = 0) \/
     (Gui.estimating_exposure (Gui.state p') = true /\
      0 <= tis_width (Gui.camera p') <= tis_width (Gui.camera p) / 2)).
Proof.
  intros [Hset Hsnap] Hsink Hrun Hpause Hest.
  destruct (snap_single io) as [f |] eqn:Hf; [| congruence].
  destruct (tis_round io f (Gui.camera p) Hset)
    as (c1 & b & c3 & Hadj & Hsink1 & _ & Hchk & Hsink3 & Hsmall & Hbig).
  assert (Hpull : Gui.pull_frame io (Gui.set_camera c1 p, w)
                  = (Ok (Some f,
                         Some (Tis._get_frame_view c1 f
                                 (Tis.State.demosaic (Tis.state c1)))),
                     (Gui.set_camera c1 p, w))).
  { rewrite pull_frame_eq. cbn [Gui.camera Gui.set_camera Gui.state].
    change (get_frame io (Gui.fps (Gui.state p)) c1)
      with (Tis.get_frame io (Gui.fps (Gui.state p)) c1).
    unfold Tis.get_frame.
    destruct (Tis.sink c1) as [[] |] eqn:E; [| congruence].
    rewrite Hf. reflexivity. }
  destruct (@update_frame_estimating_eq Tis.TisCamera Tis.TisCamera_Camera
              io p w c1 (Some f) _ c1 b c3 Hrun Hpause Hest Hadj Hpull Hchk)
    as (p' & w' & Htick & Hcam & Hrun' & Hpause' & _ & Hest' & Htries').
  exists p', w'. split; [exact Htick |].
  split; [congruence |]. split; [exact Hrun' |]. split; [exact Hpause' |].
  rewrite Hest', Htries', Hcam. split.
  - intros HW. rewrite (Hsmall HW). auto.
  - intros HW.
    destruct (negb b && (Gui.exposure_tries (Gui.state p) + 1 <? 50)) eqn:E.
    + right. split; [reflexivity |].
      destruct (Hbig HW) as [Hb | Hw]; [| exact Hw].
      rewrite Hb in E. discriminate E.
    + left. auto.
Qed.

(** A search whose bounds are less than [20 * 2 ^ n] apart ends within
    [n + 1] ticks. *)
Lemma tis_search_ends_by_width (n : nat) :
  forall (ios : list Io) (p : Gui.VideoPlayer Tis.TisCamera) (w : World),
    (Datatypes.S n <= length ios)%nat ->
    Forall io_cooperative ios ->
    Tis.sink (Gui.camera p) <> None ->
    Gui.running (Gui.state p) = true ->
    Gui.paused (Gui.state p) = false ->
    Gui.estimating_exposure (Gui.state p) = true ->
    -16 <= tis_width (Gui.camera p) < 20 * 2 ^ Z.of_nat n ->
    exists k p' w',
      (1 <= k <= Datatypes.S n)%nat /\
      Gui.run_ticks (firstn k ios) (p, w) = (Ok tt, (p', w')) /\
      Gui.estimating_exposure (Gui.state p') = false /\
      Gui.exposure_tries (Gui.state p') = 0.
Proof.
  induction n as [| n IH]; intros ios p w Hlen Hios Hsink Hrun Hpause Hest HW;
    (destruct ios as [| io rest]; [simpl in Hlen; lia |]);
    inversion Hios as [| ? ? Hio Hrest]; subst;
    destruct (@tis_search_tick io p w Hio Hsink Hrun Hpause Hest)
      as (p1 & w1 & Htick & Hsink1 & Hrun1 & Hpause1 & Hsmall & Hbig).
  - exists 1%nat, p1, w1. split; [lia |].
    split; [simpl; unfold bind; rewrite Htick; reflexivity |].
    apply Hsmall. simpl in HW. lia.
  - assert (Hone : Gui.estimating_exposure (Gui.state p1) = false /\
                   Gui.exposure_tries (Gui.state p1) = 0 ->
                   exists k p' w',
                     (1 <= k <= Datatypes.S (Datatypes.S n))%nat /\
                     Gui.run_ticks (firstn k (io :: rest)) (p, w)
                     = (Ok tt, (p', w')) /\
                     Gui.estimating_exposure (Gui.state p') = false /\
                     Gui.exposure_tries (Gui.state p') = 0).
    { intros Hdone. exists 1%nat, p1, w1. split; [lia |].
      split; [simpl; unfold bind; rewrite Htick; reflexivity | exact Hdone]. }
    destruct (Z.lt_ge_cases (tis_width (Gui.camera p)) 20) as [Hlt | Hge].
    + apply Hone. apply Hsmall. lia.
    + destruct (Hbig Hge) as [Hdone | [Hest1 Hw1]]; [apply Hone; exact Hdone |].
      destruct (IH rest p1 w1) as (k & p' & w' & Hk & Hticks & Hdone);
        try assumption.
      * simpl in Hlen. lia.
      * rewrite Nat2Z.inj_succ, Z.pow_succ_r in HW by lia.
        Z.div_mod_to_equations. lia.
      * exists (Datatypes.S k), p', w'. split; [lia |].
        split; [| exact Hdone].
        simpl. unfold bind. rewrite Htick. exact Hticks.
Qed.

(** X2. On an opened [TisCamera] whose device takes every exposure and
    delivers every frame, a search started by [toggle_exposure] at a
    positive frame rate ends within 12 ticks, whatever the frames show: each
    tick halves the distance between the search bounds, so the ceiling of
    50 tries is never reached. *)
Theorem tis_search_converges_within_12_ticks
  (ios : list Io) (p : Gui.VideoPlayer Tis.TisCamera) (w : World) :
  (12 <= length ios)%nat ->
  Forall io_cooperative ios ->
  Tis.sink (Gui.camera p) <> None ->
  Gui.running (Gui.state p) = true ->
  Gui.paused (Gui.state p) = false ->
  Gui.estimating_exposure (Gui.state p) = false ->
  0 < Gui.fps (Gui.state p) ->
  exists k p' w',
    (1 <= k <= 12)%nat /\
    (Gui.toggle_exposure ;; Gui.run_ticks (firstn k ios)) (p, w)
    = (Ok tt, (p', w')) /\
    Gui.estimating_exposure (Gui.state p') = false /\
    Gui.exposure_tries (Gui.state p') = 0.
Proof.
  intros Hlen Hios Hsink Hrun Hpause Hest Hfps.
  assert (Hstart := @toggle_exposure_starts _ Tis.TisCamera_Camera p w
                      Hrun Hpause Hest ltac:(lia)).
  match type of Hstart with
  | _ = (Ok tt, (?q, w)) =>
      destruct (@tis_search_ends_by_width 11 ios q w)
        as (k & p' & w' & Hk & Hticks & Hdone)
  end; try assumption; try reflexivity.
  - change (20 * 2 ^ Z.of_nat 11) with 40960.
    change (init_exposure ?h ?c) with (Tis.init_exposure h c).
    unfold tis_width. cbn -[Z.div Z.min].
    unfold Tis.TIS_MIN_EXPOSURE_MS, Tis.TIS_MAX_EXPOSURE_MS.
    assert (0 <= 1000000 / Gui.fps (Gui.state p) / 1000).
    { apply Z.div_pos; [apply Z.div_pos |]; lia. }
    lia.
  - exists k, p', w'. split; [exact Hk |]. split; [| exact Hdone].
    unfold bind. rewrite Hstart. exact Hticks.
Qed.

Lemma tis_search_converges_within_12_ticks_witness :
  exists k p' w',
    (1 <= k <= 12)%nat /\
    (Gui.toggle_exposure ;;
     Gui.run_ticks (firstn k (repeat (io_deliver [[0; 9]]) 12)))
      (running_player sample_tis_open "tis", sample_world)
    = (Ok tt, (p', w')) /\
    Gui.estimating_exposure (Gui.state p') = false /\
    Gui.exposure_tries (Gui.state p') = 0.
Proof.
  apply (@tis_search_converges_within_12_ticks
           (repeat (io_deliver [[0; 9]]) 12)
           (running_player sample_tis_open "tis") sample_world).
  - rewrite repeat_length. apply le_n.
  - apply Forall_forall. intros io Hin. apply repeat_spec in Hin. subst io.
    split; [reflexivity | discriminate].
  - vm_compute. discriminate.
  - reflexivity.
  - reflexivity.
  - reflexivity.
  - reflexivity.
Defined.

(** ** The exposure search of [MockCamera] converges *)

(** [get_frame] on a [MockCamera], caught or not, leaves the exposure and
    the search bounds alone. *)
Lemma mock_pull_frame (io : Io) (p : Gui.VideoPlayer Mock.MockCamera)
  (w : World) :
  exists f v m2,
    Gui.pull_frame io (p, w) = (Ok (f, v), (Gui.set_camera m2 p, w)) /\
    Mock._exposure m2 = Mock._exposure (Gui.camera p) /\
    Mock._exposure_min m2 = Mock._exposure_min (Gui.camera p) /\
    Mock._exposure_max m2 = Mock._exposure_max (Gui.camera p).
Proof.
  rewrite pull_frame_eq.
  change (get_frame io (Gui.fps (Gui.state p)) (Gui.camera p))
    with (Mock.get_frame io (Gui.fps (Gui.state p)) (Gui.camera p)).
  unfold Mock.get_frame.
  destruct (Mock._shape (Gui.camera p)) as [h wd].
  destruct (Mock._toggle_view (Gui.camera p) =? 0);
    [destruct wd | destruct h]; do 3 eexists;
    (split; [reflexivity | repeat split; reflexivity]).
Qed.

(** One tick of a search on a [MockCamera]: the exposure tried is the
    midpoint of the bounds; in the window 8000..12000 the search ends and
    the bounds are the reported ones again, outside it one bound moves next
    to the midpoint. *)
Lemma mock_search_tick (io : Io) (p : Gui.VideoPlayer Mock.MockCamera)
  (w : World) :
  Gui.running (Gui.state p) = true ->
  Gui.paused (Gui.state p) = false ->
  Gui.estimating_exposure (Gui.state p) = true ->
  let lo := Mock._exposure_min (Gui.camera p) in
  let hi := Mock._exposure_max (Gui.camera p) in
  let e := (lo + hi) / 2 in
  exists p' w',
    Gui.update_frame io (p, w) = (Ok tt, (p', w')) /\
    Gui.running (Gui.state p') = true /\
    Gui.paused (Gui.state p') = false /\
    Mock.exposure (Gui.camera p') = e /\
    (8000 <= e <= 12000 ->
     Gui.estimating_exposure (Gui.state p') = false /\
     Gui.exposure_tries (Gui.state p') = 0 /\
     Mock._exposure_min (Gui.camera p') = 100 /\
     Mock._exposure_max (Gui.camera p') = 500000) /\
    (~ (8000 <= e <= 12000) ->
     Gui.estimating_exposure (Gui.state p')
     = (Gui.exposure_tries (Gui.state p) + 1 <? 50) /\
     Gui.exposure_tries (Gui.state p')
     = (if Gui.exposure_tries (Gui.state p) + 1 <? 50
        then Gui.exposure_tries (Gui.state p) + 1 else 0) /\
     Mock._exposure_min (Gui.camera p') = (if e >? 10000 then lo else e + 1) /\
     Mock._exposure_max (Gui.camera p') = (if e >? 10000 then e - 1 else hi)).
Proof.
  intros Hrun Hpause Hest lo hi e.
  set (m1 := Mock.set__exposure e (Gui.camera p)).
  assert (Hadj : adjust_exposure io (Gui.camera p) = (Ok tt, m1))
    by reflexivity.
  destruct (mock_pull_frame io (Gui.set_camera m1 p) w)
    as (f & v & m2 & Hpull & He2 & Hlo2 & Hhi2).
  cbn [Gui.camera Gui.set_camera] in He2, Hlo2, Hhi2.
  change (Mock._exposure m1) with e in He2.
  change (Mock._exposure_min m1) with lo in Hlo2.
  change (Mock._exposure_max m1) with hi in Hhi2.
  destruct (Mock.check_exposure f m2) as [r m3] eqn:Hchk.
  assert (Hb : exists b, r = Ok b /\
             Mock._exposure m3 = e /\
             (8000 <= e <= 12000 ->
              b = true /\ Mock._exposure_min m3 = 100 /\
              Mock._exposure_max m3 = 500000) /\
             (~ (8000 <= e <= 12000) ->
              b = false /\
              Mock._exposure_min m3 = (if e >? 10000 then lo else e + 1) /\
              Mock._exposure_max m3 = (if e >? 10000 then e - 1 else hi))).
  { unfold Mock.check_exposure in Hchk. rewrite He2 in Hchk.
    destruct (e >? 10000) eqn:Hgt;
      cbn [Mock.exposure Mock._exposure Mock.set__exposure_max
           Mock.set__exposure_min] in Hchk; rewrite He2 in Hchk;
      destruct (Z.leb_spec 8000 e); destruct (Z.leb_spec e 12000);
      cbn [andb] in Hchk; inversion Hchk; subst r m3; eexists;
      (split; [reflexivity |]); cbn; rewrite ?He2, ?Hlo2, ?Hhi2;
      (split; [reflexivity |]); split; intros; try lia; auto. }
  destruct Hb as (b & -> & He3 & Hin & Hout).
  destruct (@update_frame_estimating_eq Mock.MockCamera
              Mock.MockCamera_Camera io p w m1 f v m2 b m3
              Hrun Hpause Hest Hadj Hpull Hchk)
    as (p' & w' & Htick & Hcam & Hrun' & Hpause' & _ & Hest' & Htries').
  exists p', w'. split; [exact Htick |].
  split; [exact Hrun' |]. split; [exact Hpause' |].
  rewrite Hcam, Hest', Htries'. unfold Mock.exposure.
  split; [exact He3 |]. split.
  - intros He. destruct (Hin He) as (-> & Hlo & Hhi). auto.
  - intros He. destruct (Hout He) as (-> & Hlo & Hhi). auto.
Qed.

(** A search whose bounds enclose 8000..10000 and are less than
    [4001 * 2 ^ n] apart converges within [n + 1] ticks. *)
Lemma mock_search_ends_by_width (n : nat) :
  forall (ios : list Io) (p : Gui.VideoPlayer Mock.MockCamera) (w : World),
    (Datatypes.S n <= length ios)%nat ->
    Gui.running (Gui.state p) = true ->
    Gui.paused (Gui.state p) = false ->
    Gui.estimating_exposure (Gui.state p) = true ->
    0 <= Gui.exposure_tries (Gui.state p) ->
    Gui.exposure_tries (Gui.state p) + Z.of_nat n < 49 ->
    Mock._exposure_min (Gui.camera p) <= 8000 ->
    10000 <= Mock._exposure_max (Gui.camera p) ->
    Mock._exposure_max (Gui.camera p) - Mock._exposure_min (Gui.camera p)
    < 4001 * 2 ^ Z.of_nat n ->
    exists k p' w',
      (1 <= k <= Datatypes.S n)%nat /\
      Gui.run_ticks (firstn k ios) (p, w) = (Ok tt, (p', w')) /\
      Gui.estimating_exposure (Gui.state p') = false /\
      Gui.exposure_tries (Gui.state p') = 0 /\
      8000 <= Mock.exposure (Gui.camera p') <= 12000 /\
      mock_bounds_reported (Gui.camera p').
Proof.
  induction n as [| n IH];
    intros ios p w Hlen Hrun Hpause Hest Ht0 Ht Hlo Hhi HW;
    (destruct ios as [| io rest]; [simpl in Hlen; lia |]);
    pose proof (@mock_search_tick io p w Hrun Hpause Hest) as Htk;
    cbv zeta in Htk;
    destruct Htk as (p1 & w1 & Htick & Hrun1 & Hpause1 & He & Hin & Hout);
    set (lo := Mock._exposure_min (Gui.camera p)) in *;
    set (hi := Mock._exposure_max (Gui.camera p)) in *;
    assert (Hdone : 8000 <= (lo + hi) / 2 <= 12000 ->
                    exists k p' w',
                      (1 <= k <= 1)%nat /\
                      Gui.run_ticks (firstn k (io :: rest)) (p, w)
                      = (Ok tt, (p', w')) /\
                      Gui.estimating_exposure (Gui.state p') = false /\
                      Gui.exposure_tries (Gui.state p') = 0 /\
                      8000 <= Mock.exposure (Gui.camera p') <= 12000 /\
                      mock_bounds_reported (Gui.camera p'))
      by (intros Hwin; destruct (Hin Hwin) as (He1 & Ht1 & Hlo1 & Hhi1);
          exists 1%nat, p1, w1; split; [lia |];
          split; [simpl; unfold bind; rewrite Htick; reflexivity |];
          rewrite He; unfold mock_bounds_reported; simpl; auto).
  - destruct Hdone as (k & p' & w' & Hk & Hrest);
      [simpl in HW; Z.div_mod_to_equations; lia |].
    exists k, p', w'. split; [lia | exact Hrest].
  - destruct (Z.le_gt_cases 8000 ((lo + hi) / 2)) as [H1 | H1];
      [destruct (Z.le_gt_cases ((lo + hi) / 2) 12000) as [H2 | H2] |].
    + destruct Hdone as (k & p' & w' & Hk & Hrest); [lia |].
      exists k, p', w'. split; [lia | exact Hrest].
    + destruct Hout as (Hest1 & Htries1 & Hlo1 & Hhi1); [lia |].
      rewrite Nat2Z.inj_succ, Z.pow_succ_r in HW by lia.
      assert (Hlt : (Gui.exposure_tries (Gui.state p) + 1 <? 50) = true)
        by (apply Z.ltb_lt; lia).
      rewrite Hlt in Hest1, Htries1.
      assert (Hgt : ((lo + hi) / 2 >? 10000) = true)
        by (rewrite Z.gtb_ltb; apply Z.ltb_lt; lia).
      rewrite Hgt in Hlo1, Hhi1.
      destruct (IH rest p1 w1) as (k & p' & w' & Hk & Hticks & Hrest);
        try assumption; try lia.
      * simpl in Hlen. lia.
      * rewrite Hlo1, Hhi1. fold lo. Z.div_mod_to_equations. lia.
      * exists (Datatypes.S k), p', w'. split; [lia |].
        split; [| exact Hrest].
        simpl. unfold bind. rewrite Htick. exact Hticks.
    + destruct Hout as (Hest1 & Htries1 & Hlo1 & Hhi1); [lia |].
      rewrite Nat2Z.inj_succ, Z.pow_succ_r in HW by lia.
      assert (Hlt : (Gui.exposure_tries (Gui.state p) + 1 <? 50) = true)
        by (apply Z.ltb_lt; lia).
      rewrite Hlt in Hest1, Htries1.
      assert (Hgt : ((lo + hi) / 2 >? 10000) = false)
        by (rewrite Z.gtb_ltb; apply Z.ltb_ge; lia).
      rewrite Hgt in Hlo1, Hhi1.
      destruct (IH rest p1 w1) as (k & p' & w' & Hk & Hticks & Hrest);
        try assumption; try lia.
      * simpl in Hlen. lia.
      * rewrite Hlo1, Hhi1. fold hi. Z.div_mod_to_equations. lia.
      * exists (Datatypes.S k), p', w'. split; [lia |].
        split; [| exact Hrest].
        simpl. unfold bind. rewrite Htick. exact Hticks.
Qed.

(** X3. On a [MockCamera], a search started by [toggle_exposure] at a frame
    rate between 1 and 100 (the range of the slider) converges within 8
    ticks: it ends with an exposure between 8000 and 12000 and with the
    search bounds back at the reported (100, 500000). *)
Theorem mock_search_converges_within_8_ticks
  (ios : list Io) (p : Gui.VideoPlayer Mock.MockCamera) (w : World) :
  (8 <= length ios)%nat ->
  Gui.running (Gui.state p) = true ->
  Gui.paused (Gui.state p) = false ->
  Gui.estimating_exposure (Gui.state p) = false ->
  1 <= Gui.fps (Gui.state p) <= 100 ->
  exists k p' w',
    (1 <= k <= 8)%nat /\
    (Gui.toggle_exposure ;; Gui.run_ticks (firstn k ios)) (p, w)
    = (Ok tt, (p', w')) /\
    Gui.estimating_exposure (Gui.state p') = false /\
    Gui.exposure_tries (Gui.state p') = 0 /\
    8000 <= Mock.exposure (Gui.camera p') <= 12000 /\
    mock_bounds_reported (Gui.camera p').
Proof.
  intros Hlen Hrun Hpause Hest Hfps.
  assert (Hstart := @toggle_exposure_starts _ Mock.MockCamera_Camera p w
                      Hrun Hpause Hest ltac:(lia)).
  assert (Hhint : 10000 <= 1000000 / Gui.fps (Gui.state p)).
  { apply Z.div_le_lower_bound; lia. }
  match type of Hstart with
  | _ = (Ok tt, (?q, w)) =>
      assert (Hsearch := @mock_search_ends_by_width 7 ios q w Hlen)
  end.
  change (init_exposure ?h ?c) with (Mock.init_exposure h c) in Hsearch.
  change (4001 * 2 ^ Z.of_nat 7) with 512128 in Hsearch.
  cbn -[Z.div Z.min Gui.run_ticks] in Hsearch.
  destruct Hsearch as (k & p' & w' & Hk & Hticks & Hdone);
    try assumption; try reflexivity; try lia.
  exists k, p', w'. split; [exact Hk |]. split; [| exact Hdone].
  unfold bind. rewrite Hstart. exact Hticks.
Qed.

Lemma mock_search_converges_within_8_ticks_witness :
  exists k p' w',
    (1 <= k <= 8)%nat /\
    (Gui.toggle_exposure ;; Gui.run_ticks (firstn k (repeat io_timeout 8)))
      (running_player sample_mock "mock", sample_world)
    = (Ok tt, (p', w')) /\
    Gui.estimating_exposure (Gui.state p') = false /\
    Gui.exposure_tries (Gui.state p') = 0 /\
    8000 <= Mock.exposure (Gui.camera p') <= 12000 /\
    mock_bounds_reported (Gui.camera p').
Proof.
  apply (@mock_search_converges_within_8_ticks (repeat io_timeout 8)
           (running_player sample_mock "mock") sample_world).
  - rewrite repeat_length. apply le_n.
  - reflexivity.
  - reflexivity.
  - reflexivity.
  - simpl. lia.
Defined.

(** ** The counter and the serializer, on every backend *)

Lemma frame_names_succ (first : Z) (n : nat) :
  frame_names first (Datatypes.S n)
  = ("frame_" ++ format_04d first) :: frame_names (first + 1) n.
Proof.
  unfold frame_names. cbn [seq map]. rewrite Z.add_0_r. f_equal.
  rewrite <- seq_shift, map_map. apply map_ext. intros k.
  do 2 f_equal. lia.
Qed.

Section CounterAndSerializer.

Context {S : Type} {cam : Camera S}.

Implicit Types (p : Gui.VideoPlayer S) (w : World) (io : Io).

Lemma check_step_recording (f : option frame) p w :
  Gui.recording (Gui.state (fst (snd (Gui.check_step f (p, w)))))
  = Gui.recording (Gui.state p).
Proof.
  rewrite check_step_eq.
  destruct (Gui.estimating_exposure (Gui.state p)); [| reflexivity].
  destruct (check_exposure f (Gui.camera p)) as [[b | e] c]; simpl; auto.
  apply after_check_keeps.
Qed.

(** What any tick does to the list of saved calls and to the counter: at
    most one call, named by the counter, and the counter moves with it. *)
Lemma update_frame_saves io p w :
  exists calls,
    saved (snd (snd (Gui.update_frame io (p, w))))
    = (saved w ++ calls)%list /\
    (length calls <= 1)%nat /\
    map sc_filename_stem calls
    = frame_names (Gui.frame_counter (Gui.state p)) (length calls) /\
    Gui.frame_counter (Gui.state (fst (snd (Gui.update_frame io (p, w)))))
    = Gui.frame_counter (Gui.state p) + Z.of_nat (length calls) /\
    Gui.recording (Gui.state (fst (snd (Gui.update_frame io (p, w)))))
    = Gui.recording (Gui.state p) /\
    (Gui.recording (Gui.state p) = false -> calls = []).
Proof.
  assert (Hnone : forall (q : Gui.VideoPlayer S) (x : World),
             saved x = saved w ->
             Gui.frame_counter (Gui.state q)
             = Gui.frame_counter (Gui.state p) ->
             Gui.recording (Gui.state q) = Gui.recording (Gui.state p) ->
             exists calls,
               saved x = (saved w ++ calls)%list /\
               (length calls <= 1)%nat /\
               map sc_filename_stem calls
               = frame_names (Gui.frame_counter (Gui.state p))
                   (length calls) /\
               Gui.frame_counter (Gui.state q)
               = Gui.frame_counter (Gui.state p) + Z.of_nat (length calls) /\
               Gui.recording (Gui.state q) = Gui.recording (Gui.state p) /\
               (Gui.recording (Gui.state p) = false -> calls = [])).
  { intros q x Hs Hc Hr. exists []. rewrite app_nil_r. simpl.
    repeat split; auto. lia. }
  destruct (Gui.running (Gui.state p)) eqn:Hrun;
    [| rewrite update_frame_guard by (rewrite Hrun; reflexivity);
       apply Hnone; reflexivity].
  destruct (Gui.paused (Gui.state p)) eqn:Hpause;
    [rewrite update_frame_guard by (rewrite Hrun, Hpause; reflexivity);
     apply Hnone; reflexivity |].
  destruct (Gui.update_frame io (p, w)) as [r [p' w']] eqn:E.
  rewrite update_frame_running in E by assumption.
  unfold bind at 1 in E.
  destruct (Gui.adjust_step io (p, w)) as [[[] | e] [p1 w1]] eqn:Hadj;
    destruct (adjust_step_keeps _ _ _ Hadj) as [Hs1 ->];
    [| inversion E; subst; apply Hnone;
       [reflexivity | simpl; congruence ..]].
  unfold bind at 1 in E.
  destruct (Gui.pull_frame io (p1, w)) as [[frames | e] [p2 w2]] eqn:Hpull;
    destruct (pull_frame_keeps _ _ _ Hpull) as [Hs2 ->];
    [| inversion E; subst; apply Hnone;
       [reflexivity | simpl; congruence ..]].
  unfold bind at 1 in E. rewrite show_step_eq in E.
  unfold bind at 1 in E. rewrite record_step_eq in E.
  rewrite shown_state, shown_camera, Hs2, Hs1 in E.
  destruct (Gui.recording (Gui.state p)) eqn:Hrec;
    [destruct (fst frames) as [raw |] eqn:Hraw |];
    match type of E with
    | Gui.check_step ?f (?q, ?x) = _ =>
        pose proof (check_step_keeps f q x) as [Hw Hfc];
        pose proof (check_step_recording f q x) as Hrc;
        rewrite E in Hw, Hfc, Hrc; simpl in Hw, Hfc, Hrc
    end;
    rewrite ?shown_state, ?Hs2, ?Hs1 in Hfc, Hrc;
    try (apply Hnone;
         [simpl; rewrite Hw; reflexivity
         | simpl; exact Hfc
         | simpl; congruence]).
  eexists [_]. simpl. rewrite Hw, Hfc, Hrc. simpl.
  unfold frame_names. simpl. rewrite Z.add_0_r.
  repeat split; auto. discriminate.
Qed.

(** The same over a run of ticks, up to the tick that raises if one does. *)
Lemma run_ticks_saves (ios : list Io) :
  forall p w,
  exists calls,
    saved (snd (snd (Gui.run_ticks ios (p, w)))) = (saved w ++ calls)%list /\
    (length calls <= length ios)%nat /\
    map sc_filename_stem calls
    = frame_names (Gui.frame_counter (Gui.state p)) (length calls) /\
    Gui.frame_counter (Gui.state (fst (snd (Gui.run_ticks ios (p, w)))))
    = Gui.frame_counter (Gui.state p) + Z.of_nat (length calls) /\
    (Gui.recording (Gui.state p) = false -> calls = []).
Proof.
  induction ios as [| io rest IH]; intros p w.
  - exists []. simpl. rewrite app_nil_r. repeat split; auto. lia.
  - destruct (update_frame_saves io p w)
      as (c1 & Hs1 & Hl1 & Hn1 & Hc1 & Hrc1 & Hr1).
    simpl Gui.run_ticks. unfold bind.
    destruct (Gui.update_frame io (p, w)) as [[[] | e] [p1 w1]] eqn:E;
      simpl in Hs1, Hc1, Hrc1.
    + destruct (IH p1 w1) as (c2 & Hs2 & Hl2 & Hn2 & Hc2 & Hr2).
      exists (c1 ++ c2)%list.
      rewrite Hs2, Hs1, Hc2, Hc1, app_assoc.
      split; [reflexivity |].
      destruct c1 as [| c [| c' c1]]; [| | simpl in Hl1; lia].
      * simpl in *. rewrite Z.add_0_r in *.
        split; [lia |]. split; [congruence |]. split; [lia |].
        intros Hrec. apply Hr2. congruence.
      * cbn [length app map] in *. rewrite frame_names_succ.
        split; [lia |]. split; [| split; [lia |]].
        -- unfold frame_names in Hn1. cbn [seq map] in Hn1.
           rewrite Z.add_0_r in Hn1. rewrite Hn2, Hc1.
           injection Hn1 as ->. reflexivity.
        -- intros Hrec. specialize (Hr1 Hrec). discriminate Hr1.
    + exists c1. simpl. rewrite Hs1, Hc1.
      split; [reflexivity |]. split; [lia |]. auto.
Qed.

End CounterAndSerializer.

(** X4. On every backend and for every run of ticks, whatever the device
    answers and even when a tick raises: the calls that reach the serializer
    are at most one per tick, their names are [frame_] with the consecutive
    counters from the one the run started with, without a gap and without a
    repetition, the counter has advanced by exactly their number, and a
    session that does not record makes none. *)
Theorem recorded_frames_are_numbered_without_gaps
  (S : Type) (cam : Camera S) (ios : list Io) (p : Gui.VideoPlayer S)
  (w : World) :
  exists calls,
    saved (snd (snd (Gui.run_ticks ios (p, w)))) = (saved w ++ calls)%list /\
    (length calls <= length ios)%nat /\
    map sc_filename_stem calls
    = frame_names (Gui.frame_counter (Gui.state p)) (length calls) /\
    NoDup (map sc_filename_stem calls) /\
    Gui.frame_counter (Gui.state (fst (snd (Gui.run_ticks ios (p, w)))))
    = Gui.frame_counter (Gui.state p) + Z.of_nat (length calls) /\
    (Gui.recording (Gui.state p) = false -> calls = []).
Proof.
  destruct (run_ticks_saves ios p w) as (calls & Hs & Hl & Hn & Hc & Hr).
  exists calls. rewrite Hn at 2.
  repeat split; auto using frame_names_NoDup.
Qed.

(** ** The handlers, one by one *)

Section Handlers.

Context {S : Type} {cam : Camera S}.

Implicit Types (p : Gui.VideoPlayer S) (w : World) (io : Io).

Lemma toggle_pausing_eq p w :
  Gui.toggle_pausing (p, w)
  = (Ok tt,
     (if Gui.running (Gui.state p)
      then Gui.set_state
             (Gui.set_paused (negb (Gui.paused (Gui.state p))) (Gui.state p)) p
      else p, w)).
Proof.
  unfold Gui.toggle_pausing, Gui.read, Gui.write, gets, modify, bind, ret.
  simpl. destruct (Gui.running (Gui.state p)); reflexivity.
Qed.

Lemma toggle_view_eq p w :
  Gui.toggle_view (p, w)
  = (Ok tt,
     (if negb (Gui.running (Gui.state p)) || Gui.paused (Gui.state p)
      then p
      else Gui.set_camera (toggle_view (Gui.camera p)) p, w)).
Proof.
  unfold Gui.toggle_view, Gui.read, Gui.on_camera, zoom, gets, modify, bind,
    ret. simpl.
  destruct (negb (Gui.running (Gui.state p)) || Gui.paused (Gui.state p));
    reflexivity.
Qed.

Lemma toggle_bit_depth_eq p w :
  Gui.toggle_bit_depth (p, w)
  = (Ok tt,
     (if negb (Gui.running (Gui.state p)) || Gui.paused (Gui.state p)
         || Gui.recording (Gui.state p)
      then p
      else Gui.set_camera (toggle_bit_depth (Gui.camera p)) p, w)).
Proof.
  unfold Gui.toggle_bit_depth, Gui.read, Gui.on_camera, zoom, gets, modify,
    bind, ret. simpl.
  destruct (negb (Gui.running (Gui.state p)) || Gui.paused (Gui.state p)
            || Gui.recording (Gui.state p)); reflexivity.
Qed.

(** [toggle_recording]: the flag is written first, the counter next, and
    the subfolder is asked of the camera last, so the first two stay when
    the camera raises. *)
Lemma toggle_recording_eq io p w :
  Gui.toggle_recording io (p, w)
  = if negb (Gui.running (Gui.state p)) || Gui.paused (Gui.state p)
    then (Ok tt, (p, w))
    else if Gui.recording (Gui.state p)
    then (Ok tt,
          (Gui.set_state (Gui.set_recording false (Gui.state p)) p, w))
    else
      let cw := set_save_subfolder (now_strftime io) (Gui.camera p, w) in
      (fst cw,
       (Gui.set_camera (fst (snd cw))
          (Gui.set_state
             (Gui.set_frame_counter 0
                (Gui.set_recording true (Gui.state p))) p),
        snd (snd cw))).
Proof.
  unfold Gui.toggle_recording, Gui.read, Gui.write, Gui.on_device, zoom,
    gets, modify, bind, ret.
  destruct p as [c g ci]. destruct g. cbn.
  destruct (negb running || paused); [reflexivity |].
  destruct recording; cbn; [reflexivity |].
  destruct (set_save_subfolder (now_strftime io) (c, w))
    as [[[] | e] [c' w']]; reflexivity.
Qed.

(** [toggle_exposure]: the flag and the counter are written before the
    division by the frame rate. *)
Lemma toggle_exposure_eq p w :
  Gui.toggle_exposure (p, w)
  = if negb (Gui.running (Gui.state p)) || Gui.paused (Gui.state p)
       || Gui.estimating_exposure (Gui.state p)
    then (Ok tt, (p, w))
    else
      let g := Gui.set_exposure_tries 0
                 (Gui.set_estimating_exposure true (Gui.state p)) in
      if Gui.fps (Gui.state p) =? 0
      then (Raise ZeroDivisionError, (Gui.set_state g p, w))
      else (Ok tt,
            (Gui.set_camera
               (init_exposure (1000000 / Gui.fps (Gui.state p)) (Gui.camera p))
               (Gui.set_state g p), w)).
Proof.
  unfold Gui.toggle_exposure, Gui.read, Gui.write, Gui.on_camera, zoom,
    gets, modify, bind, ret, raise. simpl.
  destruct (negb (Gui.running (Gui.state p)) || Gui.paused (Gui.state p)
            || Gui.estimating_exposure (Gui.state p)); [reflexivity |].
  simpl. destruct (Gui.fps (Gui.state p) =? 0); reflexivity.
Qed.

Lemma update_exposure_eq io (lo hi : Z) (v : option Z) p w :
  Gui.update_exposure io lo hi v (p, w)
  = if negb (Gui.running (Gui.state p)) || Gui.paused (Gui.state p)
    then (Ok None, (p, w))
    else
      let step := snd (exposure_range (Gui.camera p)) in
      match v with
      | None => (Ok (Some (exposure (Gui.camera p))), (p, w))
      | Some v =>
          if step =? 0
          then if exception_type (Gui.camera p) ZeroDivisionError
               then (Ok (Some (exposure (Gui.camera p))), (p, w))
               else (Raise ZeroDivisionError, (p, w))
          else
            match set_exposure io (slider_value lo hi step v) (Gui.camera p)
            with
            | (Ok _, c) =>
                (Ok (Some (slider_value lo hi step v)),
                 (Gui.set_camera c p, w))
            | (Raise e, c) =>
                if match e with
                   | ValueError _ => true
                   | _ => exception_type c e
                   end
                then (Ok (Some (exposure c)), (Gui.set_camera c p, w))
                else (Raise e, (Gui.set_camera c p, w))
            end
      end.
Proof.
  unfold Gui.update_exposure, Gui.read, Gui.on_camera, zoom, try_except,
    gets, modify, bind, ret, raise, slider_value. cbn [fst snd].
  destruct (negb (Gui.running (Gui.state p)) || Gui.paused (Gui.state p));
    [reflexivity |].
  destruct v as [v |]; [| reflexivity].
  cbv zeta. cbn [fst snd].
  destruct (snd (exposure_range (Gui.camera p)) =? 0).
  - cbn [fst snd].
    destruct (exception_type (Gui.camera p) ZeroDivisionError); reflexivity.
  - cbn [fst snd].
    match goal with
    | |- context [set_exposure io ?x (Gui.camera p)] =>
        destruct (set_exposure io x (Gui.camera p)) as [[b | e] c]
    end; [reflexivity |].
    cbn [fst snd Gui.camera Gui.set_camera].
    destruct e; try reflexivity;
      destruct (exception_type c _); reflexivity.
Qed.

End Handlers.

(** ** What a tick keeps true *)

Section TickInvariant.

Context {S : Type} {cam : Camera S}.

Implicit Types (p : Gui.VideoPlayer S) (w : World) (io : Io).

(** A property [K] of the camera that its methods of the tick keep, and a
    property [G] of the session state that the two writes of the tick
    keep. *)
Variables (K : S -> Prop) (G : Gui.GuiState -> Prop).

Hypothesis K_adjust : forall io c, K c -> K (snd (adjust_exposure io c)).
Hypothesis K_get_frame : forall io fps c, K c -> K (snd (get_frame io fps c)).
Hypothesis K_check : forall f c, K c -> K (snd (check_exposure f c)).
Hypothesis G_count :
  forall g, G g -> G (Gui.set_frame_counter (Gui.frame_counter g + 1) g).
Hypothesis G_check : forall b g, G g -> G (Gui.after_check b g).

Lemma adjust_step_inv io p w :
  K (Gui.camera p) ->
  K (Gui.camera (fst (snd (Gui.adjust_step io (p, w))))).
Proof.
  intros HK. rewrite adjust_step_eq.
  destruct (Gui.estimating_exposure (Gui.state p)); simpl; auto.
Qed.

Lemma pull_frame_inv io p w :
  K (Gui.camera p) ->
  K (Gui.camera (fst (snd (Gui.pull_frame io (p, w))))).
Proof.
  intros HK. rewrite pull_frame_eq.
  pose proof (K_get_frame io (Gui.fps (Gui.state p)) HK) as H.
  destruct (get_frame io (Gui.fps (Gui.state p)) (Gui.camera p))
    as [[fv | e] c]; [| destruct (exception_type c e)]; simpl; exact H.
Qed.

Lemma check_step_inv (f : option frame) p w :
  K (Gui.camera p) -> G (Gui.state p) ->
  K (Gui.camera (fst (snd (Gui.check_step f (p, w))))) /\
  G (Gui.state (fst (snd (Gui.check_step f (p, w))))) /\
  snd (snd (Gui.check_step f (p, w))) = w.
Proof.
  intros HK HG. rewrite check_step_eq.
  destruct (Gui.estimating_exposure (Gui.state p)); [| simpl; auto].
  pose proof (K_check f HK) as H.
  destruct (check_exposure f (Gui.camera p)) as [[b | e] c]; simpl; auto.
Qed.

(** A tick keeps [K] and [G], and leaves the world as it was or with one
    more call of the serializer, whose folder is the one of a camera in
    [K]. *)
Lemma update_frame_inv io p w :
  K (Gui.camera p) -> G (Gui.state p) ->
  K (Gui.camera (fst (snd (Gui.update_frame io (p, w))))) /\
  G (Gui.state (fst (snd (Gui.update_frame io (p, w))))) /\
  (snd (snd (Gui.update_frame io (p, w))) = w \/
   exists call c,
     K c /\ Gui.recording (Gui.state p) = true /\
     sc_save_folder call = save_folder c /\
     snd (snd (Gui.update_frame io (p, w)))
     = set_saved (saved w ++ [call])%list w).
Proof.
  intros HK HG.
  destruct (Gui.running (Gui.state p)) eqn:Hrun;
    [| rewrite update_frame_guard by (rewrite Hrun; reflexivity);
       simpl; auto].
  destruct (Gui.paused (Gui.state p)) eqn:Hpause;
    [rewrite update_frame_guard by (rewrite Hrun, Hpause; reflexivity);
     simpl; auto |].
  destruct (Gui.update_frame io (p, w)) as [r [p' w']] eqn:E.
  cbn [fst snd].
  rewrite update_frame_running in E by assumption.
  unfold bind at 1 in E.
  pose proof (adjust_step_inv io p w HK) as HK1.
  destruct (Gui.adjust_step io (p, w)) as [[[] | e] [p1 w1]] eqn:Hadj;
    destruct (adjust_step_keeps _ _ _ Hadj) as [Hs1 ->]; simpl in HK1;
    [| inversion E; subst; rewrite Hs1; auto].
  unfold bind at 1 in E.
  pose proof (pull_frame_inv io p1 w HK1) as HK2.
  destruct (Gui.pull_frame io (p1, w)) as [[frames | e] [p2 w2]] eqn:Hpull;
    destruct (pull_frame_keeps _ _ _ Hpull) as [Hs2 ->]; simpl in HK2;
    [| inversion E; subst; rewrite Hs2, Hs1; auto].
  unfold bind at 1 in E. rewrite show_step_eq in E.
  unfold bind at 1 in E. rewrite record_step_eq in E.
  rewrite shown_state, shown_camera, Hs2, Hs1 in E.
  destruct (Gui.recording (Gui.state p)) eqn:Hrec;
    [destruct (fst frames) as [raw |] eqn:Hraw |];
    match type of E with
    | Gui.check_step ?f (?q, ?x) = _ =>
        destruct (check_step_inv f q x) as (HK3 & HG3 & Hw3);
        [simpl; rewrite ?shown_camera; exact HK2
        | simpl; rewrite ?shown_state, ?Hs2, ?Hs1; auto
        | rewrite E in HK3, HG3, Hw3; cbn [fst snd] in HK3, HG3, Hw3;
          rewrite Hw3; split; [exact HK3 | split; [exact HG3 |]]]
    end; auto.
  right. eexists _, (Gui.camera p2).
  split; [exact HK2 |]. split; [reflexivity |].
  split; [| reflexivity]. reflexivity.
Qed.

End TickInvariant.

(** ** The counters of a session *)

Lemma session_inv_init (camera_id : string) (fps : Z) :
  session_inv (Gui.GuiState_init camera_id fps).
Proof. unfold session_inv. simpl. lia. Qed.

Lemma session_inv_count (g : Gui.GuiState) :
  session_inv g ->
  session_inv (Gui.set_frame_counter (Gui.frame_counter g + 1) g).
Proof. unfold session_inv. simpl. intuition lia. Qed.

Lemma session_inv_check (b : bool) (g : Gui.GuiState) :
  session_inv g -> session_inv (Gui.after_check b g).
Proof.
  unfold session_inv, Gui.after_check. intros (Ht & He & Hc).
  destruct (negb b); simpl;
    [destruct (Z.ltb_spec (Gui.exposure_tries g + 1) 50) |]; simpl;
    repeat split; try lia; try discriminate; auto.
Qed.

Section Session.

Context {S : Type} {cam : Camera S}.

Lemma gui_step_session_inv (pw pw' : Gui.VideoPlayer S * World) :
  Gui.gui_step pw pw' ->
  session_inv (Gui.state (fst pw)) -> session_inv (Gui.state (fst pw')).
Proof.
  intros Hstep Hinv. destruct Hstep; destruct pw as [p w]; simpl in Hinv.
  - apply (@update_frame_inv S cam (fun _ => True) session_inv); auto.
    + apply session_inv_count.
    + intros b g. apply session_inv_check.
  - rewrite toggle_pausing_eq. simpl.
    destruct (Gui.running (Gui.state p)); exact Hinv.
  - rewrite toggle_view_eq. simpl.
    destruct (negb _ || _); exact Hinv.
  - rewrite toggle_bit_depth_eq. simpl.
    destruct (negb _ || _ || _); exact Hinv.
  - rewrite toggle_recording_eq.
    destruct (negb _ || _); [exact Hinv |].
    destruct (Gui.recording (Gui.state p)); simpl; [exact Hinv |].
    unfold session_inv in *. simpl. intuition lia.
  - rewrite toggle_exposure_eq.
    destruct (negb _ || _ || _); [exact Hinv |].
    cbv zeta. destruct (Gui.fps (Gui.state p) =? 0); simpl;
      unfold session_inv in *; simpl; intuition lia.
  - rewrite update_exposure_eq.
    destruct (negb _ || _); [exact Hinv |].
    cbv zeta. destruct v as [v |]; [| exact Hinv].
    destruct (snd (exposure_range (Gui.camera p)) =? 0);
      [destruct (exception_type _ _); exact Hinv |].
    destruct (set_exposure io _ (Gui.camera p)) as [[b | e] c];
      [exact Hinv |].
    destruct (match e with ValueError _ => true | _ => _ end); exact Hinv.
Qed.

End Session.

(** X5. On every backend, over every sequence of handler calls of a session
    (ticks, the pause, view, bit depth, recording and exposure buttons, the
    exposure input), whatever the device answers and whether the calls return
    or raise: the number of tries of the exposure search stays in 0..49 and
    is 0 whenever no search is under way, and the frame counter is never
    negative, so a file name never carries a sign.  The state the
    constructor builds satisfies this. *)
Theorem session_counters_stay_in_range
  (S : Type) (cam : Camera S) (pw pw' : Gui.VideoPlayer S * World) :
  Gui.gui_steps pw pw' ->
  session_inv (Gui.state (fst pw)) ->
  session_inv (Gui.state (fst pw')) /\
  forall camera_id fps, session_inv (Gui.GuiState_init camera_id fps).
Proof.
  intros Hsteps Hinv. split; [| apply session_inv_init].
  induction Hsteps as [pw | pw pw1 pw2 Hsteps IH Hstep]; [exact Hinv |].
  apply (gui_step_session_inv Hstep). apply IH, Hinv.
Qed.

Lemma session_counters_stay_in_range_witness :
  session_inv
    (Gui.state
       (fst (snd (Gui.toggle_exposure
                    (running_player sample_mock "mock", sample_world))))) /\
  forall camera_id fps, session_inv (Gui.GuiState_init camera_id fps).
Proof.
  apply (@session_counters_stay_in_range Mock.MockCamera _
           (running_player sample_mock "mock", sample_world)).
  - eapply Gui.steps_more; [apply Gui.steps_none |].
    apply Gui.step_toggle_exposure.
  - unfold session_inv. simpl. lia.
Defined.

(** X6. While the session is stopped no handler changes anything, neither
    the player nor the camera nor the world; while it is paused the only
    thing a handler can change is the pause flag itself (the pause button
    resumes), on every backend. *)
Theorem stopped_or_paused_session_is_frozen
  (S : Type) (cam : Camera S) (pw pw' : Gui.VideoPlayer S * World) :
  Gui.gui_step pw pw' ->
  (Gui.running (Gui.state (fst pw)) = false -> pw' = pw) /\
  (Gui.paused (Gui.state (fst pw)) = true ->
   pw' = pw \/
   pw' = (Gui.set_state (Gui.set_paused false (Gui.state (fst pw))) (fst pw),
          snd pw)).
Proof.
  intros Hstep. destruct Hstep; destruct pw as [p w]; cbn [fst snd].
  - split; intros H; [| left];
      rewrite update_frame_guard; auto; rewrite H; auto using orb_true_r.
  - rewrite toggle_pausing_eq. split; intros H; rewrite H; simpl; auto.
    destruct (Gui.running (Gui.state p)); auto.
  - rewrite toggle_view_eq. split; intros H; [| left]; rewrite H;
      rewrite ?orb_true_r; reflexivity.
  - rewrite toggle_bit_depth_eq. split; intros H; [| left]; rewrite H;
      rewrite ?orb_true_r; reflexivity.
  - rewrite toggle_recording_eq. split; intros H; [| left]; rewrite H;
      rewrite ?orb_true_r; reflexivity.
  - rewrite toggle_exposure_eq. split; intros H; [| left]; rewrite H;
      rewrite ?orb_true_r; reflexivity.
  - rewrite update_exposure_eq. split; intros H; [| left]; rewrite H;
      rewrite ?orb_true_r; reflexivity.
Qed.

Lemma stopped_or_paused_session_is_frozen_witness :
  (Gui.running (Gui.state (Gui.set_state
      (Gui.set_paused true (Gui.state (running_player sample_mock "mock")))
      (running_player sample_mock "mock"))) = false ->
   snd (Gui.toggle_recording io_timeout
          (Gui.set_state
             (Gui.set_paused true
                (Gui.state (running_player sample_mock "mock")))
             (running_player sample_mock "mock"), sample_world))
   = (Gui.set_state
        (Gui.set_paused true (Gui.state (running_player sample_mock "mock")))
        (running_player sample_mock "mock"), sample_world)) /\
  (true = true ->
   snd (Gui.toggle_recording io_timeout
          (Gui.set_state
             (Gui.set_paused true
                (Gui.state (running_player sample_mock "mock")))
             (running_player sample_mock "mock"), sample_world))
   = (Gui.set_state
        (Gui.set_paused true (Gui.state (running_player sample_mock "mock")))
        (running_player sample_mock "mock"), sample_world) \/
   snd (Gui.toggle_recording io_timeout
          (Gui.set_state
             (Gui.set_paused true
                (Gui.state (running_player sample_mock "mock")))
             (running_player sample_mock "mock"), sample_world))
   = (running_player sample_mock "mock", sample_world)).
Proof.
  apply (@stopped_or_paused_session_is_frozen Mock.MockCamera _
           (Gui.set_state
              (Gui.set_paused true
                 (Gui.state (running_player sample_mock "mock")))
              (running_player sample_mock "mock"), sample_world)).
  apply Gui.step_toggle_recording.
Defined.

(** ** The folder of a [TisCamera] recording *)

(** No method of [TisCamera] other than [set_save_subfolder] writes the
    pixel format or one of the two parts of the save path. *)
Lemma tis_step_other_fields (c c' : Tis.TisCamera) :
  tis_step_other c c' ->
  Tis.State.pixel_format (Tis.state c') = Tis.State.pixel_format (Tis.state c) /\
  Tis.State.save_folder (Tis.state c') = Tis.State.save_folder (Tis.state c) /\
  Tis.State.save_subfolder (Tis.state c')
  = Tis.State.save_subfolder (Tis.state c).
Proof.
  intros H. destruct H; simpl; auto.
  - unfold Tis.open. destruct (devices io); [auto |].
    unfold bind, Tis.sdk_call, Tis.set_value, gets, modify, ret, raise.
    destruct (device_open_ok io); [| auto].
    destruct (set_value_ok io); [| auto]. simpl.
    destruct (stream_setup_ok io); auto.
  - unfold Tis.close, bind, Tis.sdk_call, ret, raise.
    destruct (stream_stop_ok io); [| auto].
    destruct (device_close_ok io); auto.
  - unfold Tis.get_frame. destruct (Tis.sink c); [| auto].
    destruct (snap_single io); auto.
  - unfold Tis.set_exposure, Tis.set_value, bind, modify, ret.
    destruct (set_value_ok io); auto.
  - unfold Tis.adjust_exposure, Tis.set_exposure, Tis.set_value, bind,
      modify, ret.
    destruct (set_value_ok io); auto.
  - unfold Tis.check_exposure, Tis._find_exposure_for_saturation.
    destruct f as [f |]; [| auto]. simpl.
    destruct (Tis.count_saturated _ _ >? _); auto.
Qed.

Lemma tis_step_other_save_folder (c c' : Tis.TisCamera) :
  tis_step_other c c' -> Tis.save_folder c' = Tis.save_folder c.
Proof.
  intros H. apply tis_step_other_fields in H. destruct H as (_ & H1 & H2).
  unfold Tis.save_folder, Tis.State.save_path. rewrite H1, H2. reflexivity.
Qed.

(** [set_save_subfolder] leaves a camera with a folder, also when the
    directory cannot be made, and makes no call of the serializer. *)
Lemma tis_set_save_subfolder_folder (sub : string) (c : Tis.TisCamera)
  (w : World) :
  Tis.save_folder (fst (snd (Tis.set_save_subfolder sub (c, w))))
  = Some (PathJoin (Tis.State.save_folder (Tis.state c)) sub) /\
  saved (snd (snd (Tis.set_save_subfolder sub (c, w)))) = saved w.
Proof.
  unfold Tis.set_save_subfolder, Tis.save_folder, Tis.State.save_path. simpl.
  pose proof (mkdir_frame false
                (PathJoin (Tis.State.save_folder (Tis.state c)) sub) w) as H.
  destruct (mkdir false _ w) as [r w']. simpl in *. tauto.
Qed.

Lemma tis_update_frame_folder_inv (io : Io)
  (pw : Gui.VideoPlayer Tis.TisCamera * World) :
  tis_folder_inv pw -> tis_folder_inv (snd (Gui.update_frame io pw)).
Proof.
  destruct pw as [p w]. unfold tis_folder_inv. cbn [fst snd].
  intros [Hrec Hsaved].
  destruct (Gui.recording (Gui.state p)) eqn:Hr.
  - destruct (@update_frame_inv Tis.TisCamera _
                (fun c => Tis.save_folder c <> None)
                (fun g => Gui.recording g = true)) with (io := io) (p := p)
      (w := w) as (HK & HG & Hw); auto.
    + intros io0 c Hc.
      change (Tis.save_folder (snd (Tis.adjust_exposure io0 c)) <> None).
      rewrite (tis_step_other_save_folder (tis_adjust_exposure io0 c)).
      exact Hc.
    + intros io0 fps c Hc.
      change (Tis.save_folder (snd (Tis.get_frame io0 fps c)) <> None).
      rewrite (tis_step_other_save_folder (tis_get_frame io0 fps c)).
      exact Hc.
    + intros f c Hc.
      change (Tis.save_folder (snd (Tis.check_exposure f c)) <> None).
      rewrite (tis_step_other_save_folder (tis_check_exposure f c)).
      exact Hc.
    + intros b g Hg. rewrite <- Hg. apply after_check_keeps.
    + split; [intros _; exact HK |].
      destruct Hw as [-> | (call & c & Hc & _ & Hcall & ->)];
        [exact Hsaved |].
      simpl. apply Forall_app. split; [exact Hsaved |].
      constructor; [| constructor]. rewrite Hcall. exact Hc.
  - destruct (@update_frame_inv Tis.TisCamera _
                (fun _ => True)
                (fun g => Gui.recording g = false)) with (io := io) (p := p)
      (w := w) as (HK & HG & Hw); auto.
    + intros b g Hg. rewrite <- Hg. apply after_check_keeps.
    + split; [intros H; congruence |].
      destruct Hw as [-> | (call & c & _ & H & _)];
        [exact Hsaved | congruence].
Qed.

Lemma tis_gui_step_folder_inv
  (pw pw' : Gui.VideoPlayer Tis.TisCamera * World) :
  Gui.gui_step pw pw' -> tis_folder_inv pw -> tis_folder_inv pw'.
Proof.
  intros Hstep Hinv. destruct Hstep;
    [apply tis_update_frame_folder_inv; exact Hinv | ..];
    destruct pw as [p w]; unfold tis_folder_inv in *; cbn [fst snd] in *;
    destruct Hinv as [Hrec Hsaved].
  - rewrite toggle_pausing_eq. cbn [fst snd].
    destruct (Gui.running (Gui.state p)); auto.
  - rewrite toggle_view_eq. cbn [fst snd].
    destruct (negb _ || _); auto.
  - rewrite toggle_bit_depth_eq. cbn [fst snd].
    destruct (negb _ || _ || _); auto.
  - rewrite toggle_recording_eq.
    destruct (negb _ || _); [auto |].
    destruct (Gui.recording (Gui.state p)); cbn [fst snd].
    + split; [discriminate | exact Hsaved].
    + destruct (tis_set_save_subfolder_folder (now_strftime io)
                  (Gui.camera p) w) as [Hf Hs].
      cbn [set_save_subfolder Tis.TisCamera_Camera Gui.camera Gui.set_camera].
      split; [intros _; rewrite Hf; discriminate | rewrite Hs; exact Hsaved].
  - rewrite toggle_exposure_eq.
    destruct (negb _ || _ || _); [auto |].
    cbv zeta. destruct (Gui.fps (Gui.state p) =? 0); cbn [fst snd]; auto.
  - rewrite update_exposure_eq.
    destruct (negb _ || _); [auto |].
    cbv zeta. destruct v as [v |]; [| auto].
    destruct (snd (exposure_range (Gui.camera p)) =? 0);
      [destruct (exception_type _ _); auto |].
    match goal with
    | |- context [set_exposure io ?x (Gui.camera p)] =>
        pose proof (tis_step_other_save_folder
                      (tis_set_exposure io x (Gui.camera p))) as Hf;
        change (Tis.set_exposure io x (Gui.camera p))
          with (set_exposure io x (Gui.camera p)) in Hf;
        destruct (set_exposure io x (Gui.camera p)) as [[b | e] c]
    end; simpl in Hf.
    + cbn [fst snd Gui.camera Gui.set_camera Gui.state]. rewrite Hf. auto.
    + destruct (match e with ValueError _ => true | _ => _ end);
        cbn [fst snd Gui.camera Gui.set_camera Gui.state]; rewrite Hf; auto.
Qed.

(** X7. Between its start and its stop a [TisCamera] session never hands
    the serializer a missing folder.  Over every sequence of calls of the
    handlers of [gui_step] from a state in which nothing is recorded and
    nothing saved, whatever the device and the file system answer: whenever
    the session records, the camera has a subfolder, and every call the
    serializer has received names a folder.  Starting a recording sets the
    subfolder before the first tick can save, even when the directory could
    not be made. *)
Theorem tis_session_always_names_a_folder
  (pw pw' : Gui.VideoPlayer Tis.TisCamera * World) :
  Gui.gui_steps pw pw' ->
  Gui.recording (Gui.state (fst pw)) = false ->
  saved (snd pw) = [] ->
  (Gui.recording (Gui.state (fst pw')) = true ->
   Tis.save_folder (Gui.camera (fst pw')) <> None) /\
  Forall (fun c => sc_save_folder c <> None) (saved (snd pw')).
Proof.
  intros Hsteps Hrec Hsaved.
  assert (Hinv : tis_folder_inv pw).
  { split; [congruence | rewrite Hsaved; constructor]. }
  clear Hrec Hsaved.
  change (tis_folder_inv pw').
  induction Hsteps as [pw | pw pw1 pw2 Hsteps IH Hstep]; [exact Hinv |].
  apply (tis_gui_step_folder_inv Hstep). apply IH, Hinv.
Qed.

Lemma tis_session_always_names_a_folder_witness :
  (Gui.recording (Gui.state (fst
     (snd (Gui.update_frame (io_deliver [[0; 65535]])
       (snd (Gui.toggle_recording io_timeout
          (running_player sample_tis_open "tis", sample_world))))))) = true ->
   Tis.save_folder (Gui.camera (fst
     (snd (Gui.update_frame (io_deliver [[0; 65535]])
       (snd (Gui.toggle_recording io_timeout
          (running_player sample_tis_open "tis", sample_world)))))))
   <> None) /\
  Forall (fun c => sc_save_folder c <> None)
    (saved (snd
       (snd (Gui.update_frame (io_deliver [[0; 65535]])
         (snd (Gui.toggle_recording io_timeout
            (running_player sample_tis_open "tis", sample_world))))))).
Proof.
  apply (@tis_session_always_names_a_folder
           (running_player sample_tis_open "tis", sample_world)).
  - eapply Gui.steps_more;
      [eapply Gui.steps_more; [apply Gui.steps_none |] |].
    + apply Gui.step_toggle_recording.
    + apply Gui.step_update_frame.
  - reflexivity.
  - reflexivity.
Defined.

(** ** The pixel format of a [TisCamera] *)

Lemma tis_reachable_pixel_format (c : Tis.TisCamera) :
  tis_reachable c ->
  Tis.State.pixel_format (Tis.state c) = Tis.BayerGB16.
Proof.
  induction 1 as [w c w' Hinit | c c' Hreach IH Hstep | c sub w Hreach IH].
  - revert Hinit. unfold Tis.__init__.
    destruct (mkdir false (data_path w) w) as [[[] | e] w1]; [| discriminate].
    destruct (mkdir false (PathJoin (data_path w) "tis") w1)
      as [[[] | e] w2]; [| discriminate].
    intros H. inversion H; subst. reflexivity.
  - apply tis_step_other_fields in Hstep. destruct Hstep as [-> _]. exact IH.
  - unfold Tis.set_save_subfolder. simpl.
    destruct (mkdir false _ w) as [r w']. simpl. exact IH.
Qed.

(** X8. A [TisCamera] is a 16-bit camera in every state it can reach by its
    methods: the pixel format stays [BayerGB16] ([toggle_bit_depth] does
    nothing and no method writes the field), so the bit depth is 16, the
    dynamic range 65535, the shape 480 x 640 x 1, and the ENVI header says
    data type 12 and 16 bits.  The exposure search therefore always counts
    the samples at 65535, against the threshold 100 with tolerance 20; its
    8-bit threshold and tolerance (8000 and 1000) are never in force. *)
Theorem tis_camera_is_always_16_bit (c : Tis.TisCamera) :
  tis_reachable c ->
  Tis.bit_depth c = 16 /\
  Tis.bit_depth (Tis.toggle_bit_depth c) = 16 /\
  Tis.State.dynamic_range (Tis.state c) = 65535 /\
  Tis.shape c = [480; 640; 1] /\
  (forall io,
     In ("data type", EnviInt 12) (Tis.get_envi_options io c) /\
     In ("bit depth", EnviStr "16 bits") (Tis.get_envi_options io c)) /\
  (forall f,
     let sat := Tis.count_saturated f 65535 in
     let cur := Tis.State.current_exposure (Tis.state c) in
     let st1 :=
       if sat >? 100
       then Tis.State.set_max_exposure (cur - 1) (Tis.state c)
       else Tis.State.set_min_exposure (cur + 1) (Tis.state c) in
     Tis.check_exposure (Some f) c
     = (Ok ((Z.abs (sat - 100) <? 20)
            || (Z.abs (Tis.State.max_exposure st1
                       - Tis.State.min_exposure st1) <? 10)
            || (Z.abs (cur - (Tis.State.max_exposure st1
                              + Tis.State.min_exposure st1) / 2) <=? 20)),
        Tis.set_state st1 c)).
Proof.
  intros Hreach. pose proof (tis_reachable_pixel_format Hreach) as Hpf.
  unfold Tis.bit_depth, Tis.toggle_bit_depth, Tis.shape,
    Tis.State.dynamic_range, Tis.State.bit_depth, Tis.State.shape,
    Tis.get_envi_options, Tis.get_envi_header, Tis.State.bit_depth.
  rewrite Hpf.
  split; [reflexivity |]. split; [reflexivity |]. split; [reflexivity |].
  split; [reflexivity |]. split.
  - intros io. split; simpl; tauto.
  - intros f. unfold Tis.check_exposure, Tis._find_exposure_for_saturation.
    unfold Tis.State.dynamic_range, Tis.State.bit_depth. rewrite Hpf.
    cbv zeta.
    change (Tis.PIXEL_FORMAT_TO_BIT_DEPTH_MAP Tis.BayerGB16 =? 16) with true.
    change (2 ^ Tis.PIXEL_FORMAT_TO_BIT_DEPTH_MAP Tis.BayerGB16 - 1)
      with 65535.
    cbv iota.
    destruct (Tis.count_saturated f 65535 >? 100); reflexivity.
Qed.

Lemma tis_camera_is_always_16_bit_witness :
  Tis.bit_depth sample_tis_open = 16 /\
  Tis.bit_depth (Tis.toggle_bit_depth sample_tis_open) = 16 /\
  Tis.State.dynamic_range (Tis.state sample_tis_open) = 65535 /\
  Tis.shape sample_tis_open = [480; 640; 1] /\
  (forall io,
     In ("data type", EnviInt 12) (Tis.get_envi_options io sample_tis_open) /\
     In ("bit depth", EnviStr "16 bits")
        (Tis.get_envi_options io sample_tis_open)) /\
  (forall f,
     let sat := Tis.count_saturated f 65535 in
     let cur := Tis.State.current_exposure (Tis.state sample_tis_open) in
     let st1 :=
       if sat >? 100
       then Tis.State.set_max_exposure (cur - 1) (Tis.state sample_tis_open)
       else Tis.State.set_min_exposure (cur + 1) (Tis.state sample_tis_open)
     in
     Tis.check_exposure (Some f) sample_tis_open
     = (Ok ((Z.abs (sat - 100) <? 20)
            || (Z.abs (Tis.State.max_exposure st1
                       - Tis.State.min_exposure st1) <? 10)
            || (Z.abs (cur - (Tis.State.max_exposure st1
                              + Tis.State.min_exposure st1) / 2) <=? 20)),
        Tis.set_state st1 sample_tis_open)).
Proof.
  apply (tis_camera_is_always_16_bit (c := sample_tis_open)).
  apply (@tis_reach_other sample_tis);
    [| apply (tis_open io_timeout sample_tis)].
  apply (@tis_reach_init sample_world sample_tis
           (snd (Tis.__init__ sample_world))).
  reflexivity.
Defined.

(** ** The simulated backend never raises *)

Lemma mock_step_save_folder (m m' : Mock.MockCamera) :
  mock_step m m' -> Mock._save_folder m' = Mock._save_folder m.
Proof.
  intros H. destruct H; simpl; try reflexivity.
  - unfold Mock.get_frame. destruct (Mock._shape m) as [h wd].
    destruct (Mock._toggle_view m =? 0); [destruct wd | destruct h];
      reflexivity.
  - unfold Mock.set_exposure. destruct (_ || _); reflexivity.
  - unfold Mock.check_exposure.
    destruct (Mock._exposure m >? 10000); simpl;
      destruct (_ && _); reflexivity.
  - unfold Mock.set_save_subfolder. simpl.
    destruct (mkdir false _ w) as [r w']. reflexivity.
Qed.

Lemma mock_check_exposure_ok (f : option frame) (m : Mock.MockCamera) :
  exists b, fst (Mock.check_exposure f m) = Ok b.
Proof.
  unfold Mock.check_exposure. destruct (_ && _); eexists; reflexivity.
Qed.

(** A tick on a [MockCamera] returns: whatever [get_frame] raises is caught
    ([exception_type] is [Exception]), and [check_exposure] does not look
    at the frame. *)
Lemma mock_update_frame_ok (io : Io) (p : Gui.VideoPlayer Mock.MockCamera)
  (w : World) :
  fst (Gui.update_frame io (p, w)) = Ok tt.
Proof.
  destruct (Gui.running (Gui.state p)) eqn:Hrun;
    [| rewrite update_frame_guard by (rewrite Hrun; reflexivity);
       reflexivity].
  destruct (Gui.paused (Gui.state p)) eqn:Hpause;
    [rewrite update_frame_guard by (rewrite Hrun, Hpause; reflexivity);
     reflexivity |].
  rewrite update_frame_running by assumption.
  unfold bind at 1. rewrite adjust_step_eq.
  assert (Hrest : forall q : Gui.VideoPlayer Mock.MockCamera,
             fst ((frames <- Gui.pull_frame io ;;
                   Gui.show_step (snd frames) ;;
                   Gui.record_step io (fst frames) ;;
                   Gui.check_step (fst frames)) (q, w)) = Ok tt).
  { intros q. unfold bind at 1.
    destruct (mock_pull_frame io q w) as (f & v & m2 & -> & _).
    unfold bind at 1. rewrite show_step_eq.
    unfold bind at 1. rewrite record_step_eq.
    assert (Hchk : forall (q' : Gui.VideoPlayer Mock.MockCamera) w',
               fst (Gui.check_step f (q', w')) = Ok tt).
    { intros q' w'. rewrite check_step_eq.
      destruct (Gui.estimating_exposure (Gui.state q')); [| reflexivity].
      destruct (mock_check_exposure_ok f (Gui.camera q')) as [b Hb].
      change (check_exposure f (Gui.camera q'))
        with (Mock.check_exposure f (Gui.camera q')).
      destruct (Mock.check_exposure f (Gui.camera q')) as [r m3].
      simpl in Hb. subst r. reflexivity. }
    destruct (Gui.recording _); [destruct f |]; apply Hchk. }
  destruct (Gui.estimating_exposure (Gui.state p)); apply Hrest.
Qed.

Lemma is_dir_mkdir (parents : bool) (q p : Path) (w : World) :
  is_dir q (dirs w) = true ->
  is_dir q (dirs (snd (mkdir parents p w))) = true.
Proof.
  intros Hq.
  assert (Hadd : forall p0 l,
             is_dir q l = true -> is_dir q (add_dir p0 l) = true).
  { intros p0 l Hl. unfold add_dir. destruct (is_dir p0 l); [exact Hl |].
    unfold is_dir in *. simpl. rewrite Hl. apply orb_true_r. }
  assert (Hcons : is_dir q (p :: dirs w) = true).
  { unfold is_dir in *. simpl. rewrite Hq. apply orb_true_r. }
  unfold mkdir. destruct (is_dir p (dirs w)); [exact Hq |].
  destruct parents.
  - simpl. clear Hcons. revert Hq. generalize (dirs w).
    induction p as [a | p' IH a]; intros l Hl; simpl; auto.
  - destruct p as [a | p' a]; [exact Hcons |].
    destruct (is_dir p' (dirs w)); [exact Hcons | exact Hq].
Qed.

Lemma mock_toggle_recording_returns (io : Io)
  (pw : Gui.VideoPlayer Mock.MockCamera * World) :
  mock_session_ok pw -> fst (Gui.toggle_recording io pw) = Ok tt.
Proof.
  destruct pw as [p w]. intros [_ Hdir]. cbn [fst snd] in Hdir.
  rewrite toggle_recording_eq.
  destruct (negb _ || _); [reflexivity |].
  destruct (Gui.recording (Gui.state p)); [reflexivity |].
  cbv zeta. cbn [fst].
  change (set_save_subfolder (now_strftime io) (Gui.camera p, w))
    with (Mock.set_save_subfolder (now_strftime io) (Gui.camera p, w)).
  unfold Mock.set_save_subfolder, Mock.save_folder. simpl.
  pose proof (mkdir_child_ok (Mock._save_folder (Gui.camera p))
                (now_strftime io) w Hdir) as H.
  destruct (mkdir false _ w) as [r w']. simpl in *. tauto.
Qed.

Lemma mock_gui_step_ok (pw pw' : Gui.VideoPlayer Mock.MockCamera * World) :
  Gui.gui_step pw pw' -> mock_session_ok pw -> mock_session_ok pw'.
Proof.
  intros Hstep Hinv. destruct Hstep; destruct pw as [p w];
    unfold mock_session_ok in *; cbn [fst snd] in *;
    destruct Hinv as [Hfps Hdir].
  - assert (Hstep : forall m m', mock_step m m' ->
               Mock._save_folder m = Mock._save_folder (Gui.camera p) ->
               Mock._save_folder m' = Mock._save_folder (Gui.camera p)).
    { intros m m' Hm <-. apply mock_step_save_folder, Hm. }
    assert (Hchk : forall (b : bool) g,
               Gui.fps g = Gui.fps (Gui.state p) ->
               Gui.fps (Gui.after_check b g) = Gui.fps (Gui.state p)).
    { intros b g <-. unfold Gui.after_check.
      destruct (negb b && _); reflexivity. }
    destruct (@update_frame_inv Mock.MockCamera Mock.MockCamera_Camera
                (fun m => Mock._save_folder m = Mock._save_folder (Gui.camera p))
                (fun g => Gui.fps g = Gui.fps (Gui.state p))
                (fun io0 m => Hstep _ _ (mock_adjust_exposure io0 m))
                (fun io0 fps m => Hstep _ _ (mock_get_frame io0 fps m))
                (fun f m => Hstep _ _ (mock_check_exposure f m))
                (fun g Hg => Hg) Hchk
                io p w eq_refl eq_refl) as (HK & HG & Hw).
    rewrite HK, HG. split; [exact Hfps |].
    destruct Hw as [-> | (call & c & _ & _ & _ & ->)]; exact Hdir.
  - rewrite toggle_pausing_eq. cbn [fst snd].
    destruct (Gui.running (Gui.state p)); auto.
  - rewrite toggle_view_eq. cbn [fst snd].
    destruct (negb _ || _); auto.
  - rewrite toggle_bit_depth_eq. cbn [fst snd].
    destruct (negb _ || _ || _); auto.
  - rewrite toggle_recording_eq.
    destruct (negb _ || _); [auto |].
    destruct (Gui.recording (Gui.state p)); cbn [fst snd]; [auto |].
    split; [exact Hfps |].
    change (set_save_subfolder (now_strftime io) (Gui.camera p, w))
      with (Mock.set_save_subfolder (now_strftime io) (Gui.camera p, w)).
    unfold Mock.set_save_subfolder, Mock.save_folder. simpl.
    pose proof (@is_dir_mkdir false (Mock._save_folder (Gui.camera p))
                  (PathJoin (Mock._save_folder (Gui.camera p))
                     (now_strftime io)) w Hdir) as H.
    destruct (mkdir false _ w) as [r w']. exact H.
  - rewrite toggle_exposure_eq.
    destruct (negb _ || _ || _); [auto |].
    cbv zeta. destruct (Gui.fps (Gui.state p) =? 0); cbn [fst snd]; auto.
  - rewrite update_exposure_eq.
    destruct (negb _ || _); [auto |].
    cbv zeta. destruct v as [v |]; [| auto].
    destruct (snd (exposure_range (Gui.camera p)) =? 0);
      [destruct (exception_type _ _); auto |].
    match goal with
    | |- context [set_exposure io ?x (Gui.camera p)] =>
        pose proof (mock_step_save_folder
                      (mock_set_exposure io x (Gui.camera p))) as Hf;
        change (Mock.set_exposure io x (Gui.camera p))
          with (set_exposure io x (Gui.camera p)) in Hf;
        destruct (set_exposure io x (Gui.camera p)) as [[b | e] c]
    end; simpl in Hf.
    + cbn [fst snd Gui.camera Gui.set_camera Gui.state]. rewrite Hf. auto.
    + destruct (match e with ValueError _ => true | _ => _ end);
        cbn [fst snd Gui.camera Gui.set_camera Gui.state]; rewrite Hf; auto.
Qed.

Lemma mock_constructed_session_ok (w w' : World) (m : Mock.MockCamera)
  (camera_id : string) (fps : Z) :
  Mock.__init__ w = (Ok m, w') -> fps <> 0 ->
  mock_session_ok
    ({| Gui.camera := m; Gui.state := Gui.GuiState_init camera_id fps;
        Gui.current_image := None |}, w').
Proof.
  intros Hinit Hfps. split; [exact Hfps |]. cbn [fst snd Gui.camera].
  revert Hinit. unfold Mock.__init__.
  pose proof (mkdir_parents_ok (PathJoin (data_path w) "mock") w) as [Hok Hd].
  destruct (mkdir true (PathJoin (data_path w) "mock") w) as [r w1].
  simpl in Hok, Hd. subst r. intros H. inversion H; subst. exact Hd.
Qed.

(** X9. With the simulated backend no handler ever raises.  From a
    [MockCamera] as its constructor leaves it and a frame rate other than 0,
    over every sequence of handler calls and whatever the clock answers,
    every tick, every button and the exposure input return normally: an
    exception of [get_frame] is caught because [exception_type] is
    [Exception], [check_exposure] never reads the frame, the subfolder of a
    recording is made inside the data folder that the constructor created,
    and the exposure step 20 is not 0. *)
Theorem mock_session_never_raises
  (pw pw' : Gui.VideoPlayer Mock.MockCamera * World) :
  Gui.gui_steps pw pw' ->
  mock_session_ok pw ->
  (forall io, fst (Gui.update_frame io pw') = Ok tt) /\
  fst (Gui.toggle_pausing pw') = Ok tt /\
  fst (Gui.toggle_view pw') = Ok tt /\
  fst (Gui.toggle_bit_depth pw') = Ok tt /\
  (forall io, fst (Gui.toggle_recording io pw') = Ok tt) /\
  fst (Gui.toggle_exposure pw') = Ok tt /\
  (forall io lo hi v,
     exists r, fst (Gui.update_exposure io lo hi v pw') = Ok r) /\
  (forall w0 w m camera_id fps,
     Mock.__init__ w0 = (Ok m, w) -> fps <> 0 ->
     mock_session_ok
       ({| Gui.camera := m; Gui.state := Gui.GuiState_init camera_id fps;
           Gui.current_image := None |}, w)).
Proof.
  intros Hsteps Hinv.
  assert (Hinv' : mock_session_ok pw').
  { induction Hsteps as [pw | pw pw1 pw2 Hsteps IH Hstep]; [exact Hinv |].
    apply (mock_gui_step_ok Hstep). apply IH, Hinv. }
  clear Hsteps Hinv.
  split; [intros io; destruct pw'; apply mock_update_frame_ok |].
  split; [destruct pw'; rewrite toggle_pausing_eq; reflexivity |].
  split; [destruct pw'; rewrite toggle_view_eq; reflexivity |].
  split; [destruct pw'; rewrite toggle_bit_depth_eq; reflexivity |].
  split; [intros io; apply mock_toggle_recording_returns, Hinv' |].
  split; [| split; [| intros; eapply mock_constructed_session_ok; eauto]].
  - destruct pw' as [p w]. destruct Hinv' as [Hfps _]. cbn [fst snd] in Hfps.
    rewrite toggle_exposure_eq.
    destruct (negb _ || _ || _); [reflexivity |].
    cbv zeta. destruct (Z.eqb_spec (Gui.fps (Gui.state p)) 0);
      [contradiction | reflexivity].
  - intros io lo hi v. destruct pw' as [p w].
    rewrite update_exposure_eq.
    destruct (negb _ || _); [eexists; reflexivity |].
    cbv zeta. destruct v as [v |]; [| eexists; reflexivity].
    change (snd (exposure_range (Gui.camera p)) =? 0) with false. cbv iota.
    match goal with
    | |- context [set_exposure io ?x (Gui.camera p)] =>
        change (set_exposure io x (Gui.camera p))
          with (Mock.set_exposure io x (Gui.camera p))
    end.
    unfold Mock.set_exposure. destruct (_ || _); eexists; reflexivity.
Qed.

Lemma mock_session_never_raises_witness :
  (forall io,
     fst (Gui.update_frame io
            (snd (Gui.toggle_recording io_timeout
                    (running_player sample_mock "mock",
               snd (Mock.__init__ sample_world)))))
     = Ok tt) /\
  fst (Gui.toggle_exposure
         (snd (Gui.toggle_recording io_timeout
                 (running_player sample_mock "mock",
               snd (Mock.__init__ sample_world)))))
  = Ok tt.
Proof.
  destruct (@mock_session_never_raises
              (running_player sample_mock "mock",
               snd (Mock.__init__ sample_world))
              (snd (Gui.toggle_recording io_timeout
                      (running_player sample_mock "mock",
               snd (Mock.__init__ sample_world)))))
    as (Htick & _ & _ & _ & _ & Hexp & _).
  - eapply Gui.steps_more; [apply Gui.steps_none |].
    apply Gui.step_toggle_recording.
  - split; [discriminate | reflexivity].
  - split; [exact Htick | exact Hexp].
Defined.

(** ** The frames of the simulated backend *)

Lemma mock_step_shape_counter (m m' : Mock.MockCamera) :
  mock_step m m' ->
  Mock._shape m' = Mock._shape m /\
  (Mock._counter m' = Mock._counter m \/
   Mock._counter m' = Mock._counter m + 1).
Proof.
  intros H. destruct H; simpl; auto.
  - unfold Mock.get_frame. destruct (Mock._shape m) as [h wd] eqn:E.
    destruct (Mock._toggle_view m =? 0); [destruct wd | destruct h];
      simpl; rewrite ?E; auto.
  - unfold Mock.set_exposure. destruct (_ || _); simpl; auto.
  - unfold Mock.check_exposure.
    destruct (Mock._exposure m >? 10000); simpl;
      destruct (_ && _); simpl; auto.
  - unfold Mock.set_save_subfolder. simpl.
    destruct (mkdir false _ w) as [r w']. simpl. auto.
Qed.

(** From its construction on, a [MockCamera] keeps the shape 480 x 640 and
    counts its frames from 0 upwards. *)
Lemma mock_reachable_shape (m : Mock.MockCamera) :
  mock_reachable m ->
  Mock._shape m = (480%nat, 640%nat) /\ 0 <= Mock._counter m.
Proof.
  induction 1 as [w m w' Hinit | m m' Hreach IH Hstep].
  - apply mock_init_inv in Hinit. destruct Hinit as [-> _]. simpl.
    split; [reflexivity | lia].
  - apply mock_step_shape_counter in Hstep.
    destruct Hstep as [-> Hc]. split; [tauto | lia].
Qed.

Lemma bar_nth (n : nat) (x : Z) (j : nat) :
  (j < n)%nat ->
  nth j (Mock.bar n x) 0
  = if (x <=? Z.of_nat j) && (Z.of_nat j <? x + 5) then 1 else 0.
Proof.
  intros Hj. unfold Mock.bar.
  set (f := fun k : nat =>
              if (x <=? Z.of_nat k) && (Z.of_nat k <? x + 5) then 1 else 0).
  rewrite (nth_indep (map f (seq 0 n)) 0 (f O))
    by (rewrite length_map, length_seq; exact Hj).
  rewrite (map_nth f (seq 0 n) O j), seq_nth by exact Hj. reflexivity.
Qed.

Lemma repeat_nth {A} (a d : A) (n i : nat) :
  (i < n)%nat -> nth i (repeat a n) d = a.
Proof.
  revert i. induction n as [| n IH]; intros [| i] Hi; simpl; try lia; auto.
  apply IH. lia.
Qed.

(** The samples of a frame of any shape. *)
Lemma mock_get_frame_pixels (io : Io) (fps : Z) (m : Mock.MockCamera)
  (h w : nat) :
  Mock._shape m = (Datatypes.S h, Datatypes.S w) ->
  exists img,
    Mock.get_frame io fps m
    = (Ok (img, ViewArray img), Mock.set__counter (Mock._counter m + 1) m) /\
    frame_rect (Datatypes.S h) (Datatypes.S w) img /\
    forall i j : nat,
      (i < Datatypes.S h)%nat -> (j < Datatypes.S w)%nat ->
      nth j (nth i img []) 0
      = if Mock._toggle_view m =? 0
        then let x := Mock._counter m mod Z.of_nat (Datatypes.S w) in
             if (x <=? Z.of_nat j) && (Z.of_nat j <? x + 5) then 1 else 0
        else let y := Mock._counter m mod Z.of_nat (Datatypes.S h) in
             if (y <=? Z.of_nat i) && (Z.of_nat i <? y + 5) then 1 else 0.
Proof.
  intros Hshape. unfold Mock.get_frame. rewrite Hshape.
  destruct (Mock._toggle_view m =? 0); eexists; (split; [reflexivity |]);
    cbv zeta.
  - split.
    + split; [apply repeat_length |].
      apply Forall_forall. intros r Hin. apply repeat_spec in Hin. subst r.
      unfold Mock.bar. rewrite length_map, length_seq. reflexivity.
    + intros i j Hi Hj. rewrite repeat_nth by exact Hi.
      rewrite bar_nth by exact Hj. reflexivity.
  - split.
    + split; [unfold Mock.bar; rewrite !length_map, length_seq; reflexivity |].
      apply Forall_forall. intros r Hin. apply in_map_iff in Hin.
      destruct Hin as [v [<- _]]. apply repeat_length.
    + intros i j Hi Hj.
      rewrite (nth_indep _ [] (repeat 0 (Datatypes.S w)))
        by (rewrite length_map; unfold Mock.bar;
            rewrite length_map, length_seq; exact Hi).
      rewrite (map_nth (fun v => repeat v (Datatypes.S w))).
      rewrite repeat_nth by exact Hj. rewrite bar_nth by exact Hi.
      reflexivity.
Qed.

(** X10. What the simulated camera delivers.  In every state a
    [MockCamera] can reach, [get_frame] returns, the raw frame and the
    display frame are the same array of 480 rows of 640 samples (the
    [lines] and [samples] of its ENVI header), the counter is one higher and
    nothing else has changed, and each sample is 0 or 1: with the view flag 0
    the sample in row [i], column [j] is 1 exactly when
    [x <= j < x + 5] for [x = counter mod 640] (a vertical bar, cut at the
    right edge rather than wrapped), with the view flag 1 exactly when
    [y <= i < y + 5] for [y = counter mod 480] (a horizontal bar).  The
    frame depends neither on the frame rate nor on the exposure or the bit
    depth. *)
Theorem mock_frame_is_a_moving_bar
  (io : Io) (fps : Z) (m : Mock.MockCamera) :
  mock_reachable m ->
  exists img,
    Mock.get_frame io fps m
    = (Ok (img, ViewArray img), Mock.set__counter (Mock._counter m + 1) m) /\
    frame_rect 480 640 img /\
    In ("lines", EnviInt 480) (Mock.get_envi_options io m) /\
    In ("samples", EnviInt 640) (Mock.get_envi_options io m) /\
    forall i j : nat,
      (i < 480)%nat -> (j < 640)%nat ->
      nth j (nth i img []) 0
      = if Mock._toggle_view m =? 0
        then let x := Mock._counter m mod 640 in
             if (x <=? Z.of_nat j) && (Z.of_nat j <? x + 5) then 1 else 0
        else let y := Mock._counter m mod 480 in
             if (y <=? Z.of_nat i) && (Z.of_nat i <? y + 5) then 1 else 0.
Proof.
  intros Hreach. destruct (mock_reachable_shape Hreach) as [Hshape _].
  destruct (@mock_get_frame_pixels io fps m 479 639 Hshape)
    as (img & Hget & Hrect & Hpix).
  exists img. split; [exact Hget |]. split; [exact Hrect |].
  unfold Mock.get_envi_options. rewrite Hshape.
  split; [right; left; reflexivity |]. split; [left; reflexivity |].
  exact Hpix.
Qed.

Lemma mock_frame_is_a_moving_bar_witness :
  exists img,
    Mock.get_frame io_timeout 30 sample_mock
    = (Ok (img, ViewArray img),
       Mock.set__counter (Mock._counter sample_mock + 1) sample_mock) /\
    frame_rect 480 640 img /\
    In ("lines", EnviInt 480) (Mock.get_envi_options io_timeout sample_mock) /\
    In ("samples", EnviInt 640)
       (Mock.get_envi_options io_timeout sample_mock) /\
    forall i j : nat,
      (i < 480)%nat -> (j < 640)%nat ->
      nth j (nth i img []) 0
      = if Mock._toggle_view sample_mock =? 0
        then let x := Mock._counter sample_mock mod 640 in
             if (x <=? Z.of_nat j) && (Z.of_nat j <? x + 5) then 1 else 0
        else let y := Mock._counter sample_mock mod 480 in
             if (y <=? Z.of_nat i) && (Z.of_nat i <? y + 5) then 1 else 0.
Proof.
  apply (@mock_frame_is_a_moving_bar io_timeout 30 sample_mock).
  apply (@mock_constructed sample_world sample_mock
           (snd (Mock.__init__ sample_world))).
  reflexivity.
Defined.

(** ** The exposure input *)

Lemma slider_value_bounds (lo hi step v : Z) :
  lo <= hi -> 0 < step ->
  slider_value lo hi step v mod step = 0 /\
  lo - step < slider_value lo hi step v <= hi /\
  (lo <= v <= hi -> v - step < slider_value lo hi step v <= v).
Proof.
  intros Hrange Hstep. unfold slider_value.
  set (c := if (if v >? hi then hi else v) <? lo
            then lo else if v >? hi then hi else v).
  assert (Hc : lo <= c <= hi /\ (lo <= v <= hi -> c = v)).
  { unfold c. destruct (Z.gtb_spec v hi);
      match goal with |- context [?a <? lo] => destruct (Z.ltb_spec a lo) end;
      lia. }
  pose proof (Z.mod_pos_bound c step Hstep) as Hm.
  split; [| split; [lia |]].
  - rewrite Zminus_mod_idemp_r, Z.sub_diag. apply Z.mod_0_l. lia.
  - intros Hv. destruct Hc as [_ Hc]. rewrite (Hc Hv) in *. lia.
Qed.

(** X11. What [update_exposure] publishes, on every backend.  In a running,
    unpaused session with a slider range [lo <= hi] and a positive exposure
    step, an entered integer is brought into the slider range and then
    rounded down to a multiple of the step: the value handed to
    [set_exposure] is a multiple of the step, at most [hi] and above
    [lo - step], so it can lie below the minimum of the slider when that
    minimum is not itself a multiple.  The handler writes that value to the
    widgets when [set_exposure] returns, whatever boolean it returns; it
    writes the exposure of the camera instead when the text was no integer
    or when [set_exposure] raised an exception of the announced class or a
    [ValueError]; any other exception leaves the handler.  The session state,
    the picture on screen and the world stay as they were. *)
Theorem update_exposure_publishes_rounded_value
  (S : Type) (cam : Camera S) (io : Io) (lo hi : Z) (v : option Z)
  (p : Gui.VideoPlayer S) (w : World) :
  Gui.running (Gui.state p) = true ->
  Gui.paused (Gui.state p) = false ->
  lo <= hi ->
  0 < snd (exposure_range (Gui.camera p)) ->
  let step := snd (exposure_range (Gui.camera p)) in
  let res := Gui.update_exposure io lo hi v (p, w) in
  Gui.state (fst (snd res)) = Gui.state p /\
  Gui.current_image (fst (snd res)) = Gui.current_image p /\
  snd (snd res) = w /\
  match v with
  | None =>
      fst res = Ok (Some (exposure (Gui.camera p))) /\
      Gui.camera (fst (snd res)) = Gui.camera p
  | Some v =>
      let r := slider_value lo hi step v in
      r mod step = 0 /\ lo - step < r <= hi /\
      (lo <= v <= hi -> v - step < r <= v) /\
      Gui.camera (fst (snd res)) = snd (set_exposure io r (Gui.camera p)) /\
      match fst (set_exposure io r (Gui.camera p)) with
      | Ok _ => fst res = Ok (Some r)
      | Raise e =>
          if match e with
             | ValueError _ => true
             | _ => exception_type (snd (set_exposure io r (Gui.camera p))) e
             end
          then fst res
               = Ok (Some (exposure (snd (set_exposure io r (Gui.camera p)))))
          else fst res = Raise e
      end
  end.
Proof.
  intros Hrun Hpause Hrange Hstep step res. subst res.
  rewrite update_exposure_eq, Hrun, Hpause. cbn [negb orb]. cbv zeta.
  destruct v as [v |]; [| cbn [fst snd]; auto].
  fold step. destruct (Z.eqb_spec step 0) as [H0 | _]; [lia |].
  destruct (@slider_value_bounds lo hi step v Hrange Hstep)
    as (Hmod & Hb & Hv).
  destruct (set_exposure io (slider_value lo hi step v) (Gui.camera p))
    as [[b | e] c]; cbn [fst snd].
  - repeat split; auto; lia.
  - destruct (match e with ValueError _ => true | _ => exception_type c e end);
      cbn [fst snd]; repeat split; auto; lia.
Qed.

Lemma update_exposure_publishes_rounded_value_witness :
  fst (Gui.update_exposure io_timeout 15000 33333 (Some 15000)
         (running_player sample_tis_open "tis", sample_world))
  = Ok (Some 10000) /\
  Tis.exposure
    (Gui.camera
       (fst (snd (Gui.update_exposure io_timeout 15000 33333 (Some 15000)
                    (running_player sample_tis_open "tis", sample_world)))))
  = 10000000.
Proof.
  destruct (@update_exposure_publishes_rounded_value Tis.TisCamera _
              io_timeout 15000 33333 (Some 15000)
              (running_player sample_tis_open "tis") sample_world
              eq_refl eq_refl)
    as (_ & _ & _ & _ & _ & _ & Hcam & Hres).
  - lia.
  - reflexivity.
  - split; [exact Hres | rewrite Hcam; reflexivity].
Defined.

(** ** The folder of a recording *)

Section RunInvariant.

Context {S : Type} {cam : Camera S}.

Variable K : S -> Prop.

Hypothesis K_adjust : forall io c, K c -> K (snd (adjust_exposure io c)).
Hypothesis K_get_frame : forall io fps c, K c -> K (snd (get_frame io fps c)).
Hypothesis K_check : forall f c, K c -> K (snd (check_exposure f c)).

(** Over a run of ticks a property of the camera that the tick's methods
    keep holds of the camera behind every call of the serializer. *)
Lemma run_ticks_inv (ios : list Io) :
  forall (p : Gui.VideoPlayer S) (w : World),
    K (Gui.camera p) ->
    exists calls,
      saved (snd (snd (Gui.run_ticks ios (p, w)))) = (saved w ++ calls)%list /\
      Forall (fun call => exists c, K c /\ sc_save_folder call = save_folder c)
        calls.
Proof.
  induction ios as [| io rest IH]; intros p w HK.
  - exists []. simpl. rewrite app_nil_r. split; [reflexivity | constructor].
  - destruct (@update_frame_inv S cam K (fun _ => True)
                K_adjust K_get_frame K_check (fun _ _ => I) (fun _ _ _ => I)
                io p w HK I) as (HK1 & _ & Hw).
    simpl Gui.run_ticks. unfold bind.
    destruct (Gui.update_frame io (p, w)) as [[[] | e] [p1 w1]];
      cbn [fst snd] in HK1, Hw.
    + destruct (IH p1 w1 HK1) as (calls & Hs & Hall).
      destruct Hw as [-> | (call & c & Hc & _ & Hcall & ->)].
      * exists calls. split; [exact Hs | exact Hall].
      * exists (call :: calls). rewrite Hs. simpl. rewrite <- app_assoc.
        split; [reflexivity |]. constructor; [| exact Hall].
        exists c. split; [exact Hc | exact Hcall].
    + destruct Hw as [-> | (call & c & Hc & _ & Hcall & ->)].
      * exists []. simpl. rewrite app_nil_r.
        split; [reflexivity | constructor].
      * exists [call]. simpl. split; [reflexivity |].
        constructor; [| constructor]. exists c. auto.
Qed.

End RunInvariant.

Lemma mock_tick_methods_save_folder (m : Mock.MockCamera) :
  (forall io, Mock.save_folder (snd (Mock.adjust_exposure io m))
              = Mock.save_folder m) /\
  (forall io fps, Mock.save_folder (snd (Mock.get_frame io fps m))
                  = Mock.save_folder m) /\
  (forall f, Mock.save_folder (snd (Mock.check_exposure f m))
             = Mock.save_folder m).
Proof.
  split; [reflexivity |]. split.
  - intros io fps. unfold Mock.get_frame.
    destruct (Mock._shape m) as [h wd].
    destruct (Mock._toggle_view m =? 0); [destruct wd | destruct h];
      reflexivity.
  - intros f. unfold Mock.check_exposure.
    destruct (Mock._exposure m >? 10000); simpl;
      destruct (_ && _); reflexivity.
Qed.

Lemma mock_set_save_subfolder_folder (sub : string) (m : Mock.MockCamera)
  (w : World) :
  Mock.save_folder (fst (snd (Mock.set_save_subfolder sub (m, w))))
  = Some (PathJoin (Mock._save_folder m) sub) /\
  saved (snd (snd (Mock.set_save_subfolder sub (m, w)))) = saved w.
Proof.
  unfold Mock.set_save_subfolder, Mock.save_folder. simpl.
  pose proof (mkdir_frame false (PathJoin (Mock._save_folder m) sub) w) as H.
  destruct (mkdir false _ w) as [r w']. simpl in *. tauto.
Qed.

(** X12. The frames of one recording land in one folder, named by the time
    the recording was started.  On a [TisCamera] and on a [MockCamera]
    alike: when the record button starts a recording at the clock reading
    [now_strftime io0], every call the serializer receives during the ticks
    that follow carries the folder [save_folder / timestamp] of that
    reading, whatever the device answers on those ticks, whether or not the
    directory could be made, and up to a tick that raises. *)
Theorem recording_lands_in_timestamp_folder (io0 : Io) (ios : list Io) :
  (forall (p : Gui.VideoPlayer Tis.TisCamera) (w : World),
     Gui.running (Gui.state p) = true ->
     Gui.paused (Gui.state p) = false ->
     Gui.recording (Gui.state p) = false ->
     exists calls,
       saved (snd (snd (Gui.run_ticks ios
                          (snd (Gui.toggle_recording io0 (p, w))))))
       = (saved w ++ calls)%list /\
       Forall (fun call =>
                 sc_save_folder call
                 = Some (PathJoin
                           (Tis.State.save_folder (Tis.state (Gui.camera p)))
                           (now_strftime io0))) calls) /\
  (forall (p : Gui.VideoPlayer Mock.MockCamera) (w : World),
     Gui.running (Gui.state p) = true ->
     Gui.paused (Gui.state p) = false ->
     Gui.recording (Gui.state p) = false ->
     exists calls,
       saved (snd (snd (Gui.run_ticks ios
                          (snd (Gui.toggle_recording io0 (p, w))))))
       = (saved w ++ calls)%list /\
       Forall (fun call =>
                 sc_save_folder call
                 = Some (PathJoin (Mock._save_folder (Gui.camera p))
                           (now_strftime io0))) calls).
Proof.
  split; intros p w Hrun Hpause Hrec;
    rewrite toggle_recording_eq, Hrun, Hpause, Hrec; cbn [negb orb];
    cbv zeta; cbn [snd].
  - destruct (tis_set_save_subfolder_folder (now_strftime io0)
                (Gui.camera p) w) as [Hf Hs].
    change (set_save_subfolder (now_strftime io0) (Gui.camera p, w))
      with (Tis.set_save_subfolder (now_strftime io0) (Gui.camera p, w)).
    destruct (@run_ticks_inv Tis.TisCamera Tis.TisCamera_Camera
                (fun c => Tis.save_folder c
                          = Some (PathJoin
                                    (Tis.State.save_folder
                                       (Tis.state (Gui.camera p)))
                                    (now_strftime io0)))
                (fun io c Hc =>
                   eq_trans (tis_step_other_save_folder
                               (tis_adjust_exposure io c)) Hc)
                (fun io fps c Hc =>
                   eq_trans (tis_step_other_save_folder
                               (tis_get_frame io fps c)) Hc)
                (fun f c Hc =>
                   eq_trans (tis_step_other_save_folder
                               (tis_check_exposure f c)) Hc)
                ios
                (Gui.set_camera
                   (fst (snd (Tis.set_save_subfolder (now_strftime io0)
                                (Gui.camera p, w))))
                   (Gui.set_state
                      (Gui.set_frame_counter 0
                         (Gui.set_recording true (Gui.state p))) p))
                (snd (snd (Tis.set_save_subfolder (now_strftime io0)
                             (Gui.camera p, w))))
                Hf) as (calls & Hsaved & Hall).
    exists calls. rewrite Hsaved, Hs. split; [reflexivity |].
    apply Forall_impl with (2 := Hall).
    intros call (c & Hc & Hcall). rewrite Hcall. exact Hc.
  - destruct (mock_set_save_subfolder_folder (now_strftime io0)
                (Gui.camera p) w) as [Hf Hs].
    change (set_save_subfolder (now_strftime io0) (Gui.camera p, w))
      with (Mock.set_save_subfolder (now_strftime io0) (Gui.camera p, w)).
    destruct (@run_ticks_inv Mock.MockCamera Mock.MockCamera_Camera
                (fun m => Mock.save_folder m
                          = Some (PathJoin (Mock._save_folder (Gui.camera p))
                                    (now_strftime io0)))
                (fun io m Hm =>
                   eq_trans (proj1 (mock_tick_methods_save_folder m) io) Hm)
                (fun io fps m Hm =>
                   eq_trans
                     (proj1 (proj2 (mock_tick_methods_save_folder m)) io fps)
                     Hm)
                (fun f m Hm =>
                   eq_trans
                     (proj2 (proj2 (mock_tick_methods_save_folder m)) f) Hm)
                ios
                (Gui.set_camera
                   (fst (snd (Mock.set_save_subfolder (now_strftime io0)
                                (Gui.camera p, w))))
                   (Gui.set_state
                      (Gui.set_frame_counter 0
                         (Gui.set_recording true (Gui.state p))) p))
                (snd (snd (Mock.set_save_subfolder (now_strftime io0)
                             (Gui.camera p, w))))
                Hf) as (calls & Hsaved & Hall).
    exists calls. rewrite Hsaved, Hs. split; [reflexivity |].
    apply Forall_impl with (2 := Hall).
    intros call (c & Hc & Hcall). rewrite Hcall. exact Hc.
Qed.

Lemma recording_lands_in_timestamp_folder_witness :
  exists calls,
    saved (snd (snd (Gui.run_ticks [io_deliver [[0; 65535]]; io_timeout;
                                    io_deliver [[7; 9]]]
                       (snd (Gui.toggle_recording io_timeout
                               (running_player sample_tis_open "tis",
                                sample_world))))))
    = (saved sample_world ++ calls)%list /\
    Forall (fun call =>
              sc_save_folder call
              = Some (PathJoin
                        (Tis.State.save_folder
                           (Tis.state
                              (Gui.camera
                                 (running_player sample_tis_open "tis"))))
                        (now_strftime io_timeout))) calls.
Proof.
  apply (proj1 (recording_lands_in_timestamp_folder io_timeout
                  [io_deliver [[0; 65535]]; io_timeout;
                   io_deliver [[7; 9]]])
           (running_player sample_tis_open "tis") sample_world);
    reflexivity.
Defined.

(** ** Starting and stopping *)

Section RegistryConstructors.

Variable XimeaCamera : Type.
Variable XimeaCamera__init__ : M World XimeaCamera.

(** For the two backends at hand the registry runs the constructors that
    [toggle_running] is given below. *)
Lemma camera_runs_construct (w : World) :
  camera XimeaCamera__init__ (value MOCK) w
  = (m <- construct_mock ;; ret (IsMockCamera m)) w /\
  camera XimeaCamera__init__ (value TIS) w
  = (t <- construct_tis ;; ret (IsTisCamera t)) w.
Proof.
  split.
  - reflexivity.
  - unfold camera, construct_tis, bind, ret. simpl.
    destruct (import_module tis_interface w) as [[[] | e] w1]; reflexivity.
Qed.

End RegistryConstructors.

Section Running.

Context {S : Type} {cam : Camera S}.

Implicit Types (p : Gui.VideoPlayer S) (w : World) (io : Io).

(** [setup_exposure_slider] is called while [running] is still false, so
    the [update_exposure] it may call returns at once. *)
Lemma setup_exposure_slider_stopped io (exposure_val : Z) p w :
  Gui.running (Gui.state p) = false ->
  Gui.setup_exposure_slider io exposure_val (p, w)
  = if Gui.fps (Gui.state p) =? 0
    then (Raise ZeroDivisionError, (p, w))
    else (Ok tt, (p, w)).
Proof.
  intros Hrun. unfold Gui.setup_exposure_slider, Gui.read, gets, raise.
  unfold bind at 1. cbn [fst snd]. unfold bind at 1. cbn [fst snd].
  destruct (Gui.fps (Gui.state p) =? 0); [reflexivity |].
  cbv zeta. destruct (_ || _); [| reflexivity].
  unfold bind. rewrite update_exposure_eq, Hrun. reflexivity.
Qed.

Lemma toggle_running_eq (construct : M World S) io p w :
  Gui.toggle_running construct io (p, w)
  = if Gui.running (Gui.state p)
    then match close io (Gui.camera p) with
         | (Ok _, c) =>
             (Ok tt, (Gui.set_state (toggled p) (Gui.set_camera c p), w))
         | (Raise e, c) => (Raise e, (Gui.set_camera c p, w))
         end
    else match construct w with
         | (Raise e, w1) =>
             if exception_type (Gui.camera p) e
             then (Ok tt, (p, w1)) else (Raise e, (p, w1))
         | (Ok c0, w1) =>
             match open io c0 with
             | (Raise e, c1) =>
                 if exception_type c1 e
                 then (Ok tt, (Gui.set_camera c1 p, w1))
                 else (Raise e, (Gui.set_camera c1 p, w1))
             | (Ok _, c1) =>
                 if Gui.fps (Gui.state p) =? 0
                 then (Raise ZeroDivisionError, (Gui.set_camera c1 p, w1))
                 else (Ok tt,
                       (Gui.set_state (toggled p) (Gui.set_camera c1 p), w1))
             end
         end.
Proof.
  unfold Gui.toggle_running, Gui.read, Gui.write, Gui.on_camera, gets,
    modify, bind, try_except, zoom, ret.
  cbn [fst snd].
  destruct (Gui.running (Gui.state p)) eqn:Hrun; cbn [negb fst snd].
  - destruct (close io (Gui.camera p)) as [[[] | e] c]; [| reflexivity].
    unfold toggled. cbn. rewrite Hrun. reflexivity.
  - destruct (construct w) as [[c0 | e] w1]; cbn [fst snd].
    + cbn [Gui.camera Gui.set_camera].
      destruct (open io c0) as [[[] | e] c1];
        cbn [fst snd Gui.camera Gui.set_camera].
      * rewrite setup_exposure_slider_stopped by exact Hrun.
        cbn [Gui.state Gui.set_camera].
        destruct (Gui.fps (Gui.state p) =? 0); [reflexivity |].
        unfold toggled. cbn. rewrite Hrun. reflexivity.
      * destruct (exception_type c1 e); reflexivity.
    + destruct (exception_type (Gui.camera p) e); reflexivity.
Qed.

End Running.

Section Restart.

Context {S : Type} {cam : Camera S}.

Implicit Types (p : Gui.VideoPlayer S) (w : World) (io : Io).

(** A tick of a running, unpaused, recording session outside a search, when
    the frame is delivered. *)
Lemma update_frame_recording_tick io p w (f : frame) (v : frame_view)
  (c2 : S) :
  Gui.running (Gui.state p) = true ->
  Gui.paused (Gui.state p) = false ->
  Gui.recording (Gui.state p) = true ->
  Gui.estimating_exposure (Gui.state p) = false ->
  get_frame io (Gui.fps (Gui.state p)) (Gui.camera p) = (Ok (f, v), c2) ->
  Gui.update_frame io (p, w)
  = (Ok tt,
     (Gui.set_state
        (Gui.set_frame_counter (Gui.frame_counter (Gui.state p) + 1)
           (Gui.state p))
        (Gui.set_current_image (Some v) (Gui.set_camera c2 p)),
      set_saved
        (saved w ++
         [{| sc_frame := f;
             sc_save_folder := save_folder c2;
             sc_filename_stem :=
               "frame_" ++ format_04d (Gui.frame_counter (Gui.state p));
             sc_envi_options := get_envi_options io c2;
             sc_fmt := Gui.recording_format (Gui.state p) |}])%list w)).
Proof.
  intros Hrun Hpause Hrec Hest Hget.
  rewrite update_frame_running by assumption.
  unfold bind at 1. rewrite adjust_step_eq, Hest.
  unfold bind at 1. rewrite pull_frame_eq, Hget. cbn [fst snd].
  unfold bind at 1. rewrite show_step_eq.
  unfold bind at 1. rewrite record_step_eq. cbn [Gui.shown].
  cbn [Gui.state Gui.set_current_image Gui.set_camera Gui.camera].
  rewrite Hrec. rewrite check_step_eq.
  cbn [Gui.state Gui.set_state Gui.estimating_exposure
       Gui.set_frame_counter].
  rewrite Hest. reflexivity.
Qed.

(** Stopping and starting again while recording: [toggle_running] writes
    [running] and [paused] only, so the session still records and goes on
    counting, on the camera that the start has constructed. *)
Lemma recording_survives_restart (construct : M World S) io1 io2 io3 p w
  (cs c0 c1 c2 : S) (w1 : World) (f : frame) (v : frame_view) :
  Gui.running (Gui.state p) = true ->
  Gui.recording (Gui.state p) = true ->
  Gui.estimating_exposure (Gui.state p) = false ->
  Gui.fps (Gui.state p) <> 0 ->
  close io1 (Gui.camera p) = (Ok tt, cs) ->
  construct w = (Ok c0, w1) ->
  open io2 c0 = (Ok tt, c1) ->
  get_frame io3 (Gui.fps (Gui.state p)) c1 = (Ok (f, v), c2) ->
  let res := (Gui.toggle_running construct io1 ;;
              Gui.toggle_running construct io2 ;;
              Gui.update_frame io3) (p, w) in
  fst res = Ok tt /\
  Gui.camera (fst (snd res)) = c2 /\
  Gui.running (Gui.state (fst (snd res))) = true /\
  Gui.recording (Gui.state (fst (snd res))) = true /\
  Gui.frame_counter (Gui.state (fst (snd res)))
  = Gui.frame_counter (Gui.state p) + 1 /\
  saved (snd (snd res))
  = (saved w1 ++
     [{| sc_frame := f;
         sc_save_folder := save_folder c2;
         sc_filename_stem :=
           "frame_" ++ format_04d (Gui.frame_counter (Gui.state p));
         sc_envi_options := get_envi_options io3 c2;
         sc_fmt := Gui.recording_format (Gui.state p) |}])%list.
Proof.
  intros Hrun Hrec Hest Hfps Hclose Hcons Hopen Hget res.
  assert (E : exists p' w',
             res = (Ok tt, (p', w')) /\
             Gui.camera p' = c2 /\
             Gui.state p'
             = Gui.set_frame_counter (Gui.frame_counter (Gui.state p) + 1)
                 (Gui.set_running true (Gui.set_paused false
                    (Gui.set_running false (Gui.set_paused false
                       (Gui.state p))))) /\
             saved w'
             = (saved w1 ++
                [{| sc_frame := f;
                    sc_save_folder := save_folder c2;
                    sc_filename_stem :=
                      "frame_"
                      ++ format_04d (Gui.frame_counter (Gui.state p));
                    sc_envi_options := get_envi_options io3 c2;
                    sc_fmt := Gui.recording_format (Gui.state p) |}])%list).
  { subst res. eexists _, _. split; [| split; [| split]].
    - unfold bind at 1. rewrite toggle_running_eq, Hrun, Hclose.
      cbv beta iota.
      unfold bind at 1. rewrite toggle_running_eq.
      cbn [Gui.state Gui.set_state Gui.set_camera Gui.camera toggled
           Gui.running Gui.set_running Gui.fps Gui.set_paused].
      rewrite Hrun. cbn [negb].
      rewrite Hcons, Hopen.
      destruct (Z.eqb_spec (Gui.fps (Gui.state p)) 0) as [H0 | _];
        [contradiction |].
      cbv beta iota.
      apply update_frame_recording_tick with (v := v);
        cbn [Gui.state Gui.set_state Gui.camera Gui.set_camera toggled
             Gui.running Gui.paused Gui.recording Gui.estimating_exposure
             Gui.fps Gui.set_running Gui.set_paused];
        rewrite ?Hrun; try eassumption; reflexivity.
    - reflexivity.
    - unfold toggled. cbn. rewrite Hrun. reflexivity.
    - reflexivity. }
  destruct E as (p' & w' & -> & Hc & Hs & Hw). cbn [fst snd].
  rewrite Hc, Hs, Hw. cbn. repeat split; auto.
Qed.

End Restart.

(** ** Opening and closing a [TisCamera] *)

(** [open] returns only when the SDK accepted every call; it then has
    installed a sink and written pixel format, width, height and exposure,
    in this order; the dataclass is untouched whatever happens. *)
Lemma tis_open_outcomes (io : Io) (c : Tis.TisCamera) :
  Tis.state (snd (Tis.open io c)) = Tis.state c /\
  match fst (Tis.open io c) with
  | Ok _ =>
      devices io <> O /\ device_open_ok io = true /\
      set_value_ok io = true /\ stream_setup_ok io = true /\
      Tis.sink (snd (Tis.open io c)) = Some tt /\
      Tis.device_property_map (Tis.grabber (snd (Tis.open io c)))
      = ([(Tis.EXPOSURE_TIME,
           Tis.PropInt (Tis.State.current_exposure (Tis.state c)));
          (Tis.HEIGHT, Tis.PropInt 480);
          (Tis.WIDTH, Tis.PropInt 640);
          (Tis.PIXEL_FORMAT, Tis.PropFormat Tis.BayerGB16)]
         ++ Tis.device_property_map (Tis.grabber c))%list
  | Raise IndexError => devices io = O /\ snd (Tis.open io c) = c
  | Raise IC4Exception =>
      devices io <> O /\
      (device_open_ok io = false \/ set_value_ok io = false \/
       stream_setup_ok io = false) /\
      (Tis.sink (snd (Tis.open io c)) = Tis.sink c \/
       stream_setup_ok io = false)
  | Raise _ => False
  end.
Proof.
  unfold Tis.open. destruct (devices io) as [| n]; [simpl; auto |].
  unfold bind, Tis.sdk_call, Tis.set_value, gets, modify, ret, raise.
  destruct (device_open_ok io); [| simpl; auto 6].
  destruct (set_value_ok io); [| simpl; auto 6]. simpl.
  destruct (stream_setup_ok io); simpl.
  - repeat split; auto.
  - auto 6.
Qed.

Lemma tis_close_outcomes (io : Io) (c : Tis.TisCamera) :
  snd (Tis.close io c) = c /\
  fst (Tis.close io c)
  = if stream_stop_ok io && device_close_ok io
    then Ok tt else Raise IC4Exception.
Proof.
  unfold Tis.close, bind, Tis.sdk_call, ret, raise.
  destruct (stream_stop_ok io); [| auto].
  destruct (device_close_ok io); auto.
Qed.

Lemma construct_tis_fresh (w w1 : World) (c0 : Tis.TisCamera) :
  construct_tis w = (Ok c0, w1) ->
  Tis.save_folder c0 = None /\ Tis.sink c0 = None /\
  Tis.State.current_exposure (Tis.state c0) = 500 /\
  saved w1 = saved w.
Proof.
  unfold construct_tis, bind, import_module.
  assert (Hinit : forall x, Tis.__init__ x = (Ok c0, w1) ->
            Tis.save_folder c0 = None /\ Tis.sink c0 = None /\
            Tis.State.current_exposure (Tis.state c0) = 500 /\
            saved w1 = saved x).
  { intros x. unfold Tis.__init__.
    pose proof (mkdir_frame false (data_path x) x) as (Hs1 & _).
    destruct (mkdir false (data_path x) x) as [[[] | e] x1];
      [| discriminate].
    pose proof (mkdir_frame false (PathJoin (data_path x) "tis") x1)
      as (Hs2 & _).
    destruct (mkdir false (PathJoin (data_path x) "tis") x1)
      as [[[] | e] x2]; [| discriminate].
    simpl in Hs1, Hs2. intros H. inversion H; subst.
    repeat split; try reflexivity. congruence. }
  destruct (existsb (String.eqb tis_interface) (sys_modules w));
    [apply Hinit |].
  destruct (existsb (String.eqb tis_interface) (importable w));
    [| discriminate].
  intros H. apply Hinit in H. exact H.
Qed.

(** ** A recording across a stop and a start *)

(** X13. Stopping does not end a recording.  [toggle_running] writes
    [running] and [paused] only, so a session that is stopped while it
    records and started again still records and goes on counting from where
    it was, but on a camera that the start has newly constructed and that
    was never given a subfolder.  On a [TisCamera] the first frame delivered
    after the restart is handed to the serializer with no folder at all; on
    a [MockCamera] it goes to the data folder itself instead of the
    subfolder of the recording. *)
Theorem stop_does_not_end_a_recording (io1 io2 io3 : Io) :
  (forall (p : Gui.VideoPlayer Tis.TisCamera) (w w1 : World)
          (c0 : Tis.TisCamera) (f : frame),
     Gui.running (Gui.state p) = true ->
     Gui.recording (Gui.state p) = true ->
     Gui.estimating_exposure (Gui.state p) = false ->
     Gui.fps (Gui.state p) <> 0 ->
     stream_stop_ok io1 = true -> device_close_ok io1 = true ->
     construct_tis w = (Ok c0, w1) ->
     fst (Tis.open io2 c0) = Ok tt ->
     snap_single io3 = Some f ->
     let res := (Gui.toggle_running construct_tis io1 ;;
                 Gui.toggle_running construct_tis io2 ;;
                 Gui.update_frame io3) (p, w) in
     fst res = Ok tt /\
     Gui.recording (Gui.state (fst (snd res))) = true /\
     Gui.frame_counter (Gui.state (fst (snd res)))
     = Gui.frame_counter (Gui.state p) + 1 /\
     exists call,
       saved (snd (snd res)) = (saved w ++ [call])%list /\
       sc_frame call = f /\
       sc_save_folder call = None /\
       sc_filename_stem call
       = "frame_" ++ format_04d (Gui.frame_counter (Gui.state p))) /\
  (forall (p : Gui.VideoPlayer Mock.MockCamera) (w : World),
     Gui.running (Gui.state p) = true ->
     Gui.recording (Gui.state p) = true ->
     Gui.estimating_exposure (Gui.state p) = false ->
     Gui.fps (Gui.state p) <> 0 ->
     let res := (Gui.toggle_running construct_mock io1 ;;
                 Gui.toggle_running construct_mock io2 ;;
                 Gui.update_frame io3) (p, w) in
     fst res = Ok tt /\
     Gui.recording (Gui.state (fst (snd res))) = true /\
     Gui.frame_counter (Gui.state (fst (snd res)))
     = Gui.frame_counter (Gui.state p) + 1 /\
     exists call,
       saved (snd (snd res)) = (saved w ++ [call])%list /\
       sc_save_folder call = Some (PathJoin (data_path w) "mock") /\
       sc_filename_stem call
       = "frame_" ++ format_04d (Gui.frame_counter (Gui.state p))).
Proof.
  split.
  - intros p w w1 c0 f Hrun Hrec Hest Hfps Hstop Hclose Hcons Hopen Hsnap.
    destruct (@construct_tis_fresh w w1 c0 Hcons)
      as (Hfolder & _ & _ & Hsaved).
    pose proof (tis_open_outcomes io2 c0) as [_ Hout].
    rewrite Hopen in Hout. destruct Hout as (_ & _ & _ & _ & Hsink & _).
    pose proof (tis_step_other_save_folder (tis_open io2 c0)) as Hf1.
    rewrite Hfolder in Hf1.
    destruct (tis_close_outcomes io1 (Gui.camera p)) as [Hc2 Hc1].
    rewrite Hstop, Hclose in Hc1.
    destruct (@recording_survives_restart Tis.TisCamera Tis.TisCamera_Camera
                construct_tis io1 io2 io3 p w (Gui.camera p) c0
                (snd (Tis.open io2 c0)) (snd (Tis.open io2 c0)) w1 f
                (Tis._get_frame_view (snd (Tis.open io2 c0)) f
                   (Tis.State.demosaic (Tis.state (snd (Tis.open io2 c0)))))
                Hrun Hrec Hest Hfps)
      as (Hres & _ & _ & Hrec' & Hfc & Hs).
    + change (Tis.close io1 (Gui.camera p) = (Ok tt, Gui.camera p)).
      destruct (Tis.close io1 (Gui.camera p)) as [r c].
      simpl in Hc1, Hc2. subst. reflexivity.
    + exact Hcons.
    + change (Tis.open io2 c0 = (Ok tt, snd (Tis.open io2 c0))).
      destruct (Tis.open io2 c0) as [r c]. simpl in Hopen. subst r.
      reflexivity.
    + change (Tis.get_frame io3 (Gui.fps (Gui.state p))
                (snd (Tis.open io2 c0))
              = (Ok (f, Tis._get_frame_view (snd (Tis.open io2 c0)) f
                          (Tis.State.demosaic
                             (Tis.state (snd (Tis.open io2 c0))))),
                 snd (Tis.open io2 c0))).
      unfold Tis.get_frame. rewrite Hsink, Hsnap. reflexivity.
    + cbv zeta. split; [exact Hres |]. split; [exact Hrec' |].
      split; [exact Hfc |]. eexists. rewrite Hs, Hsaved.
      split; [reflexivity |]. split; [reflexivity |].
      split; [exact Hf1 | reflexivity].
  - intros p w Hrun Hrec Hest Hfps.
    destruct (mock_init_ok w) as (m & w1 & Hinit).
    destruct (@mock_init_inv w w1 m Hinit) as [Hm Hw1].
    assert (Hshape : Mock._shape m = (480%nat, 640%nat))
      by (rewrite Hm; reflexivity).
    destruct (@mock_get_frame_rect io3 (Gui.fps (Gui.state p)) m 479 639
                Hshape) as (img & Hget & _).
    destruct (@recording_survives_restart Mock.MockCamera
                Mock.MockCamera_Camera
                construct_mock io1 io2 io3 p w (Gui.camera p) m m
                (Mock.set__counter (Mock._counter m + 1) m) w1 img
                (ViewArray img) Hrun Hrec Hest Hfps eq_refl Hinit eq_refl
                Hget)
      as (Hres & _ & _ & Hrec' & Hfc & Hs).
    cbv zeta. split; [exact Hres |]. split; [exact Hrec' |].
    split; [exact Hfc |]. eexists. rewrite Hs.
    pose proof (mkdir_frame true (PathJoin (data_path w) "mock") w)
      as (Hsaved & _).
    rewrite Hw1, Hsaved.
    split; [reflexivity |]. split; [| reflexivity].
    cbn [sc_save_folder save_folder Mock.MockCamera_Camera].
    rewrite Hm. reflexivity.
Qed.

Lemma stop_does_not_end_a_recording_witness :
  exists call,
    saved (snd (snd
      ((Gui.toggle_running construct_tis io_timeout ;;
        Gui.toggle_running construct_tis io_timeout ;;
        Gui.update_frame (io_deliver [[0; 65535]]))
         (Gui.set_state
            (Gui.set_recording true
               (Gui.state (running_player sample_tis_open "tis")))
            (running_player sample_tis_open "tis"), sample_world))))
    = (saved sample_world ++ [call])%list /\
    sc_frame call = [[0; 65535]] /\
    sc_save_folder call = None /\
    sc_filename_stem call = "frame_0000".
Proof.
  destruct (proj1 (stop_does_not_end_a_recording io_timeout io_timeout
                     (io_deliver [[0; 65535]]))
              (Gui.set_state
                 (Gui.set_recording true
                    (Gui.state (running_player sample_tis_open "tis")))
                 (running_player sample_tis_open "tis"))
              sample_world (snd (construct_tis sample_world)) sample_tis
              [[0; 65535]] eq_refl eq_refl eq_refl)
    as (_ & _ & _ & Hcall);
    try reflexivity; [discriminate |].
  exact Hcall.
Defined.

(** ** Starting and stopping a [TisCamera] session *)

(** X14. What the play button does with a [TisCamera].  Stopping: when the
    SDK refuses to stop the stream or to close the device, [IC4Exception]
    leaves the handler and the session stays running, with the pause flag
    as it was.  Starting, once the constructor has returned: with no device
    attached [open] raises [IndexError], which is not of the class
    [exception_type()] names, so it leaves the handler; when the SDK refuses
    a call, [IC4Exception] is caught and the handler returns; in both cases
    the session stays stopped and the player holds the new, unopened
    camera.  When [open] returns, the session runs unpaused on the new
    camera, whose [exposure()] is 500000: the correction that
    [setup_exposure_slider] asks of [update_exposure] comes while [running]
    is still false and does nothing, although 500000 is above the slider
    maximum [min(1000000 // fps, 33333000)] for every frame rate from 3
    on. *)
Theorem tis_toggle_running_outcomes
  (io : Io) (p : Gui.VideoPlayer Tis.TisCamera) (w : World) :
  (Gui.running (Gui.state p) = true ->
   stream_stop_ok io && device_close_ok io = false ->
   fst (Gui.toggle_running construct_tis io (p, w)) = Raise IC4Exception /\
   Gui.state (fst (snd (Gui.toggle_running construct_tis io (p, w))))
   = Gui.state p) /\
  (Gui.running (Gui.state p) = false ->
   forall c0 w1,
     construct_tis w = (Ok c0, w1) ->
     let res := Gui.toggle_running construct_tis io (p, w) in
     match fst (Tis.open io c0) with
     | Raise e =>
         fst res = (if Tis.exception_type c0 e then Ok tt else Raise e) /\
         (devices io = O -> fst res = Raise IndexError) /\
         (devices io <> O -> fst res = Ok tt) /\
         Gui.state (fst (snd res)) = Gui.state p /\
         Tis.state (Gui.camera (fst (snd res))) = Tis.state c0
     | Ok _ =>
         Gui.fps (Gui.state p) <> 0 ->
         fst res = Ok tt /\
         Gui.running (Gui.state (fst (snd res))) = true /\
         Gui.paused (Gui.state (fst (snd res))) = false /\
         Gui.camera (fst (snd res)) = snd (Tis.open io c0) /\
         Tis.exposure (Gui.camera (fst (snd res))) = 500000 /\
         (3 <= Gui.fps (Gui.state p) ->
          Z.min (1000000 / Gui.fps (Gui.state p))
                (snd (fst (Tis.exposure_range (Gui.camera (fst (snd res))))))
          < Tis.exposure (Gui.camera (fst (snd res))))
     end).
Proof.
  split.
  - intros Hrun Hbad. rewrite toggle_running_eq, Hrun.
    destruct (tis_close_outcomes io (Gui.camera p)) as [Hc Hr].
    rewrite Hbad in Hr.
    change (close io (Gui.camera p)) with (Tis.close io (Gui.camera p)).
    destruct (Tis.close io (Gui.camera p)) as [r c]. simpl in Hc, Hr.
    subst r c. split; reflexivity.
  - intros Hrun c0 w1 Hcons res. subst res.
    rewrite toggle_running_eq, Hrun, Hcons.
    destruct (@construct_tis_fresh w w1 c0 Hcons) as (_ & _ & Hexp & _).
    pose proof (tis_open_outcomes io c0) as [Hstate Hout].
    change (open io c0) with (Tis.open io c0).
    destruct (Tis.open io c0) as [[[] | e] c1]; cbn [fst snd] in *.
    + intros Hfps.
      destruct (Z.eqb_spec (Gui.fps (Gui.state p)) 0) as [H0 | _];
        [contradiction |].
      cbn [fst snd Gui.state Gui.set_state Gui.camera Gui.set_camera
           toggled Gui.running Gui.paused Gui.set_running Gui.set_paused].
      rewrite Hrun. unfold Tis.exposure, Tis.exposure_range.
      rewrite Hstate, Hexp.
      repeat split; try reflexivity.
      intros H3. cbn [fst snd].
      apply Z.min_lt_iff. left.
      apply Z.div_lt_upper_bound; lia.
    + change (exception_type c1 e) with (Tis.exception_type c0 e).
      destruct e; try contradiction; cbn [Tis.exception_type fst snd];
        destruct Hout as (Hdev & Hrest); repeat split; auto;
        congruence.
Qed.

Lemma tis_toggle_running_outcomes_witness :
  fst (Gui.toggle_running construct_tis io_timeout
         ({| Gui.camera := sample_tis;
             Gui.state := Gui.GuiState_init "tis" 30;
             Gui.current_image := None |}, sample_world)) = Ok tt /\
  Tis.exposure
    (Gui.camera
       (fst (snd (Gui.toggle_running construct_tis io_timeout
                    ({| Gui.camera := sample_tis;
                        Gui.state := Gui.GuiState_init "tis" 30;
                        Gui.current_image := None |}, sample_world)))))
  = 500000.
Proof.
  destruct (proj2 (tis_toggle_running_outcomes io_timeout
                     {| Gui.camera := sample_tis;
                        Gui.state := Gui.GuiState_init "tis" 30;
                        Gui.current_image := None |} sample_world)
              eq_refl sample_tis (snd (construct_tis sample_world)) eq_refl)
    as (Hres & _ & _ & _ & Hexp & _).
  - discriminate.
  - split; [exact Hres | exact Hexp].
Defined.

(** ** What the ticks leave alone *)

Section TickFrame.

Context {S : Type} {cam : Camera S}.

Lemma update_frame_frame (io : Io) (p : Gui.VideoPlayer S) (w : World) :
  session_flags (Gui.state (fst (snd (Gui.update_frame io (p, w)))))
  = session_flags (Gui.state p) /\
  outside_serializer (snd (snd (Gui.update_frame io (p, w))))
  = outside_serializer w.
Proof.
  destruct (@update_frame_inv S cam (fun _ => True)
              (fun g => session_flags g = session_flags (Gui.state p))
              (fun _ _ _ => I) (fun _ _ _ _ => I) (fun _ _ _ => I))
    with (io := io) (p := p) (w := w) as (_ & HG & Hw).
  - intros g Hg. rewrite <- Hg. reflexivity.
  - intros b g Hg. rewrite <- Hg. unfold Gui.after_check.
    destruct (negb b && _); reflexivity.
  - exact I.
  - reflexivity.
  - split; [exact HG |].
    destruct Hw as [-> | (call & c & _ & _ & _ & ->)]; reflexivity.
Qed.

Lemma run_ticks_frame (ios : list Io) :
  forall (p : Gui.VideoPlayer S) (w : World),
    session_flags (Gui.state (fst (snd (Gui.run_ticks ios (p, w)))))
    = session_flags (Gui.state p) /\
    outside_serializer (snd (snd (Gui.run_ticks ios (p, w))))
    = outside_serializer w.
Proof.
  induction ios as [| io rest IH]; intros p w; [split; reflexivity |].
  destruct (update_frame_frame io p w) as [Hg Hw].
  simpl Gui.run_ticks. unfold bind.
  destruct (Gui.update_frame io (p, w)) as [[[] | e] [p1 w1]];
    cbn [fst snd] in *.
  - destruct (IH p1 w1) as [Hg' Hw']. split; congruence.
  - split; assumption.
Qed.

End TickFrame.

(** X15. What the ticks leave alone, on every backend and whatever the
    device answers, up to a tick that raises: a run of ticks never starts,
    stops, pauses or resumes the session and never starts or ends a
    recording; it does not change the frame rate, the selected camera, the
    recording format or the file name stem; and of the world it changes
    nothing but the list of calls received by the serializer: no directory
    is made and no module imported. *)
Theorem ticks_leave_flags_and_files_alone
  (S : Type) (cam : Camera S) (ios : list Io) (p : Gui.VideoPlayer S)
  (w : World) :
  let p' := fst (snd (Gui.run_ticks ios (p, w))) in
  let w' := snd (snd (Gui.run_ticks ios (p, w))) in
  Gui.running (Gui.state p') = Gui.running (Gui.state p) /\
  Gui.paused (Gui.state p') = Gui.paused (Gui.state p) /\
  Gui.recording (Gui.state p') = Gui.recording (Gui.state p) /\
  Gui.fps (Gui.state p') = Gui.fps (Gui.state p) /\
  Gui.selected_camera (Gui.state p') = Gui.selected_camera (Gui.state p) /\
  Gui.recording_format (Gui.state p') = Gui.recording_format (Gui.state p) /\
  Gui.filename_stem (Gui.state p') = Gui.filename_stem (Gui.state p) /\
  dirs w' = dirs w /\ sys_modules w' = sys_modules w /\
  importable w' = importable w /\ data_path w' = data_path w.
Proof.
  destruct (run_ticks_frame ios p w) as [Hg Hw]. cbv zeta.
  unfold session_flags in Hg. unfold outside_serializer in Hw.
  inversion Hg. inversion Hw. repeat split; assumption.
Qed.
